(** * GitHub report clients: [graal_report.py] and [unassigned_issues.py]

    A shallow embedding of the two scripts of the repository and the
    properties of their paginated fetch, result cache and report passes.

    Layout:
    - [Py]: the fragment of Python the scripts rely on (parsed JSON values,
      subscripting, truthiness, exceptions, insertion-ordered dictionaries,
      naive datetimes);
    - [World] and the state-and-exception monad [M] the scripts run in;
    - [GraalReport]: the functions of [graal_report.py];
    - [UnassignedIssues]: the functions of [unassigned_issues.py];
    - the vocabulary of the properties, synthetic responses and the
      worlds of the examples;
    - the properties, at the end of the file. *)

From Stdlib Require Import ZArith List String Ascii Bool Lia Sorted Permutation DecimalString.
Import ListNotations.

Set Warnings "-register-all".

Open Scope string_scope.
Open Scope list_scope.
Open Scope Z_scope.

(** Python's [+] on [str]. *)
Infix "+:+" := String.append (at level 60, right associativity) : string_scope.

(** ** Python values *)

Module Py.

(** A value produced by [json.loads]: [None], [bool], [int], [str], [list]
    and [dict] with [str] keys.  A [JDict] lists its items in insertion
    order; subscripting finds the first item with the key.  JSON numbers
    with a fraction are outside the embedding (every numeric field the
    queries select is a GraphQL [Int]). *)
Inductive Json : Type :=
| JNull
| JBool (b : bool)
| JInt (n : Z)
| JStr (s : string)
| JList (l : list Json)
| JDict (d : list (string * Json)).

(** The exceptions the scripts raise or let escape. *)
Inductive Exn : Type :=
| KeyError (k : string)          (* [d[k]] on a dict without key [k] *)
| TypeError                      (* subscript or iteration of the wrong type, unhashable key, unordered operands *)
| ValueError                     (* [int(s)], [fromisoformat(s)] on a malformed string *)
| AttributeError                 (* [s.endswith] on a value that is not a [str] *)
| QueryFailed (code : Z) (query : string)
                                 (* [Exception("Query failed to run by returning code of {}. {}")] *)
| SystemExit                     (* [raise SystemExit()] *)
| URLError                       (* the transport has no reply: the HTTP library itself raised *)
| HTTPError (code : Z)           (* [urllib.error.HTTPError], a kind of [URLError]: ["HTTP Error {code}: {reason}"] *)
| OutOfFuel.                     (* the embedding's loop bound was reached; see [fetch_pages_fuel] *)

Inductive Result (A : Type) : Type :=
| Ok (a : A)
| Raise (e : Exn).
Arguments Ok {A} a.
Arguments Raise {A} e.

Definition rbind {A B} (r : Result A) (k : A -> Result B) : Result B :=
  match r with
  | Ok a => k a
  | Raise e => Raise e
  end.

Declare Scope result_scope.
Delimit Scope result_scope with result.
Notation "x <- r ;; k" := (rbind r (fun x => k))
  (at level 61, r at next level, right associativity) : result_scope.
Notation "' p <- r ;; k" := (rbind r (fun x => let p := x in k))
  (at level 61, p pattern, r at next level, right associativity) : result_scope.

(** [bool(v)]: the truth value of [v] in an [if]. *)
Definition truthy (v : Json) : bool :=
  match v with
  | JNull => false
  | JBool b => b
  | JInt n => negb (n =? 0)
  | JStr s => negb (String.eqb s EmptyString)
  | JList l => match l with [] => false | _ => true end
  | JDict d => match d with [] => false | _ => true end
  end.

(** [v == True]: Python's [bool] is a subtype of [int], so [1 == True]. *)
Definition eq_True (v : Json) : bool :=
  match v with
  | JBool b => b
  | JInt n => n =? 1
  | _ => false
  end.

Fixpoint assoc {V : Type} (k : string) (d : list (string * V)) : option V :=
  match d with
  | [] => None
  | (k', v) :: d' => if String.eqb k k' then Some v else assoc k d'
  end.

(** [v[k]] for a [str] key [k]. *)
Definition subscript (v : Json) (k : string) : Result Json :=
  match v with
  | JDict d => match assoc k d with
               | Some x => Ok x
               | None => Raise (KeyError k)
               end
  | _ => Raise TypeError
  end.

Fixpoint chars (s : string) : list Json :=
  match s with
  | EmptyString => []
  | String c s' => JStr (String c EmptyString) :: chars s'
  end.

(** The items a [for x in v] loop visits. *)
Definition iterate (v : Json) : Result (list Json) :=
  match v with
  | JList l => Ok l
  | JDict d => Ok (map (fun kv => JStr (fst kv)) d)
  | JStr s => Ok (chars s)
  | _ => Raise TypeError
  end.

(** ** Keys of the node dictionary

    [all_nodes[node["number"]] = node] hashes the value of [number].  The
    hashable JSON values are [None], [bool], [int] and [str]; [True] and [1]
    (and [False] and [0]) are equal keys. *)
Inductive Key : Type :=
| KNone
| KNum (n : Z)
| KStr (s : string).

Definition key_of (v : Json) : Result Key :=
  match v with
  | JNull => Ok KNone
  | JBool b => Ok (KNum (Z.b2z b))
  | JInt n => Ok (KNum n)
  | JStr s => Ok (KStr s)
  | JList _ | JDict _ => Raise TypeError
  end.

Definition key_eqb (a b : Key) : bool :=
  match a, b with
  | KNone, KNone => true
  | KNum x, KNum y => x =? y
  | KStr s, KStr t => String.eqb s t
  | _, _ => false
  end.

(** [a < b] on keys: defined between two numbers and between two strings,
    a [TypeError] otherwise. *)
Definition key_lt (a b : Key) : Result bool :=
  match a, b with
  | KNum x, KNum y => Ok (x <? y)
  | KStr s, KStr t => Ok (String.ltb s t)
  | _, _ => Raise TypeError
  end.

(** ** Insertion-ordered dictionaries *)

Section Dict.
Context {K V : Type}.
Variable eqb : K -> K -> bool.

Definition Dict := list (K * V).

Fixpoint dict_get (k : K) (d : Dict) : option V :=
  match d with
  | [] => None
  | (k', v) :: d' => if eqb k k' then Some v else dict_get k d'
  end.

Definition dict_mem (k : K) (d : Dict) : bool :=
  match dict_get k d with
  | Some _ => true
  | None => false
  end.

(** [d[k] = v]: an existing key keeps its position and gets the new
    value, a new key goes last. *)
Fixpoint dict_set (k : K) (v : V) (d : Dict) : Dict :=
  match d with
  | [] => [(k, v)]
  | (k', v') :: d' =>
      if eqb k k' then (k', v) :: d' else (k', v') :: dict_set k v d'
  end.

Definition keys (d : Dict) : list K := map fst d.
Definition values (d : Dict) : list V := map snd d.
End Dict.

Arguments Dict K V : clear implicits.

(** ** Naive datetimes *)

Record DateTime : Type := mkDateTime {
  year : Z; month : Z; day : Z;
  hour : Z; minute : Z; second : Z; microsecond : Z
}.

Definition dt_fields (t : DateTime) : list Z :=
  [year t; month t; day t; hour t; minute t; second t; microsecond t].

Fixpoint lex_ltb (a b : list Z) : bool :=
  match a, b with
  | x :: a', y :: b' => (x <? y) || ((x =? y) && lex_ltb a' b')
  | [], _ :: _ => true
  | _, [] => false
  end.

(** [a < b] and [a > b] on naive datetimes: field by field, year first. *)
Definition dt_ltb (a b : DateTime) : bool := lex_ltb (dt_fields a) (dt_fields b).
Definition dt_gtb (a b : DateTime) : bool := dt_ltb b a.

Definition is_leap (y : Z) : bool :=
  ((y mod 4 =? 0) && negb (y mod 100 =? 0)) || (y mod 400 =? 0).

(** Days in the months before [m] ([_DAYS_BEFORE_MONTH], with the leap day). *)
Definition days_before_month (y m : Z) : Z :=
  let base := nth (Z.to_nat m) [0; 0; 31; 59; 90; 120; 151; 181; 212; 243; 273; 304; 334] 0 in
  if (2 <? m) && is_leap y then base + 1 else base.

Definition days_before_year (y : Z) : Z :=
  let p := y - 1 in p * 365 + p / 4 - p / 100 + p / 400.

(** Proleptic Gregorian ordinal of a date ([_ymd2ord]). *)
Definition ymd2ord (y m d : Z) : Z :=
  days_before_year y + days_before_month y m + d.

Definition to_microseconds (t : DateTime) : Z :=
  ((ymd2ord (year t) (month t) (day t) * 86400
    + hour t * 3600 + minute t * 60 + second t) * 1000000) + microsecond t.

(** [(a - b).days]: a [timedelta] is normalised so that [days] is the
    floor of the difference in days. *)
Definition delta_days (a b : DateTime) : Z :=
  (to_microseconds a - to_microseconds b) / 86400000000.

(** ** Library functions taken as given

    [str(v)] as used by [format], [int(s)] on a [str], and
    [datetime.fromisoformat]: the scripts call them, the repository does not
    define them.  [None] stands for the [ValueError] they raise. *)
Class Builtins : Type := {
  str_of : Json -> string;
  int_of_str : string -> option Z;
  fromisoformat : string -> option DateTime
}.

(** [int(v)]. *)
Definition int {B : Builtins} (v : Json) : Result Z :=
  match v with
  | JInt n => Ok n
  | JBool b => Ok (Z.b2z b)
  | JStr s => match int_of_str s with
              | Some n => Ok n
              | None => Raise ValueError
              end
  | _ => Raise TypeError
  end.

End Py.

Import Py.

(** ** Sorting, as [sorted] does it

    [sorted] orders its items with [<] alone.  The items sorted here are
    the [(number, node)] pairs of a dictionary, whose keys differ pairwise,
    so the order of two pairs is the order of their keys and a comparison
    that Python cannot make ([None], or a number against a string) is a
    [TypeError]; no comparison is made on fewer than two items. *)
Section Sort.
Context {A : Type}.
Variable lt : A -> A -> Result bool.

Fixpoint insert_sorted (x : A) (l : list A) : Result (list A) :=
  match l with
  | [] => Ok [x]
  | y :: l' =>
      (b <- lt x y ;;
       if b then Ok (x :: y :: l')
       else (r <- insert_sorted x l' ;; Ok (y :: r)))%result
  end.

Fixpoint sort_with (l : list A) : Result (list A) :=
  match l with
  | [] => Ok []
  | x :: l' => (s <- sort_with l' ;; insert_sorted x s)%result
  end.
End Sort.

(** A node dictionary: [number] to node, in insertion order. *)
Definition NodeSet : Type := Dict Key Json.

(** Whether item [a] goes ahead of item [b]: by [<] on the keys, turned
    round under [reverse=True]. *)
Definition item_lt (reverse : bool) (a b : Key * Json) : Result bool :=
  if reverse then key_lt (fst b) (fst a) else key_lt (fst a) (fst b).

(** [sorted(nodes.items())] and [sorted(nodes.items(), reverse=True)]. *)
Definition sorted_items (reverse : bool) (nodes : NodeSet) : Result (list (Key * Json)) :=
  sort_with (item_lt reverse) nodes.

(** ** The world the scripts run in *)

(** A reply of the HTTP endpoint: the status code and the parsed body. *)
Record HttpResponse : Type := mkResponse {
  status : Z;
  body : Json
}.

(** What the scripts write.  A report line is kept as the values its
    template interpolates; the template is quoted next to each constructor. *)
Inductive Event : Type :=
| Write (s : string)                   (* [sys.stdout.write(s)], [print] of a constant line *)
| PrintExc (e : Exn)                   (* [traceback.print_exc()] *)
| PrintResult (r : Json)               (* [print(result)] *)
| Unassigned (url title : Json)        (* ['{}: "{}"'] *)
| NoOracleComment (url title : Json)   (* ['{}: "{}" (no Oracle comments)'] *)
| StaleFor (url title : Json) (days : Z) (comment_url : Json)
                                       (* ['{}: "{}" ({} days, {})'] *)
| Total (node_type : string) (n : Z)   (* ["Total unassigned open " + node_type + "s: " + str(n)] *)
| YearCounts (y : Z) (counts : list (string * Z)).
                                       (* ['{}: {}'] with the tab-joined ['{}={}'] of the labels *)

(** The transport is a script of the replies it will give, in order; the
    queries sent are logged.  [_cached_results] is the module-level cache of
    [graal_report.py], [clock] what [datetime.datetime.now()] reads. *)
Record World : Type := mkWorld {
  transport : list HttpResponse;
  requests : list string;
  _cached_results : Dict string NodeSet;
  clock : DateTime;
  console : list Event
}.

Definition M (A : Type) : Type := World -> Result A * World.

Definition ret {A} (a : A) : M A := fun w => (Ok a, w).
Definition raise {A} (e : Exn) : M A := fun w => (Raise e, w).
Definition bind {A B} (m : M A) (k : A -> M B) : M B :=
  fun w => match m w with
           | (Ok a, w') => k a w'
           | (Raise e, w') => (Raise e, w')
           end.
Definition lift {A} (r : Result A) : M A := fun w => (r, w).

Declare Scope monad_scope.
Delimit Scope monad_scope with monad.
Notation "x <- m ;; k" := (bind m (fun x => k))
  (at level 61, m at next level, right associativity) : monad_scope.
Notation "m ;; k" := (bind m (fun _ => k))
  (at level 61, right associativity) : monad_scope.

Definition emit (e : Event) : M unit :=
  fun w => (Ok tt, mkWorld (transport w) (requests w) (_cached_results w) (clock w)
                           (console w ++ [e])).
Definition now : M DateTime := fun w => (Ok (clock w), w).
Definition pending : M nat := fun w => (Ok (List.length (transport w)), w).

(** The newline, which [os.linesep] is taken to be, and the double quote. *)
Definition nl : string := String "010"%char EmptyString.
Definition dq : string := String "034"%char EmptyString.
Definition rule : string :=
  "====================================================================================================".

(** The transport collaborator: takes the next reply of the script and
    logs the query.  A script that has run out answers nothing.  The
    replies of the script are the final ones, after the redirections an
    HTTP library follows by itself.  This is [requests.post] as it is:
    it hands back the reply whatever its status.  The decoding of the
    body is the library's and not part of the embedding. *)
Definition post (query : string) : M HttpResponse :=
  fun w =>
    let sent := requests w ++ [query] in
    match transport w with
    | [] => (Raise URLError, mkWorld [] sent (_cached_results w) (clock w) (console w))
    | r :: rest => (Ok r, mkWorld rest sent (_cached_results w) (clock w) (console w))
    end.

(** * [graal_report.py] *)

Module GraalReport.
Section WithBuiltins.
Context {B : Builtins}.

(** [urllib.request.urlopen(req)]: the reply when its status is in
    200..299.  For every other status the library raises [HTTPError]
    itself (its [HTTPErrorProcessor] tests [200 <= code < 300]), and the
    body of the [with] is not entered. *)
Definition urlopen (query : string) : M HttpResponse :=
  (f <- post query ;;
   if (200 <=? status f) && (status f <? 300) then ret f
   else raise (HTTPError (status f)))%monad.

Definition run_query (query : string) : M Json :=
  (f <- urlopen query ;;
   if status f =? 200 then ret (body f)
   else raise (QueryFailed (status f) query))%monad.

Definition _node_info1 : string :=
  String.concat nl [
    EmptyString;
    "number";
    "url";
    "title";
    "assignees(first: 1) {";
    "  totalCount";
    "}";
    "timelineItems(last:10) {";
    "  edges {";
    "    node {";
    "      ... on IssueComment {";
    "        updatedAt";
    "        url";
    "        author {";
    "          ... on User {";
    "              organization(login: " +:+ dq +:+ "oracle" +:+ dq +:+ ") {";
    "              login";
    "            }";
    "          }";
    "          login";
    "        }";
    "      }";
    "    }";
    "  }";
    "}";
    EmptyString ].

Definition get_open_nodes_query (node_type node_info states : string) (cursor : Json)
  : string :=
  let after := if truthy cursor then dq +:+ str_of cursor +:+ dq else "null" in
  String.concat nl [
    EmptyString;
    "{";
    "  repositoryOwner(login: " +:+ dq +:+ "oracle" +:+ dq +:+ ") {";
    "    repository(name: " +:+ dq +:+ "graal" +:+ dq +:+ ") {";
    "      " +:+ node_type +:+ "s(first: 100, states:" +:+ states +:+ ", after:" +:+ after +:+ ") {";
    "        totalCount";
    "        pageInfo {";
    "          hasNextPage";
    "          endCursor";
    "        }";
    "        edges {";
    "          node {" +:+ node_info +:+ " }";
    "        }";
    "      }";
    "    }";
    "  }";
    "}";
    EmptyString ].

(** [for e in edges: node = e["node"]; all_nodes[node["number"]] = node]. *)
Fixpoint merge_edges (edges : list Json) (all_nodes : NodeSet) : Result NodeSet :=
  match edges with
  | [] => Ok all_nodes
  | e :: edges' =>
      (node <- subscript e "node" ;;
       number <- subscript node "number" ;;
       k <- key_of number ;;
       merge_edges edges' (dict_set key_eqb k node all_nodes))%result
  end.

(** The body of the [try] of [get_nodes] for one reply: the merged nodes,
    and the cursor of the next page when [hasNextPage] is [True]. *)
Definition read_page (node_type : string) (result : Json) (all_nodes : NodeSet)
  : Result (NodeSet * option Json) :=
  (data <- subscript result "data" ;;
   owner <- subscript data "repositoryOwner" ;;
   repository <- subscript owner "repository" ;;
   nodes <- subscript repository (node_type +:+ "s") ;;
   edges <- subscript nodes "edges" ;;
   es <- iterate edges ;;
   all_nodes' <- merge_edges es all_nodes ;;
   page_info <- subscript nodes "pageInfo" ;;
   has_next <- subscript page_info "hasNextPage" ;;
   if negb (eq_True has_next) then Ok (all_nodes', None)
   else (endCursor <- subscript page_info "endCursor" ;;
         Ok (all_nodes', Some endCursor)))%result.

(** The [while True] loop of [get_nodes].  [fuel] bounds the number of
    iterations; [get_nodes] passes one more than the replies the transport
    still holds, which the loop cannot use up ([fetch_pages_fuel]). *)
Fixpoint fetch_pages (fuel : nat) (node_type node_info states : string)
    (endCursor : Json) (all_nodes : NodeSet) : M NodeSet :=
  match fuel with
  | O => raise OutOfFuel
  | S fuel' =>
      (emit (Write ".") ;;
       result <- run_query (get_open_nodes_query node_type node_info states endCursor) ;;
       match read_page node_type result all_nodes with
       | Ok (all_nodes', None) => ret all_nodes'
       | Ok (all_nodes', Some cursor) =>
           fetch_pages fuel' node_type node_info states cursor all_nodes'
       | Raise (KeyError k) =>
           emit (PrintExc (KeyError k)) ;;
           emit (PrintResult result) ;;
           raise SystemExit
       | Raise e => raise e
       end)%monad
  end.

Definition cache_store (key : string) (all_nodes : NodeSet) : M unit :=
  fun w => (Ok tt, mkWorld (transport w) (requests w)
                           (dict_set String.eqb key all_nodes (_cached_results w))
                           (clock w) (console w)).

Definition get_nodes (node_type node_info states : string) : M NodeSet :=
  fun w =>
    let key := node_type +:+ node_info in
    if dict_mem String.eqb key (_cached_results w) then
      match dict_get String.eqb node_type (_cached_results w) with
      | Some all_nodes => (Ok all_nodes, w)
      | None => (Raise (KeyError node_type), w)
      end
    else
      (emit (Write ("Getting " +:+ node_type +:+ "s")) ;;
       n <- pending ;;
       all_nodes <- fetch_pages (S n) node_type node_info states JNull [] ;;
       emit (Write nl) ;;
       cache_store key all_nodes ;;
       ret all_nodes)%monad w.

Fixpoint unassigned_loop (items : list (Key * Json)) (total_unassigned : Z) : M Z :=
  match items with
  | [] => ret total_unassigned
  | (_, node) :: items' =>
      (num_assignees <- lift (assignees <- subscript node "assignees" ;;
                              count <- subscript assignees "totalCount" ;;
                              int count)%result ;;
       if num_assignees =? 0 then
         line <- lift (url <- subscript node "url" ;;
                       title <- subscript node "title" ;;
                       Ok (Unassigned url title))%result ;;
         emit line ;;
         unassigned_loop items' (total_unassigned + 1)
       else unassigned_loop items' total_unassigned)%monad
  end.

Definition show_unassigned_nodes (node_type : string) : M unit :=
  (nodes <- get_nodes node_type _node_info1 "OPEN" ;;
   emit (Write rule) ;;
   emit (Write ("Unassigned open " +:+ node_type +:+ "s")) ;;
   emit (Write rule) ;;
   items <- lift (sorted_items true nodes) ;;
   total_unassigned <- unassigned_loop items 0 ;;
   emit (Total node_type total_unassigned) ;;
   emit (Write EmptyString))%monad.

Fixpoint drop_last (s : string) : string :=
  match s with
  | EmptyString => EmptyString
  | String c EmptyString => EmptyString
  | String c s' => String c (drop_last s')
  end.

Fixpoint endswith_Z (s : string) : bool :=
  match s with
  | EmptyString => false
  | String c EmptyString => Ascii.eqb c "Z"%char
  | String _ s' => endswith_Z s'
  end.

Definition parse_datetime (s : Json) : Result DateTime :=
  match s with
  | JStr x =>
      let x' := if endswith_Z x then drop_last x else x in
      match fromisoformat x' with
      | Some t => Ok t
      | None => Raise ValueError
      end
  | _ => Raise AttributeError
  end.

(** One turn of the loop over [timeline["edges"]]. *)
Definition scan_edge (last_oracle_comment : option (Json * DateTime)) (edge : Json)
  : Result (option (Json * DateTime)) :=
  (item <- subscript edge "node" ;;
   if truthy item then
     author <- subscript item "author" ;;
     if truthy author then
       organization <- subscript author "organization" ;;
       if truthy organization then
         match last_oracle_comment with
         | None =>
             url <- subscript item "url" ;;
             stamp <- subscript item "updatedAt" ;;
             updated_at <- parse_datetime stamp ;;
             Ok (Some (url, updated_at))
         | Some (_, previous_updated_at) =>
             stamp <- subscript item "updatedAt" ;;
             updated_at <- parse_datetime stamp ;;
             if dt_gtb updated_at previous_updated_at then
               url <- subscript item "url" ;;
               Ok (Some (url, updated_at))
             else Ok last_oracle_comment
         end
       else Ok last_oracle_comment
     else Ok last_oracle_comment
   else Ok last_oracle_comment)%result.

Fixpoint scan_timeline (edges : list Json) (last_oracle_comment : option (Json * DateTime))
  : Result (option (Json * DateTime)) :=
  match edges with
  | [] => Ok last_oracle_comment
  | edge :: edges' =>
      (last <- scan_edge last_oracle_comment edge ;;
       scan_timeline edges' last)%result
  end.

(** The body of the loop over the nodes: the line printed for [node], if any. *)
Definition activity_line (now : DateTime) (node : Json) : Result (option Event) :=
  (timeline <- subscript node "timelineItems" ;;
   edges <- subscript timeline "edges" ;;
   es <- iterate edges ;;
   last_oracle_comment <- scan_timeline es None ;;
   match last_oracle_comment with
   | None =>
       url <- subscript node "url" ;;
       title <- subscript node "title" ;;
       Ok (Some (NoOracleComment url title))
   | Some (url, updated_at) =>
       let days := delta_days now updated_at in
       if 30 <? days then
         node_url <- subscript node "url" ;;
         title <- subscript node "title" ;;
         Ok (Some (StaleFor node_url title days url))
       else Ok None
   end)%result.

Fixpoint activity_loop (now : DateTime) (items : list (Key * Json)) : M unit :=
  match items with
  | [] => ret tt
  | (_, node) :: items' =>
      (line <- lift (activity_line now node) ;;
       match line with
       | Some l => emit l
       | None => ret tt
       end ;;
       activity_loop now items')%monad
  end.

Definition show_no_recent_activity_nodes (node_type : string) : M unit :=
  (nodes <- get_nodes node_type _node_info1 "OPEN" ;;
   t <- now ;;
   emit (Write rule) ;;
   emit (Write ("Open " +:+ node_type
                +:+ "s that have not been commented on by an Oracle employee for more than 30 days")) ;;
   emit (Write rule) ;;
   items <- lift (sorted_items true nodes) ;;
   activity_loop t items ;;
   emit (Write EmptyString))%monad.

Definition _node_info2 : string :=
  String.concat nl [
    EmptyString;
    "number";
    "author {";
    "  ... on User {";
    "    login";
    "    organizations(first:5) {";
    "      edges {";
    "        node {";
    "          login";
    "        }";
    "      }";
    "    }";
    "  }";
    "}";
    "createdAt";
    "closedAt";
    EmptyString ].

(** [[e["node"]["login"] for e in edges]]. *)
Fixpoint logins (edges : list Json) : Result (list Json) :=
  match edges with
  | [] => Ok []
  | e :: edges' =>
      (node <- subscript e "node" ;;
       login <- subscript node "login" ;;
       rest <- logins edges' ;;
       Ok (login :: rest))%result
  end.

(** [frozenset(l)]: every element is hashed. *)
Fixpoint frozenset (l : list Json) : Result (list Key) :=
  match l with
  | [] => Ok []
  | v :: l' =>
      (k <- key_of v ;;
       rest <- frozenset l' ;;
       Ok (k :: rest))%result
  end.

Definition YearTable : Type := Dict Z (Dict string Z).

(** The body of the loop over [nodes.values()]. *)
Definition count_node (opened_per_year : YearTable) (node : Json) : Result YearTable :=
  (author <- subscript node "author" ;;
   if truthy author then
     stamp <- subscript node "createdAt" ;;
     created_at <- parse_datetime stamp ;;
     organizations <- subscript author "organizations" ;;
     edges <- subscript organizations "edges" ;;
     es <- iterate edges ;;
     names <- logins es ;;
     orgs <- frozenset names ;;
     let opened :=
       match dict_get Z.eqb (year created_at) opened_per_year with
       | Some o => o
       | None => []
       end in
     let key := if existsb (key_eqb (KStr "oracle")) orgs then "oracle" else "other" in
     let n :=
       match dict_get String.eqb key opened with
       | Some c => c
       | None => 0
       end in
     Ok (dict_set Z.eqb (year created_at) (dict_set String.eqb key (n + 1) opened)
           opened_per_year)
   else Ok opened_per_year)%result.

Fixpoint count_nodes (nodes : list Json) (opened_per_year : YearTable) : Result YearTable :=
  match nodes with
  | [] => Ok opened_per_year
  | node :: nodes' =>
      (t <- count_node opened_per_year node ;;
       count_nodes nodes' t)%result
  end.

Fixpoint year_lines (table : YearTable) : M unit :=
  match table with
  | [] => ret tt
  | (y, opened) :: table' =>
      (counts <- lift (sort_with (fun a b => Ok (String.ltb (fst a) (fst b))) opened) ;;
       emit (YearCounts y counts) ;;
       year_lines table')%monad
  end.

Definition show_nodes_opened_per_year (node_type : string) : M unit :=
  let states :=
    if String.eqb node_type "pullRequest" then "[OPEN,CLOSED,MERGED]" else "[OPEN,CLOSED]" in
  (nodes <- get_nodes node_type _node_info2 states ;;
   _ <- now ;;
   emit (Write rule) ;;
   emit (Write (node_type +:+ "s opened per year")) ;;
   emit (Write rule) ;;
   opened_per_year <- lift (count_nodes (values nodes) []) ;;
   year_lines opened_per_year ;;
   emit (Write EmptyString))%monad.

(** The module body: the six reports, in the order the script runs them. *)
Definition main : M unit :=
  (show_no_recent_activity_nodes "issue" ;;
   show_no_recent_activity_nodes "pullRequest" ;;
   show_unassigned_nodes "pullRequest" ;;
   show_unassigned_nodes "issue" ;;
   show_nodes_opened_per_year "issue" ;;
   show_nodes_opened_per_year "pullRequest")%monad.
End WithBuiltins.
End GraalReport.

(** * [unassigned_issues.py] *)

Module UnassignedIssues.
Section WithBuiltins.
Context {B : Builtins}.

Definition run_query (query : string) : M Json :=
  (request <- post query ;;
   if status request =? 200 then ret (body request)
   else raise (QueryFailed (status request) query))%monad.

(** [cursor is not None] tells [None] ([JNull]) from every other value. *)
Definition get_open_nodes_query (node_type : string) (cursor : Json) : string :=
  let after :=
    match cursor with
    | JNull => EmptyString
    | _ => ", after: " +:+ dq +:+ str_of cursor +:+ dq
    end in
  String.concat nl [
    EmptyString;
    "{";
    "  repositoryOwner(login: " +:+ dq +:+ "oracle" +:+ dq +:+ ") {";
    "    repository(name: " +:+ dq +:+ "graal" +:+ dq +:+ ") {";
    "      " +:+ node_type +:+ "s(first: 100, states:OPEN" +:+ after +:+ ") {";
    "        totalCount";
    "        pageInfo {";
    "          hasNextPage";
    "          endCursor";
    "        }";
    "        edges {";
    "          node {";
    "            number";
    "            url";
    "            state";
    "            title";
    "            assignees(first: 1) {";
    "              totalCount";
    "            }";
    "          }";
    "        }";
    "      }";
    "    }";
    "  }";
    "}";
    EmptyString ].

Fixpoint merge_edges (edges : list Json) (all_nodes : NodeSet) : Result NodeSet :=
  match edges with
  | [] => Ok all_nodes
  | e :: edges' =>
      (node <- subscript e "node" ;;
       number <- subscript node "number" ;;
       k <- key_of number ;;
       merge_edges edges' (dict_set key_eqb k node all_nodes))%result
  end.

Definition read_page (node_type : string) (result : Json) (all_nodes : NodeSet)
  : Result (NodeSet * option Json) :=
  (data <- subscript result "data" ;;
   owner <- subscript data "repositoryOwner" ;;
   repository <- subscript owner "repository" ;;
   nodes <- subscript repository (node_type +:+ "s") ;;
   edges <- subscript nodes "edges" ;;
   es <- iterate edges ;;
   all_nodes' <- merge_edges es all_nodes ;;
   page_info <- subscript nodes "pageInfo" ;;
   has_next <- subscript page_info "hasNextPage" ;;
   if negb (eq_True has_next) then Ok (all_nodes', None)
   else (endCursor <- subscript page_info "endCursor" ;;
         Ok (all_nodes', Some endCursor)))%result.

(** The [while True] loop of [get_nodes]; no exception is caught here. *)
Fixpoint fetch_pages (fuel : nat) (node_type : string)
    (endCursor : Json) (all_nodes : NodeSet) : M NodeSet :=
  match fuel with
  | O => raise OutOfFuel
  | S fuel' =>
      (emit (Write ".") ;;
       result <- run_query (get_open_nodes_query node_type endCursor) ;;
       page <- lift (read_page node_type result all_nodes) ;;
       match page with
       | (all_nodes', None) => ret all_nodes'
       | (all_nodes', Some cursor) => fetch_pages fuel' node_type cursor all_nodes'
       end)%monad
  end.

Definition get_nodes (node_type : string) : M NodeSet :=
  (emit (Write ("Getting " +:+ node_type +:+ "s")) ;;
   n <- pending ;;
   all_nodes <- fetch_pages (S n) node_type JNull [] ;;
   emit (Write nl) ;;
   ret all_nodes)%monad.

(** The line is ['  {}: "{}"'] here, two spaces ahead of the same values. *)
Fixpoint unassigned_loop (items : list (Key * Json)) (total_unassigned : Z) : M Z :=
  match items with
  | [] => ret total_unassigned
  | (_, node) :: items' =>
      (num_assignees <- lift (assignees <- subscript node "assignees" ;;
                              count <- subscript assignees "totalCount" ;;
                              int count)%result ;;
       if num_assignees =? 0 then
         line <- lift (url <- subscript node "url" ;;
                       title <- subscript node "title" ;;
                       Ok (Unassigned url title))%result ;;
         emit line ;;
         unassigned_loop items' (total_unassigned + 1)
       else unassigned_loop items' total_unassigned)%monad
  end.

Definition show_unassigned_nodes (node_type : string) : M unit :=
  (nodes <- get_nodes node_type ;;
   items <- lift (sorted_items false nodes) ;;
   total_unassigned <- unassigned_loop items 0 ;;
   emit (Total node_type total_unassigned))%monad.

Definition main : M unit :=
  (show_unassigned_nodes "pullRequest" ;;
   show_unassigned_nodes "issue")%monad.
End WithBuiltins.
End UnassignedIssues.

(** * Vocabulary of the properties *)

(** ** Pages *)

(** A page as the paginator reads it: the nodes of its edges in order, the
    value of [hasNextPage], and the value of [endCursor]. *)
Record Page : Type := mkPage {
  page_nodes : list Json;
  hasNextPage : Json;
  endCursor : Json
}.

(** [result] is a response holding page [p] of the [node_type] connection:
    the fields the paginator reads are there and hold the parts of [p].
    [endCursor] is only required of a page that announces a next page. *)
Definition is_page (node_type : string) (result : Json) (p : Page) : Prop :=
  exists data owner repository nodes edges page_info,
    subscript result "data" = Ok data /\
    subscript data "repositoryOwner" = Ok owner /\
    subscript owner "repository" = Ok repository /\
    subscript repository (node_type +:+ "s") = Ok nodes /\
    subscript nodes "edges" = Ok (JList edges) /\
    Forall2 (fun e n => subscript e "node" = Ok n) edges (page_nodes p) /\
    subscript nodes "pageInfo" = Ok page_info /\
    subscript page_info "hasNextPage" = Ok (hasNextPage p) /\
    (eq_True (hasNextPage p) = true ->
     subscript page_info "endCursor" = Ok (endCursor p)).

(** A reply that succeeded and whose body holds page [p]. *)
Definition serves (node_type : string) (r : HttpResponse) (p : Page) : Prop :=
  status r = 200 /\ is_page node_type (body r) p.

(** The key a node is filed under: its [number], hashed. *)
Definition number_of (node : Json) : Result Key :=
  (number <- subscript node "number" ;; key_of number)%result.

Definition numbered (node : Json) : Prop := exists k, number_of node = Ok k.

(** Filing nodes one after the other, a later node replacing an earlier
    one of the same number. *)
Definition file_node (d : NodeSet) (node : Json) : NodeSet :=
  match number_of node with
  | Ok k => dict_set key_eqb k node d
  | Raise _ => d
  end.

Definition file_nodes (nodes : list Json) (d : NodeSet) : NodeSet :=
  fold_left file_node nodes d.

Definition all_page_nodes (pages : list Page) : list Json :=
  List.concat (map page_nodes pages).

(** The queries a walk over [pages] sends when it starts from [cursor]:
    each page is asked for with the [endCursor] of the page before it. *)
Fixpoint page_queries (query : Json -> string) (cursor : Json) (pages : list Page)
  : list string :=
  match pages with
  | [] => []
  | p :: pages' => query cursor :: page_queries query (endCursor p) pages'
  end.

(** The cursor in hand after [pages] have been walked. *)
Definition cursor_after (cursor : Json) (pages : list Page) : Json :=
  fold_left (fun _ p => endCursor p) pages cursor.

(** The world after [queries] were answered by the first replies of the
    transport and [events] were written. *)
Definition advance (w : World) (rest : list HttpResponse) (queries : list string)
    (events : list Event) : World :=
  mkWorld rest (requests w ++ queries) (_cached_results w) (clock w) (console w ++ events).

Definition dots (n : nat) : list Event := repeat (Write ".") n.

(** The exceptions a failed lookup in a parsed response raises. *)
Definition lookup_error (e : Exn) : Prop :=
  (exists k, e = KeyError k) \/ e = TypeError.

(** What [run_query] of [graal_report.py] raises for a reply of status
    [code] other than 200 to [query]: the script's own exception for a
    status in 200..299, the library's for any other. *)
Definition status_error (code : Z) (query : string) : Exn :=
  if (200 <=? code) && (code <? 300) then QueryFailed code query else HTTPError code.

(** ** What a walk over pages yields *)

Definition key_eq_dec (a b : Key) : {a = b} + {a <> b}.
Proof. decide equality; [apply Z.eq_dec|apply string_dec]. Defined.

(** [ns] is the union of [nodes]: every node's number is a key of [ns],
    every item of [ns] is one of the nodes under its own number, and no
    number is there twice. *)
Definition is_union (nodes : list Json) (ns : NodeSet) : Prop :=
  (forall node, In node nodes ->
     exists k, number_of node = Ok k /\ dict_mem key_eqb k ns = true) /\
  (forall k node, In (k, node) ns -> In node nodes /\ number_of node = Ok k) /\
  NoDup (keys ns).

(** The outcome [out] of a fetch started in world [w] is a complete walk
    over [pages], which left [rest] on the transport: one query per page,
    each with the cursor of the page before, and the union of the nodes. *)
Definition walked (query : Json -> string) (pages : list Page) (rest : list HttpResponse)
    (w : World) (out : Result NodeSet * World) : Prop :=
  exists ns,
    fst out = Ok ns /\
    is_union (all_page_nodes pages) ns /\
    (all_page_nodes pages = [] -> ns = []) /\
    (NoDup (map number_of (all_page_nodes pages)) ->
     List.length ns = List.length (all_page_nodes pages)) /\
    transport (snd out) = rest /\
    requests (snd out) = requests w ++ page_queries query JNull pages.

(** [node] is what [ns] holds under number [k], and [k] is there once. *)
Definition filed_once (k : Key) (node : Json) (ns : NodeSet) : Prop :=
  dict_get key_eqb k ns = Some node /\ count_occ key_eq_dec (keys ns) k = 1%nat.



(** ** The unassigned report *)

(** [int(node["assignees"]["totalCount"])]. *)
Definition assignee_count {B : Builtins} (node : Json) : Result Z :=
  (assignees <- subscript node "assignees" ;;
   count <- subscript assignees "totalCount" ;;
   int count)%result.

Definition unassignedb {B : Builtins} (item : Key * Json) : bool :=
  match assignee_count (snd item) with
  | Ok 0 => true
  | _ => false
  end.

(** [l] is the line of [node]: its [url] and its [title]. *)
Definition unassigned_line (node : Json) (l : Event) : Prop :=
  exists url title,
    subscript node "url" = Ok url /\ subscript node "title" = Ok title /\
    l = Unassigned url title.

(** A node the classifier can read: the assignee count is there, and the
    [url] and [title] of a node without assignees. *)
Definition classifiable {B : Builtins} (node : Json) : Prop :=
  exists c, assignee_count node = Ok c /\
            (c = 0 -> exists l, unassigned_line node l).

(** Sorted items by their keys. *)
Definition item_ahead (descending : bool) (a b : Key * Json) : Prop :=
  item_lt descending a b = Ok true.

(** Number [a] comes ahead of number [b]: [a < b], or [a > b] when the
    order is descending. *)
Definition ahead (descending : bool) (a b : Key) : Prop :=
  (if descending then key_lt b a else key_lt a b) = Ok true.

(** Numbers that [<] can compare with one another. *)
Definition comparable (ks : list Key) : Prop :=
  forall a b, In a ks -> In b ks -> exists c, key_lt a b = Ok c.

(** [lines] and [total] are the unassigned report of [nodes]: the lines
    of exactly the items without assignees, each once, in the given order
    of the numbers, and how many they are. *)
Definition unassigned_report {B : Builtins} (descending : bool) (nodes : NodeSet)
    (lines : list Event) (total : Z) : Prop :=
  exists out : list (Key * Json),
    (forall k n, In (k, n) out <-> In (k, n) nodes /\ assignee_count n = Ok 0) /\
    NoDup (keys out) /\
    Sorted (ahead descending) (keys out) /\
    Forall2 (fun item l => unassigned_line (snd item) l) out lines /\
    total = Z.of_nat (List.length out).

(** The world with [events] written after what it holds. *)
Definition written (w : World) (events : list Event) : World :=
  mkWorld (transport w) (requests w) (_cached_results w) (clock w) (console w ++ events).

(** ** The activity report *)

(** [edge] is a comment by a member of the organization: its node is a
    comment (an entry of another type comes back as an empty node), the
    comment has an author, the author's [organization] is there; [url] and
    [t] are the comment's URL and update time. *)
Definition authorized {B : Builtins} (edge : Json) (url : Json) (t : DateTime) : Prop :=
  exists item author organization stamp,
    subscript edge "node" = Ok item /\ truthy item = true /\
    subscript item "author" = Ok author /\ truthy author = true /\
    subscript author "organization" = Ok organization /\ truthy organization = true /\
    subscript item "url" = Ok url /\
    subscript item "updatedAt" = Ok stamp /\
    GraalReport.parse_datetime stamp = Ok t.

(** [edge] is no such comment: not a comment, no author, or an author
    who is not in the organization. *)
Definition unauthorized (edge : Json) : Prop :=
  exists item,
    subscript edge "node" = Ok item /\
    (truthy item = false \/
     exists author,
       subscript item "author" = Ok author /\
       (truthy author = false \/
        exists organization,
          subscript author "organization" = Ok organization /\
          truthy organization = false)).

(** What a timeline entry is to the classifier. *)
Definition entry {B : Builtins} (edge : Json) (c : option (Json * DateTime)) : Prop :=
  match c with
  | Some (url, t) => authorized edge url t
  | None => unauthorized edge
  end.

(** [edge] is a comment whose author is not a user: a bot, say.  The
    query selects [organization] inside [... on User], so the response
    gives such an author its [login] and no ["organization"]. *)
Definition non_user_comment (edge : Json) : Prop :=
  exists item author,
    subscript edge "node" = Ok item /\ truthy item = true /\
    subscript item "author" = Ok author /\ truthy author = true /\
    subscript author "organization" = Raise (KeyError "organization").

Definition no_comment (cs : list (option (Json * DateTime))) : Prop :=
  Forall (fun c => c = None) cs.

(** [r] is a qualifying comment of greatest update time among [cs], or
    nothing when [cs] has no qualifying comment. *)
Definition greatest (cs : list (option (Json * DateTime))) (r : option (Json * DateTime))
  : Prop :=
  match r with
  | None => no_comment cs
  | Some (url, t) =>
      In (Some (url, t)) cs /\
      forall url' t', In (Some (url', t')) cs -> dt_gtb t' t = false
  end.

(** [r] is the first of the qualifying comments of greatest update time:
    every qualifying comment ahead of it is strictly older, none after it
    is newer. *)
Definition earliest_greatest (cs : list (option (Json * DateTime)))
    (r : option (Json * DateTime)) : Prop :=
  match r with
  | None => no_comment cs
  | Some (url, t) =>
      exists before after,
        cs = before ++ Some (url, t) :: after /\
        (forall url' t', In (Some (url', t')) before -> dt_ltb t' t = true) /\
        (forall url' t', In (Some (url', t')) after -> dt_gtb t' t = false)
  end.

(** The line of a node with [url] and [title] whose retained comment is
    [r], at time [now]. *)
Definition verdict (now : DateTime) (url title : Json) (r : option (Json * DateTime))
    (line : option Event) : Prop :=
  match r with
  | None => line = Some (NoOracleComment url title)
  | Some (comment_url, t) =>
      (30 < delta_days now t ->
       line = Some (StaleFor url title (delta_days now t) comment_url)) /\
      (delta_days now t <= 30 -> line = None)
  end.

Definition printed (line : option Event) : list Event :=
  match line with
  | Some l => [l]
  | None => []
  end.

(** ** The yearly counts *)

(** The count the table holds for year [y] and [label]; nothing held
    counts as 0. *)
Definition cell (table : GraalReport.YearTable) (y : Z) (label : string) : Z :=
  match dict_get Z.eqb y table with
  | Some opened =>
      match dict_get String.eqb label opened with
      | Some c => c
      | None => 0
      end
  | None => 0
  end.

(** [orgs] are the logins of the organizations the response lists for
    [author], in the order of its edges. *)
Definition returned_orgs (author : Json) (orgs : list string) : Prop :=
  exists organizations edges,
    subscript author "organizations" = Ok organizations /\
    subscript organizations "edges" = Ok (JList edges) /\
    Forall2 (fun e o => exists n, subscript e "node" = Ok n /\
                                  subscript n "login" = Ok (JStr o))
      edges orgs.

(** The label of an author with these organizations. *)
Definition affiliation (orgs : list string) : string :=
  if existsb (String.eqb "oracle") orgs then "oracle" else "other".

(** The bucket of a node: none for a node without author, else the year
    of [createdAt] and the affiliation of the author. *)
Definition bucket {B : Builtins} (node : Json) (b : option (Z * string)) : Prop :=
  match b with
  | None => exists author, subscript node "author" = Ok author /\ truthy author = false
  | Some (y, label) =>
      exists author stamp created_at orgs,
        subscript node "author" = Ok author /\ truthy author = true /\
        subscript node "createdAt" = Ok stamp /\
        GraalReport.parse_datetime stamp = Ok created_at /\
        year created_at = y /\
        returned_orgs author orgs /\
        label = affiliation orgs
  end.

Definition in_bucket (y : Z) (label : string) (b : option (Z * string)) : bool :=
  match b with
  | Some (y', label') => (y' =? y) && String.eqb label' label
  | None => false
  end.


(** The table after one more node of year [y] and [label]. *)
Definition bump (table : GraalReport.YearTable) (y : Z) (label : string)
  : GraalReport.YearTable :=
  let opened := match dict_get Z.eqb y table with
                | Some o => o
                | None => []
                end in
  let n := match dict_get String.eqb label opened with
           | Some c => c
           | None => 0
           end in
  dict_set Z.eqb y (dict_set String.eqb label (n + 1) opened) table.

(** ** Invariants of a fetch *)

(** A NodeSet as the paginator builds it: no number twice, and every
    node under its own number. *)
Definition well_filed (ns : NodeSet) : Prop :=
  NoDup (keys ns) /\ Forall (fun item => number_of (snd item) = Ok (fst item)) ns.

Definition cache_well_filed (w : World) : Prop :=
  Forall (fun entry => well_filed (snd entry)) (_cached_results w).



Definition is_dot (e : Event) : bool :=
  match e with
  | Write s => String.eqb s "."
  | _ => false
  end.

Definition ran_dry (out : Result NodeSet) : bool :=
  match out with
  | Raise URLError => true
  | _ => false
  end.

(** How a fetch that started in [w] and ended in [w'] with outcome [out]
    used the transport: each query took the next reply and wrote one
    dot; only a transport that ran dry was asked once more than it
    answered. *)
Definition accounted (w w' : World) (out : Result NodeSet) : Prop :=
  exists queries taken events,
    requests w' = requests w ++ queries /\
    transport w = taken ++ transport w' /\
    console w' = console w ++ events /\
    List.length (filter is_dot events) = List.length queries /\
    if ran_dry out
    then List.length queries = S (List.length taken) /\ transport w' = []
    else List.length queries = List.length taken.

(** ** The table of the yearly report *)

(** The years of the buckets, one for each node with an author, in the
    order of the nodes. *)
Definition years (bs : list (option (Z * string))) : list Z :=
  flat_map (fun b => match b with
                     | Some (y, _) => [y]
                     | None => []
                     end) bs.

(** [ys] after [seen], each year once, where it first comes. *)
Definition first_seen (seen ys : list Z) : list Z :=
  fold_left (fun acc y => if existsb (Z.eqb y) acc then acc else acc ++ [y]) ys seen.

Definition row_total (opened : Dict string Z) : Z :=
  fold_right Z.add 0 (values opened).

Definition table_total (table : GraalReport.YearTable) : Z :=
  fold_right (fun row acc => row_total (snd row) + acc) 0 table.

(** A row of the table: each label once, the labels being the two the
    aggregator knows, every count at least one. *)
Definition row_ok (opened : Dict string Z) : Prop :=
  NoDup (keys opened) /\
  Forall (fun kv => (fst kv = "oracle" \/ fst kv = "other") /\ 1 <= snd kv) opened.

(** The table the buckets [bs] make of [table]. *)
Definition tabulate (bs : list (option (Z * string))) (table : GraalReport.YearTable)
  : GraalReport.YearTable :=
  fold_left (fun t b => match b with
                        | Some (y, label) => bump t y label
                        | None => t
                        end) bs table.

(** [line] is the line of a row: its year, and its counts by ascending
    label. *)
Definition year_line (row : Z * Dict string Z) (line : Event) : Prop :=
  exists counts,
    line = YearCounts (fst row) counts /\
    Permutation (snd row) counts /\
    Sorted (fun a b => String.ltb a b = true) (keys counts).

(** ** Synthetic responses *)

(** The response body that holds page [p] and nothing else. *)
Definition page_json (node_type : string) (p : Page) : Json :=
  JDict [("data",
    JDict [("repositoryOwner",
      JDict [("repository",
        JDict [(node_type +:+ "s",
          JDict [("totalCount", JInt (Z.of_nat (List.length (page_nodes p))));
                 ("pageInfo", JDict [("hasNextPage", hasNextPage p);
                                     ("endCursor", endCursor p)]);
                 ("edges", JList (map (fun n => JDict [("node", n)]) (page_nodes p)))])])])])].

Definition ok_reply (node_type : string) (p : Page) : HttpResponse :=
  mkResponse 200 (page_json node_type p).

(** An issue as [_node_info1] selects it. *)
Definition issue (number : Z) (title : string) (assignees : Z) (timeline : list Json) : Json :=
  JDict [("number", JInt number);
         ("url", JStr ("https://github.com/oracle/graal/issues/" +:+ title));
         ("title", JStr title);
         ("assignees", JDict [("totalCount", JInt assignees)]);
         ("timelineItems", JDict [("edges", JList timeline)])].

(** An issue as [_node_info2] selects it: opened at [createdAt] by an
    author with these organizations, or by nobody. *)
Definition opened_by (number : Z) (author : option (string * list string))
    (createdAt : string) : Json :=
  JDict [("number", JInt number);
         ("author",
          match author with
          | Some (login, orgs) =>
              JDict [("login", JStr login);
                     ("organizations",
                      JDict [("edges",
                              JList (map (fun o => JDict [("node", JDict [("login", JStr o)])])
                                       orgs))])]
          | None => JNull
          end);
         ("createdAt", JStr createdAt);
         ("closedAt", JNull)].

(** A timeline entry: a comment by [login], who is in the organization or
    not, and an entry that is not a comment. *)
Definition comment (login : string) (member : bool) (url updatedAt : string) : Json :=
  JDict [("node",
    JDict [("updatedAt", JStr updatedAt);
           ("url", JStr url);
           ("author",
            JDict [("organization",
                    if member then JDict [("login", JStr "oracle")] else JNull);
                   ("login", JStr login)])])].

Definition not_a_comment : Json := JDict [("node", JDict [])].

(** ** An instance of the library functions, for the examples

    [str] on scalars, [int] on a run of decimal digits, and
    [fromisoformat] on [YYYY-MM-DDTHH:MM:SS]. *)
Module Sample.
Definition digit (c : ascii) : option Z :=
  let n := Z.of_nat (nat_of_ascii c) in
  if (48 <=? n) && (n <=? 57) then Some (n - 48) else None.

Fixpoint digits (s : string) (acc : Z) : option Z :=
  match s with
  | EmptyString => Some acc
  | String c s' =>
      match digit c with
      | Some d => digits s' (10 * acc + d)
      | None => None
      end
  end.

Definition number (s : string) : option Z :=
  match s with
  | EmptyString => None
  | _ => digits s 0
  end.

Definition field (s : string) (start len : nat) : option Z :=
  number (substring start len s).

Definition separators (s : string) : bool :=
  String.eqb (substring 4 1 s) "-" && String.eqb (substring 7 1 s) "-"
  && String.eqb (substring 10 1 s) "T"
  && String.eqb (substring 13 1 s) ":" && String.eqb (substring 16 1 s) ":".

Definition iso (s : string) : option DateTime :=
  if Nat.eqb (String.length s) 19 && separators s then
    match field s 0 4, field s 5 2, field s 8 2, field s 11 2, field s 14 2, field s 17 2 with
    | Some y, Some mo, Some d, Some h, Some mi, Some sec =>
        Some (mkDateTime y mo d h mi sec 0)
    | _, _, _, _, _, _ => None
    end
  else None.

Definition str (v : Json) : string :=
  match v with
  | JNull => "None"
  | JBool true => "True"
  | JBool false => "False"
  | JInt n => NilZero.string_of_int (Z.to_int n)
  | JStr s => s
  | JList _ => "[...]"
  | JDict _ => "{...}"
  end.

Definition builtins : Builtins :=
  {| str_of := str; int_of_str := number; fromisoformat := iso |}.
End Sample.

(** ** Worlds of the examples *)

Module Example.
Definition noon : DateTime := mkDateTime 2024 3 1 12 0 0 0.

(** A world that has sent nothing, cached nothing and written nothing,
    with [replies] on the transport. *)
Definition world (replies : list HttpResponse) : World :=
  mkWorld replies [] [] noon [].

(** Three pages, [hasNextPage] being [true], [true], [false]; issue 2
    comes back on the second page under another title. *)
Definition page1 : Page :=
  mkPage [issue 1 "one" 0 []; issue 2 "two" 1 []] (JBool true) (JStr "c1").
Definition page2 : Page :=
  mkPage [issue 3 "three" 0 []; issue 2 "two again" 0 []] (JBool true) (JStr "c2").
Definition page3 : Page :=
  mkPage [issue 4 "four" 2 []] (JBool false) JNull.

Definition three_pages : World :=
  world [ok_reply "issue" page1; ok_reply "issue" page2; ok_reply "issue" page3].

Definition empty_page : Page := mkPage [] (JBool false) JNull.

Definition no_data : HttpResponse :=
  mkResponse 200 (JDict [("errors", JList [JDict [("message", JStr "Parse error")]])]).

(** Three issues with 0, 1 and 0 assignees, on one page. *)
Definition backlog : Page :=
  mkPage [issue 7 "seven" 0 []; issue 8 "eight" 1 []; issue 9 "nine" 0 []]
    (JBool false) JNull.
Definition one_page : World := world [ok_reply "issue" backlog].

(** A timeline: an entry that is no comment, a member's comment, a
    newer comment by someone outside the organization, and two members'
    comments of one and the same update time. *)
Definition timeline : list Json :=
  [not_a_comment;
   comment "alice" true "comment-1" "2024-01-10T08:00:00Z";
   comment "bob" false "comment-2" "2024-02-25T08:00:00Z";
   comment "carol" true "comment-3" "2024-01-20T09:30:00Z";
   comment "dave" true "comment-4" "2024-01-20T09:30:00Z"].

Definition classified : list (option (Json * DateTime)) :=
  [None;
   Some (JStr "comment-1", mkDateTime 2024 1 10 8 0 0 0);
   None;
   Some (JStr "comment-3", mkDateTime 2024 1 20 9 30 0 0);
   Some (JStr "comment-4", mkDateTime 2024 1 20 9 30 0 0)].

Definition discussed : Json := issue 12 "twelve" 1 timeline.



(** An author in six organizations, the organization of interest being
    the sixth; the response lists the first five. *)
Definition six_orgs : list string :=
  ["apache"; "eclipse"; "graalvm"; "openjdk"; "quarkus"; "oracle"].
Definition by_erin : Json :=
  opened_by 6 (Some ("erin", firstn 5 six_orgs)) "2023-04-05T06:07:08Z".

(** A page that announces a next page and names no cursor. *)
Definition stuck : Page := mkPage [issue 1 "one" 0 []] (JBool true) JNull.
Definition stuck_twice : World :=
  world [ok_reply "issue" stuck; ok_reply "issue" stuck; ok_reply "issue" page3].

(** Issues for the activity report: one discussed long ago, one with a
    member's comment of five days ago, one that nobody commented. *)
Definition activity : Page :=
  mkPage [discussed;
          issue 13 "thirteen" 0 [comment "alice" true "comment-5" "2024-02-25T12:00:00Z"];
          issue 14 "fourteen" 0 []]
    (JBool false) JNull.
Definition active : World := world [ok_reply "issue" activity].

(** A comment whose author has a login and nothing else. *)
Definition by_a_bot : Json :=
  JDict [("node",
    JDict [("updatedAt", JStr "2024-02-26T00:00:00Z");
           ("url", JStr "comment-7");
           ("author", JDict [("login", JStr "dependabot")])])].

(** An issue whose only comment is the bot's, and one on which the bot
    commented after a member's comment of three months before. *)
Definition only_a_bot : Json := issue 18 "eighteen" 0 [by_a_bot].
Definition bot_after_member : Json :=
  issue 17 "seventeen" 0
    [comment "alice" true "comment-9" "2023-12-01T00:00:00Z"; by_a_bot].
Definition watched : World :=
  world [ok_reply "issue"
           (mkPage [issue 19 "nineteen" 0 []; only_a_bot] (JBool false) JNull)].
Definition watched_stale : World :=
  world [ok_reply "issue"
           (mkPage [bot_after_member; issue 16 "sixteen" 0 []] (JBool false) JNull)].

(** Nodes whose years come up out of order: 2022, 2021, 2022. *)
Definition unordered : Page :=
  mkPage [opened_by 1 (Some ("dave", [])) "2022-03-01T00:00:00Z";
          opened_by 2 (Some ("alice", ["oracle"])) "2021-02-03T04:05:06Z";
          opened_by 3 None "2020-01-01T00:00:00Z";
          opened_by 4 (Some ("carol", ["oracle"])) "2022-07-08T09:10:11Z"]
    (JBool false) JNull.

Definition unordered_buckets : list (option (Z * string)) :=
  [Some (2022, "other"); Some (2021, "oracle"); None; Some (2022, "oracle")].

(** A node that came without ["assignees"], between two that have it. *)
Definition broken : Json :=
  JDict [("number", JInt 8); ("url", JStr "https://github.com/oracle/graal/issues/eight");
         ("title", JStr "eight")].
Definition with_broken : Page :=
  mkPage [issue 7 "seven" 0 []; broken; issue 9 "nine" 0 []] (JBool false) JNull.
Definition half_read : World := world [ok_reply "issue" with_broken].

End Example.

(** * Properties *)

(** ** Keys and dictionaries *)

Lemma key_eqb_spec (a b : Key) : reflect (a = b) (key_eqb a b).
Proof.
  destruct a as [|x|s], b as [|y|t]; simpl; try (constructor; congruence).
  - destruct (Z.eqb_spec x y); constructor; congruence.
  - destruct (String.eqb_spec s t); constructor; congruence.
Qed.

Lemma key_eqb_refl (k : Key) : key_eqb k k = true.
Proof. destruct (key_eqb_spec k k); congruence. Qed.

Section DictFacts.
Context {K V : Type}.
Variable eqb : K -> K -> bool.
Hypothesis eqb_spec : forall a b, reflect (a = b) (eqb a b).

Lemma dict_get_set_same (k : K) (v : V) (d : Dict K V) :
  dict_get eqb k (dict_set eqb k v d) = Some v.
Proof.
  induction d as [|[k' v'] d IH]; simpl.
  - destruct (eqb_spec k k); congruence.
  - destruct (eqb_spec k k') as [->|Hne]; simpl.
    + destruct (eqb_spec k' k'); congruence.
    + destruct (eqb_spec k k'); congruence.
Qed.

Lemma dict_get_set_other (k k' : K) (v : V) (d : Dict K V) :
  k <> k' -> dict_get eqb k' (dict_set eqb k v d) = dict_get eqb k' d.
Proof.
  intros Hne. induction d as [|[k0 v0] d IH]; simpl.
  - destruct (eqb_spec k' k); congruence.
  - destruct (eqb_spec k k0) as [->|Hk]; simpl.
    + destruct (eqb_spec k' k0); congruence.
    + destruct (eqb_spec k' k0); congruence.
Qed.

Lemma dict_get_In (k : K) (v : V) (d : Dict K V) :
  dict_get eqb k d = Some v -> In (k, v) d.
Proof.
  induction d as [|[k' v'] d IH]; simpl; [discriminate|].
  destruct (eqb_spec k k') as [->|Hne]; intros H.
  - left. congruence.
  - right. auto.
Qed.

Lemma dict_get_None (k : K) (d : Dict K V) :
  dict_get eqb k d = None <-> ~ In k (keys d).
Proof.
  induction d as [|[k' v'] d IH]; simpl.
  - tauto.
  - destruct (eqb_spec k k') as [->|Hne].
    + split; [discriminate|]. intros H. exfalso. apply H. now left.
    + rewrite IH. split; intros H.
      * intros [E|HIn]; [congruence|tauto].
      * tauto.
Qed.

Lemma In_dict_get (k : K) (v : V) (d : Dict K V) :
  NoDup (keys d) -> In (k, v) d -> dict_get eqb k d = Some v.
Proof.
  induction d as [|[k' v'] d IH]; simpl; [tauto|].
  intros Hnd [E|HIn].
  - inversion E; subst. destruct (eqb_spec k k); congruence.
  - inversion Hnd as [|? ? Hnotin Hnd']; subst.
    destruct (eqb_spec k k') as [->|Hne].
    + exfalso. apply Hnotin. change k' with (fst (k', v)).
      apply in_map. exact HIn.
    + auto.
Qed.

Lemma keys_dict_set (k : K) (v : V) (d : Dict K V) :
  keys (dict_set eqb k v d) =
  if dict_mem eqb k d then keys d else keys d ++ [k].
Proof.
  unfold dict_mem. induction d as [|[k' v'] d IH]; simpl; [reflexivity|].
  destruct (eqb_spec k k') as [->|Hne]; simpl; [reflexivity|].
  rewrite IH. destruct (dict_get eqb k d); reflexivity.
Qed.

Lemma NoDup_keys_dict_set (k : K) (v : V) (d : Dict K V) :
  NoDup (keys d) -> NoDup (keys (dict_set eqb k v d)).
Proof.
  intros Hnd. rewrite keys_dict_set. unfold dict_mem.
  destruct (dict_get eqb k d) eqn:E; [exact Hnd|].
  apply dict_get_None in E.
  apply NoDup_app; [exact Hnd|repeat constructor; simpl; tauto|].
  intros x Hx [<-|[]]. contradiction.
Qed.
End DictFacts.

(** ** Filing nodes *)

Lemma file_nodes_app (a b : list Json) (d : NodeSet) :
  file_nodes (a ++ b) d = file_nodes b (file_nodes a d).
Proof. apply fold_left_app. Qed.

Lemma NoDup_file_node (d : NodeSet) (node : Json) :
  NoDup (keys d) -> NoDup (keys (file_node d node)).
Proof.
  intros H. unfold file_node. destruct (number_of node); [|exact H].
  apply (NoDup_keys_dict_set key_eqb key_eqb_spec). exact H.
Qed.

Lemma NoDup_file_nodes (nodes : list Json) (d : NodeSet) :
  NoDup (keys d) -> NoDup (keys (file_nodes nodes d)).
Proof.
  revert d. induction nodes as [|n nodes IH]; intros d H; simpl; [exact H|].
  apply IH, NoDup_file_node, H.
Qed.

(** A key keeps its node through the filing of nodes with other numbers. *)
Lemma file_nodes_get_other (nodes : list Json) (d : NodeSet) (k : Key) :
  Forall (fun n => number_of n <> Ok k) nodes ->
  dict_get key_eqb k (file_nodes nodes d) = dict_get key_eqb k d.
Proof.
  revert d. induction nodes as [|n nodes IH]; intros d H; simpl; [reflexivity|].
  inversion H as [|? ? Hn Hrest]; subst.
  rewrite IH by exact Hrest. unfold file_node.
  destruct (number_of n) as [k'|] eqn:E; [|reflexivity].
  apply (dict_get_set_other key_eqb key_eqb_spec). congruence.
Qed.

(** The last node filed under a number is the one found there. *)
Lemma file_nodes_get_last (before after : list Json) (node : Json) (d : NodeSet) (k : Key) :
  number_of node = Ok k ->
  Forall (fun n => number_of n <> Ok k) after ->
  dict_get key_eqb k (file_nodes (before ++ node :: after) d) = Some node.
Proof.
  intros Hk Hafter. rewrite file_nodes_app. simpl.
  rewrite file_nodes_get_other by exact Hafter.
  unfold file_node. rewrite Hk.
  apply (dict_get_set_same key_eqb key_eqb_spec).
Qed.

(** Whatever is found under a number was in the dictionary before or is
    one of the filed nodes, and carries that number. *)
Lemma file_nodes_get_inv (nodes : list Json) (d : NodeSet) (k : Key) (node : Json) :
  dict_get key_eqb k (file_nodes nodes d) = Some node ->
  dict_get key_eqb k d = Some node \/ (In node nodes /\ number_of node = Ok k).
Proof.
  revert d. induction nodes as [|n nodes IH]; intros d H; simpl in *; [now left|].
  destruct (IH _ H) as [Hd|[HIn Hk]]; [|right; tauto].
  unfold file_node in Hd. destruct (number_of n) as [k'|] eqn:E; [|now left].
  destruct (key_eqb_spec k' k) as [->|Hne].
  - rewrite (dict_get_set_same key_eqb key_eqb_spec) in Hd.
    inversion Hd; subst. right. tauto.
  - rewrite (dict_get_set_other key_eqb key_eqb_spec) in Hd by exact Hne. now left.
Qed.

(** Every filed node has its number in the dictionary. *)
Lemma file_nodes_mem (nodes : list Json) (d : NodeSet) (k : Key) (node : Json) :
  In node nodes -> number_of node = Ok k ->
  dict_mem key_eqb k (file_nodes nodes d) = true.
Proof.
  intros HIn Hk. unfold dict_mem.
  destruct (dict_get key_eqb k (file_nodes nodes d)) eqn:E; [reflexivity|].
  exfalso. revert d E. induction nodes as [|n nodes IH]; intros d E; [contradiction|].
  simpl in E. destruct HIn as [->|HIn]; [|eauto].
  assert (Hget : dict_get key_eqb k (file_node d node) <> None).
  { unfold file_node. rewrite Hk.
    rewrite (dict_get_set_same key_eqb key_eqb_spec). discriminate. }
  clear IH. revert E Hget. generalize (file_node d node). clear d.
  induction nodes as [|n nodes IH]; intros d E Hget; simpl in E; [contradiction|].
  apply (IH _ E). unfold file_node. destruct (number_of n) as [k'|]; [|exact Hget].
  destruct (key_eqb_spec k' k) as [->|Hne].
  - rewrite (dict_get_set_same key_eqb key_eqb_spec). discriminate.
  - rewrite (dict_get_set_other key_eqb key_eqb_spec) by exact Hne. exact Hget.
Qed.

(** ** Running the monad *)

Lemma advance_advance (w : World) r1 q1 e1 r2 q2 e2 :
  advance (advance w r1 q1 e1) r2 q2 e2 = advance w r2 (q1 ++ q2) (e1 ++ e2).
Proof. unfold advance; simpl. now rewrite !app_assoc. Qed.

Ltac run :=
  unfold GraalReport.urlopen, bind, ret, raise, lift, emit, now, pending, post, advance;
  simpl.

Lemma page_queries_snoc (query : Json -> string) (cursor : Json) (pages : list Page) (p : Page) :
  page_queries query cursor (pages ++ [p]) =
  page_queries query cursor pages ++ [query (cursor_after cursor pages)].
Proof.
  revert cursor. induction pages as [|x pages IH]; intros cursor; simpl; [reflexivity|].
  now rewrite IH.
Qed.

Lemma dots_snoc (n : nat) : dots n ++ [Write "."] = dots (S n).
Proof. unfold dots. induction n; simpl; [reflexivity|]. now f_equal. Qed.

(** ** Which exceptions the lookups raise *)

Lemma rbind_Raise {A C} (r : Result A) (f : A -> Result C) (e : Exn) :
  rbind r f = Raise e -> r = Raise e \/ exists a, r = Ok a /\ f a = Raise e.
Proof. destruct r as [a|e']; simpl; intros H; [right; eauto|left; congruence]. Qed.

(** A [KeyError] of a subscript is a dictionary without that key. *)
Lemma subscript_KeyError (v : Json) (k k' : string) :
  subscript v k = Raise (KeyError k') <->
  k' = k /\ exists d, v = JDict d /\ assoc k d = None.
Proof.
  destruct v; simpl; try (split; [discriminate|intros (_ & ? & ? & _); discriminate]).
  destruct (assoc k d) eqn:E; split.
  - discriminate.
  - intros (_ & d' & Hd & Hnone). inversion Hd; subst. congruence.
  - intros H. inversion H; subst. split; [reflexivity|eauto].
  - intros (-> & _). reflexivity.
Qed.

Lemma subscript_Raise (v : Json) (k : string) (e : Exn) :
  subscript v k = Raise e -> lookup_error e.
Proof.
  unfold lookup_error. destruct v; simpl; intros H; inversion H; auto.
  destruct (assoc k d); inversion H; eauto.
Qed.

Lemma iterate_Raise (v : Json) (e : Exn) : iterate v = Raise e -> lookup_error e.
Proof. unfold lookup_error. destruct v; simpl; intros H; inversion H; auto. Qed.

Lemma key_of_Raise (v : Json) (e : Exn) : key_of v = Raise e -> lookup_error e.
Proof. unfold lookup_error. destruct v; simpl; intros H; inversion H; auto. Qed.

Ltac lookup_cases H :=
  repeat match type of H with
         | rbind _ _ = Raise _ =>
             apply rbind_Raise in H; destruct H as [H|(? & _ & H)];
             [solve [ eapply subscript_Raise; exact H
                    | eapply iterate_Raise; exact H
                    | eapply key_of_Raise; exact H ]
             | cbv beta in H ]
         end.

(** ** The page walk of [graal_report.py] *)

Section GraalFetch.
Context {B : Builtins}.
Import GraalReport.

Lemma graal_merge_edges_files (edges nodes : list Json) (d : NodeSet) :
  Forall2 (fun e n => subscript e "node" = Ok n) edges nodes ->
  Forall numbered nodes ->
  merge_edges edges d = Ok (file_nodes nodes d).
Proof.
  intros H. revert d. induction H as [|e n edges nodes He _ IH]; intros d Hn.
  - reflexivity.
  - inversion Hn as [|? ? [k Hk] Hrest]; subst. simpl. rewrite He. simpl.
    unfold file_node. unfold number_of in Hk |- *.
    destruct (subscript n "number") as [v|]; simpl in *; [|discriminate].
    rewrite Hk. simpl. apply IH, Hrest.
Qed.

Lemma graal_read_page_serves (node_type : string) (result : Json) (p : Page) (d : NodeSet) :
  is_page node_type result p ->
  Forall numbered (page_nodes p) ->
  read_page node_type result d =
  Ok (file_nodes (page_nodes p) d,
      if eq_True (hasNextPage p) then Some (endCursor p) else None).
Proof.
  intros (data & owner & repository & nodes & edges & page_info &
          H1 & H2 & H3 & H4 & H5 & H6 & H7 & H8 & H9) Hn.
  unfold read_page. rewrite H1; simpl. rewrite H2; simpl. rewrite H3; simpl.
  rewrite H4; simpl. rewrite H5; simpl.
  rewrite (graal_merge_edges_files _ _ _ H6 Hn); simpl.
  rewrite H7; simpl. rewrite H8; simpl.
  destruct (eq_True (hasNextPage p)); simpl; [|reflexivity].
  rewrite H9 by reflexivity. reflexivity.
Qed.

Lemma graal_merge_edges_Raise (edges : list Json) (d : NodeSet) (e : Exn) :
  merge_edges edges d = Raise e -> lookup_error e.
Proof.
  revert d. induction edges as [|x edges IH]; intros d H; simpl in H; [discriminate|].
  lookup_cases H. eapply IH, H.
Qed.

(** The [try] block raises nothing but a [KeyError] or a [TypeError]. *)
Lemma graal_read_page_Raise (node_type : string) (result : Json) (d : NodeSet) (e : Exn) :
  read_page node_type result d = Raise e -> lookup_error e.
Proof.
  unfold read_page. intros H. lookup_cases H.
  apply rbind_Raise in H. destruct H as [H|(? & _ & H)];
    [eapply graal_merge_edges_Raise, H|cbv beta in H].
  lookup_cases H.
  destruct (negb (eq_True _)); [discriminate|]. lookup_cases H. discriminate.
Qed.

Variables node_type node_info states : string.

Let query := get_open_nodes_query node_type node_info states.

(** A page that announces a next page: one more turn of the loop. *)
Lemma graal_fetch_continue fuel cursor d w r rest p :
  transport w = r :: rest ->
  serves node_type r p ->
  Forall numbered (page_nodes p) ->
  eq_True (hasNextPage p) = true ->
  fetch_pages (S fuel) node_type node_info states cursor d w =
  fetch_pages fuel node_type node_info states (endCursor p)
    (file_nodes (page_nodes p) d)
    (advance w rest [query cursor] [Write "."]).
Proof.
  intros Ht [Hs Hp] Hn Hc. simpl. unfold run_query. run.
  rewrite Ht, Hs. simpl. rewrite Hs. simpl.
  rewrite (graal_read_page_serves _ _ _ _ Hp Hn), Hc. reflexivity.
Qed.

(** A page that does not: the loop ends with the nodes filed so far. *)
Lemma graal_fetch_stop fuel cursor d w r rest p :
  transport w = r :: rest ->
  serves node_type r p ->
  Forall numbered (page_nodes p) ->
  eq_True (hasNextPage p) = false ->
  fetch_pages (S fuel) node_type node_info states cursor d w =
  (Ok (file_nodes (page_nodes p) d), advance w rest [query cursor] [Write "."]).
Proof.
  intros Ht [Hs Hp] Hn Hc. simpl. unfold run_query. run.
  rewrite Ht, Hs. simpl. rewrite Hs. simpl.
  rewrite (graal_read_page_serves _ _ _ _ Hp Hn), Hc. reflexivity.
Qed.



(** A transport that has nothing left to answer. *)
Lemma graal_fetch_silent fuel cursor d w :
  transport w = [] ->
  fetch_pages (S fuel) node_type node_info states cursor d w =
  (Raise URLError, advance w [] [query cursor] [Write "."]).
Proof. intros Ht. simpl. unfold run_query. run. now rewrite Ht. Qed.

(** The walk over a run of pages that each announce a next page. *)
Lemma graal_fetch_walk (pages : list Page) :
  forall (rs rest : list HttpResponse) fuel cursor d w,
  transport w = rs ++ rest ->
  Forall2 (serves node_type) rs pages ->
  Forall (fun p => Forall numbered (page_nodes p)) pages ->
  Forall (fun p => eq_True (hasNextPage p) = true) pages ->
  fetch_pages (List.length pages + fuel) node_type node_info states cursor d w =
  fetch_pages fuel node_type node_info states (cursor_after cursor pages)
    (file_nodes (all_page_nodes pages) d)
    (advance w rest (page_queries query cursor pages) (dots (List.length pages))).
Proof.
  induction pages as [|p pages IH]; intros rs rest fuel cursor d w Ht Hs Hn Hc.
  - inversion Hs; subst. simpl in *. unfold advance. rewrite !app_nil_r, <- Ht.
    destruct w; reflexivity.
  - inversion Hs as [|r ? rs' ? Hr Hrs]; subst.
    inversion Hn as [|? ? Hnp Hn']; subst. inversion Hc as [|? ? Hcp Hc']; subst.
    change (List.length (p :: pages) + fuel)%nat with (S (List.length pages + fuel)).
    simpl in Ht.
    rewrite (graal_fetch_continue _ cursor d w r (rs' ++ rest) p Ht Hr Hnp Hcp).
    rewrite (IH rs' rest fuel (endCursor p) _
               (advance w (rs' ++ rest) [query cursor] [Write "."])
               eq_refl Hrs Hn' Hc').
    rewrite advance_advance. unfold all_page_nodes. simpl.
    fold (all_page_nodes pages). rewrite file_nodes_app. reflexivity.
Qed.
End GraalFetch.

Section GraalGetNodes.
Context {B : Builtins}.
Import GraalReport.

Variables node_type node_info states : string.

Let query := get_open_nodes_query node_type node_info states.
Let key := node_type +:+ node_info.

(** The bound [get_nodes] gives the loop is never reached: every turn
    takes a reply off the transport. *)
Lemma fetch_pages_fuel (fuel : nat) :
  forall cursor d w,
  (List.length (transport w) < fuel)%nat ->
  fst (fetch_pages fuel node_type node_info states cursor d w) <> Raise OutOfFuel.
Proof.
  induction fuel as [|fuel IH]; intros cursor d w Hlt; [lia|].
  destruct (transport w) as [|r rest] eqn:Ht.
  - rewrite graal_fetch_silent by exact Ht. discriminate.
  - simpl. unfold run_query. run. rewrite Ht.
    destruct ((200 <=? status r) && (status r <? 300)); simpl; [|discriminate].
    destruct (status r =? 200); simpl; [|discriminate].
    destruct (read_page node_type (body r) d) as [[d' [c|]]|e] eqn:E; simpl.
    + apply IH. simpl. simpl in Hlt. lia.
    + discriminate.
    + destruct (graal_read_page_Raise _ _ _ _ E) as [[k ->]| ->]; simpl; discriminate.
Qed.

(** A miss: [pages] announce a next page, [last] does not. *)
Lemma graal_get_nodes_miss (pages : list Page) (last : Page)
    (rs rest : list HttpResponse) (r : HttpResponse) (w : World) :
  dict_mem String.eqb key (_cached_results w) = false ->
  transport w = rs ++ r :: rest ->
  Forall2 (serves node_type) rs pages ->
  serves node_type r last ->
  Forall (fun p => Forall numbered (page_nodes p)) (pages ++ [last]) ->
  Forall (fun p => eq_True (hasNextPage p) = true) pages ->
  eq_True (hasNextPage last) = false ->
  let all_nodes := file_nodes (all_page_nodes (pages ++ [last])) [] in
  get_nodes node_type node_info states w =
  (Ok all_nodes,
   mkWorld rest
     (requests w ++ page_queries query JNull (pages ++ [last]))
     (dict_set String.eqb key all_nodes (_cached_results w))
     (clock w)
     (console w ++ Write ("Getting " +:+ node_type +:+ "s")
                :: dots (S (List.length pages)) ++ [Write nl])).
Proof.
  intros Hmiss Ht Hs Hr Hn Hc Hstop all_nodes.
  apply Forall_app in Hn as [Hn Hl]. inversion Hl as [|? ? Hnl _]; subst.
  unfold get_nodes. fold key. rewrite Hmiss.
  unfold bind at 1. unfold emit at 1. unfold bind at 1. unfold pending at 1.
  cbv beta iota. unfold bind at 1.
  set (w1 := mkWorld _ _ _ _ _).
  assert (Ht1 : transport w1 = rs ++ r :: rest) by exact Ht.
  replace (S (List.length (transport w1)))
    with (List.length pages + S (S (List.length rest)))%nat
    by (rewrite Ht1, length_app, (Forall2_length Hs); simpl; lia).
  rewrite (graal_fetch_walk node_type node_info states pages rs (r :: rest)
             _ JNull [] w1 Ht1 Hs Hn Hc).
  rewrite (graal_fetch_stop node_type node_info states _ _ _
             (advance w1 (r :: rest) _ _) r rest last eq_refl Hr Hnl Hstop).
  rewrite advance_advance. unfold cache_store. run.
  subst all_nodes. unfold all_page_nodes. rewrite map_app, concat_app. simpl.
  rewrite app_nil_r, file_nodes_app.
  fold (all_page_nodes pages). f_equal. f_equal.
  - now rewrite page_queries_snoc.
  - rewrite dots_snoc, <- !app_assoc. reflexivity.
Qed.

(** A hit looks the NodeSet up under [node_type] alone. *)
Lemma graal_get_nodes_hit (w : World) :
  dict_mem String.eqb key (_cached_results w) = true ->
  get_nodes node_type node_info states w =
  (match dict_get String.eqb node_type (_cached_results w) with
   | Some all_nodes => Ok all_nodes
   | None => Raise (KeyError node_type)
   end, w).
Proof.
  intros Hhit. unfold get_nodes. fold key. rewrite Hhit.
  destruct (dict_get String.eqb node_type (_cached_results w)); reflexivity.
Qed.
End GraalGetNodes.

(** ** The page walk of [unassigned_issues.py] *)

Section UnassignedFetch.
Context {B : Builtins}.
Import UnassignedIssues.

Lemma unassigned_merge_edges_files (edges nodes : list Json) (d : NodeSet) :
  Forall2 (fun e n => subscript e "node" = Ok n) edges nodes ->
  Forall numbered nodes ->
  merge_edges edges d = Ok (file_nodes nodes d).
Proof.
  intros H. revert d. induction H as [|e n edges nodes He _ IH]; intros d Hn.
  - reflexivity.
  - inversion Hn as [|? ? [k Hk] Hrest]; subst. simpl. rewrite He. simpl.
    unfold file_node. unfold number_of in Hk |- *.
    destruct (subscript n "number") as [v|]; simpl in *; [|discriminate].
    rewrite Hk. simpl. apply IH, Hrest.
Qed.

Lemma unassigned_read_page_serves (node_type : string) (result : Json) (p : Page)
    (d : NodeSet) :
  is_page node_type result p ->
  Forall numbered (page_nodes p) ->
  read_page node_type result d =
  Ok (file_nodes (page_nodes p) d,
      if eq_True (hasNextPage p) then Some (endCursor p) else None).
Proof.
  intros (data & owner & repository & nodes & edges & page_info &
          H1 & H2 & H3 & H4 & H5 & H6 & H7 & H8 & H9) Hn.
  unfold read_page. rewrite H1; simpl. rewrite H2; simpl. rewrite H3; simpl.
  rewrite H4; simpl. rewrite H5; simpl.
  rewrite (unassigned_merge_edges_files _ _ _ H6 Hn); simpl.
  rewrite H7; simpl. rewrite H8; simpl.
  destruct (eq_True (hasNextPage p)); simpl; [|reflexivity].
  rewrite H9 by reflexivity. reflexivity.
Qed.

Lemma unassigned_merge_edges_Raise (edges : list Json) (d : NodeSet) (e : Exn) :
  merge_edges edges d = Raise e -> lookup_error e.
Proof.
  revert d. induction edges as [|x edges IH]; intros d H; simpl in H; [discriminate|].
  lookup_cases H. eapply IH, H.
Qed.

Lemma unassigned_read_page_Raise (node_type : string) (result : Json) (d : NodeSet)
    (e : Exn) :
  read_page node_type result d = Raise e -> lookup_error e.
Proof.
  unfold read_page. intros H. lookup_cases H.
  apply rbind_Raise in H. destruct H as [H|(? & _ & H)];
    [eapply unassigned_merge_edges_Raise, H|cbv beta in H].
  lookup_cases H.
  destruct (negb (eq_True _)); [discriminate|]. lookup_cases H. discriminate.
Qed.

Variable node_type : string.

Let query := get_open_nodes_query node_type.

Lemma unassigned_fetch_continue fuel cursor d w r rest p :
  transport w = r :: rest ->
  serves node_type r p ->
  Forall numbered (page_nodes p) ->
  eq_True (hasNextPage p) = true ->
  fetch_pages (S fuel) node_type cursor d w =
  fetch_pages fuel node_type (endCursor p) (file_nodes (page_nodes p) d)
    (advance w rest [query cursor] [Write "."]).
Proof.
  intros Ht [Hs Hp] Hn Hc. simpl. unfold run_query. run.
  rewrite Ht, Hs. simpl.
  rewrite (unassigned_read_page_serves _ _ _ _ Hp Hn), Hc. reflexivity.
Qed.

Lemma unassigned_fetch_stop fuel cursor d w r rest p :
  transport w = r :: rest ->
  serves node_type r p ->
  Forall numbered (page_nodes p) ->
  eq_True (hasNextPage p) = false ->
  fetch_pages (S fuel) node_type cursor d w =
  (Ok (file_nodes (page_nodes p) d), advance w rest [query cursor] [Write "."]).
Proof.
  intros Ht [Hs Hp] Hn Hc. simpl. unfold run_query. run.
  rewrite Ht, Hs. simpl.
  rewrite (unassigned_read_page_serves _ _ _ _ Hp Hn), Hc. reflexivity.
Qed.



Lemma unassigned_fetch_silent fuel cursor d w :
  transport w = [] ->
  fetch_pages (S fuel) node_type cursor d w =
  (Raise URLError, advance w [] [query cursor] [Write "."]).
Proof. intros Ht. simpl. unfold run_query. run. now rewrite Ht. Qed.

Lemma unassigned_fetch_walk (pages : list Page) :
  forall (rs rest : list HttpResponse) fuel cursor d w,
  transport w = rs ++ rest ->
  Forall2 (serves node_type) rs pages ->
  Forall (fun p => Forall numbered (page_nodes p)) pages ->
  Forall (fun p => eq_True (hasNextPage p) = true) pages ->
  fetch_pages (List.length pages + fuel) node_type cursor d w =
  fetch_pages fuel node_type (cursor_after cursor pages)
    (file_nodes (all_page_nodes pages) d)
    (advance w rest (page_queries query cursor pages) (dots (List.length pages))).
Proof.
  induction pages as [|p pages IH]; intros rs rest fuel cursor d w Ht Hs Hn Hc.
  - inversion Hs; subst. simpl in *. unfold advance. rewrite !app_nil_r, <- Ht.
    destruct w; reflexivity.
  - inversion Hs as [|r ? rs' ? Hr Hrs]; subst.
    inversion Hn as [|? ? Hnp Hn']; subst. inversion Hc as [|? ? Hcp Hc']; subst.
    change (List.length (p :: pages) + fuel)%nat with (S (List.length pages + fuel)).
    simpl in Ht.
    rewrite (unassigned_fetch_continue _ cursor d w r (rs' ++ rest) p Ht Hr Hnp Hcp).
    rewrite (IH rs' rest fuel (endCursor p) _
               (advance w (rs' ++ rest) [query cursor] [Write "."])
               eq_refl Hrs Hn' Hc').
    rewrite advance_advance. unfold all_page_nodes. simpl.
    fold (all_page_nodes pages). rewrite file_nodes_app. reflexivity.
Qed.

Lemma unassigned_fetch_pages_fuel (fuel : nat) :
  forall cursor d w,
  (List.length (transport w) < fuel)%nat ->
  fst (fetch_pages fuel node_type cursor d w) <> Raise OutOfFuel.
Proof.
  induction fuel as [|fuel IH]; intros cursor d w Hlt; [lia|].
  destruct (transport w) as [|r rest] eqn:Ht.
  - rewrite unassigned_fetch_silent by exact Ht. discriminate.
  - simpl. unfold run_query. run. rewrite Ht.
    destruct (status r =? 200); simpl; [|discriminate].
    destruct (read_page node_type (body r) d) as [[d' [c|]]|e] eqn:E; simpl.
    + apply IH. simpl. simpl in Hlt. lia.
    + discriminate.
    + destruct (unassigned_read_page_Raise _ _ _ _ E) as [[k ->]| ->]; simpl; discriminate.
Qed.

Lemma unassigned_get_nodes_run (pages : list Page) (last : Page)
    (rs rest : list HttpResponse) (r : HttpResponse) (w : World) :
  transport w = rs ++ r :: rest ->
  Forall2 (serves node_type) rs pages ->
  serves node_type r last ->
  Forall (fun p => Forall numbered (page_nodes p)) (pages ++ [last]) ->
  Forall (fun p => eq_True (hasNextPage p) = true) pages ->
  eq_True (hasNextPage last) = false ->
  get_nodes node_type w =
  (Ok (file_nodes (all_page_nodes (pages ++ [last])) []),
   advance w rest (page_queries query JNull (pages ++ [last]))
     (Write ("Getting " +:+ node_type +:+ "s")
        :: dots (S (List.length pages)) ++ [Write nl])).
Proof.
  intros Ht Hs Hr Hn Hc Hstop.
  apply Forall_app in Hn as [Hn Hl]. inversion Hl as [|? ? Hnl _]; subst.
  unfold get_nodes.
  unfold bind at 1. unfold emit at 1. unfold bind at 1. unfold pending at 1.
  cbv beta iota. unfold bind at 1.
  set (w1 := mkWorld _ _ _ _ _).
  assert (Ht1 : transport w1 = rs ++ r :: rest) by exact Ht.
  replace (S (List.length (transport w1)))
    with (List.length pages + S (S (List.length rest)))%nat
    by (rewrite Ht1, length_app, (Forall2_length Hs); simpl; lia).
  rewrite (unassigned_fetch_walk pages rs (r :: rest) _ JNull [] w1 Ht1 Hs Hn Hc).
  rewrite (unassigned_fetch_stop _ _ _
             (advance w1 (r :: rest) _ _) r rest last eq_refl Hr Hnl Hstop).
  rewrite advance_advance. run.
  unfold all_page_nodes. rewrite map_app, concat_app. simpl.
  rewrite app_nil_r, file_nodes_app.
  fold (all_page_nodes pages). rewrite page_queries_snoc. f_equal. f_equal.
  rewrite dots_snoc, <- !app_assoc. reflexivity.
Qed.
End UnassignedFetch.

(** ** The union of the pages *)

Lemma append_eq_self (a b : string) : a +:+ b = a -> b = EmptyString.
Proof.
  induction a as [|c a IH]; simpl; intros H; [exact H|].
  inversion H. auto.
Qed.

Lemma file_nodes_fresh (nodes : list Json) :
  forall d : NodeSet,
  Forall numbered nodes ->
  NoDup (map number_of nodes) ->
  (forall n k, In n nodes -> number_of n = Ok k -> ~ In k (keys d)) ->
  List.length (file_nodes nodes d) = (List.length d + List.length nodes)%nat.
Proof.
  induction nodes as [|n nodes IH]; intros d Hn Hnd Hfresh; simpl; [lia|].
  inversion Hn as [|? ? [k Hk] Hn']; subst. inversion Hnd as [|? ? Hnotin Hnd']; subst.
  assert (Hkd : ~ In k (keys d)) by (apply (Hfresh n k); [now left|exact Hk]).
  assert (Hkeys : keys (file_node d n) = keys d ++ [k]).
  { unfold file_node. rewrite Hk, (keys_dict_set key_eqb key_eqb_spec).
    unfold dict_mem.
    now rewrite (proj2 (dict_get_None key_eqb key_eqb_spec k d) Hkd). }
  rewrite IH; [| exact Hn' | exact Hnd' |].
  - replace (List.length (file_node d n)) with (List.length (keys (file_node d n)))
      by apply length_map.
    rewrite Hkeys, length_app. unfold keys. rewrite length_map. simpl. lia.
  - intros n' k' HIn Hk'. rewrite Hkeys. intros HIn'.
    apply in_app_or in HIn' as [HIn'|[<-|[]]].
    + apply (Hfresh n' k'); [now right|exact Hk'|exact HIn'].
    + apply Hnotin. rewrite Hk, <- Hk'. apply in_map, HIn.
Qed.

Lemma file_nodes_is_union (nodes : list Json) :
  Forall numbered nodes -> is_union nodes (file_nodes nodes []).
Proof.
  intros Hn. split; [|split].
  - intros node HIn. rewrite Forall_forall in Hn. destruct (Hn node HIn) as [k Hk].
    exists k. split; [exact Hk|]. eapply file_nodes_mem; eassumption.
  - intros k node HIn.
    apply (In_dict_get key_eqb key_eqb_spec) in HIn; [|apply NoDup_file_nodes; constructor].
    apply file_nodes_get_inv in HIn as [H|H]; [discriminate|exact H].
  - apply NoDup_file_nodes. constructor.
Qed.

Lemma walked_intro (query : Json -> string) (pages : list Page) (rest : list HttpResponse)
    (w w' : World) :
  Forall (fun p => Forall numbered (page_nodes p)) pages ->
  transport w' = rest ->
  requests w' = requests w ++ page_queries query JNull pages ->
  walked query pages rest w (Ok (file_nodes (all_page_nodes pages) []), w').
Proof.
  intros Hn Ht Hq.
  assert (Hall : Forall numbered (all_page_nodes pages)).
  { unfold all_page_nodes. clear -Hn. induction Hn; simpl; [constructor|].
    apply Forall_app. split; assumption. }
  exists (file_nodes (all_page_nodes pages) []). simpl.
  split; [reflexivity|]. split; [apply (file_nodes_is_union _ Hall)|].
  split; [intros ->; reflexivity|]. split; [|split; assumption].
  intros Hnd. rewrite file_nodes_fresh; simpl; auto.
Qed.

Lemma page_json_is_page (node_type : string) (p : Page) :
  is_page node_type (page_json node_type p) p.
Proof.
  unfold is_page, page_json. do 6 eexists.
  split; [reflexivity|]. split; [reflexivity|]. split; [reflexivity|].
  split; [simpl; rewrite String.eqb_refl; reflexivity|].
  split; [reflexivity|]. split; [|split; [reflexivity|split; reflexivity]].
  induction (page_nodes p); simpl; constructor; auto.
Qed.

Lemma ok_reply_serves (node_type : string) (p : Page) :
  serves node_type (ok_reply node_type p) p.
Proof. split; [reflexivity|apply page_json_is_page]. Qed.

(** ** Pagination *)

(** C2.  The walk over the pages.  When the transport serves pages that
    each announce a next page and then a page [last] that does not, the
    paginator of either script sends one query per page, the first without
    a cursor and each next one with the [endCursor] of the page before,
    takes none of the replies after [last], and returns the union of the
    nodes of the pages it fetched; a single page without nodes gives the
    empty NodeSet.  For [graal_report.py] this is the fetch on a cache
    miss. *)
Theorem paginator_walks_until_last_page {B : Builtins}
    (node_type node_info states : string) (pages : list Page) (last : Page)
    (rs rest : list HttpResponse) (r : HttpResponse) (w : World) :
  transport w = rs ++ r :: rest ->
  Forall2 (serves node_type) rs pages ->
  serves node_type r last ->
  Forall (fun p => Forall numbered (page_nodes p)) (pages ++ [last]) ->
  Forall (fun p => eq_True (hasNextPage p) = true) pages ->
  eq_True (hasNextPage last) = false ->
  (dict_mem String.eqb (node_type +:+ node_info) (_cached_results w) = false ->
   walked (GraalReport.get_open_nodes_query node_type node_info states)
     (pages ++ [last]) rest w (GraalReport.get_nodes node_type node_info states w)) /\
  walked (UnassignedIssues.get_open_nodes_query node_type)
    (pages ++ [last]) rest w (UnassignedIssues.get_nodes node_type w).
Proof.
  intros Ht Hs Hr Hn Hc Hstop. split.
  - intros Hmiss.
    rewrite (graal_get_nodes_miss node_type node_info states pages last rs rest r w
               Hmiss Ht Hs Hr Hn Hc Hstop).
    apply walked_intro; [exact Hn|reflexivity|reflexivity].
  - rewrite (unassigned_get_nodes_run node_type pages last rs rest r w
               Ht Hs Hr Hn Hc Hstop).
    apply walked_intro; [exact Hn|reflexivity|reflexivity].
Qed.

Lemma paginator_walks_three_pages :
  let w := Example.three_pages in
  (dict_mem String.eqb ("issue" +:+ GraalReport._node_info1) (_cached_results w) = false ->
   walked (GraalReport.get_open_nodes_query (B := Sample.builtins)
             "issue" GraalReport._node_info1 "OPEN")
     [Example.page1; Example.page2; Example.page3] [] w
     (GraalReport.get_nodes (B := Sample.builtins) "issue" GraalReport._node_info1 "OPEN" w)) /\
  walked (UnassignedIssues.get_open_nodes_query (B := Sample.builtins) "issue")
    [Example.page1; Example.page2; Example.page3] [] w
    (UnassignedIssues.get_nodes (B := Sample.builtins) "issue" w).
Proof.
  apply (paginator_walks_until_last_page (B := Sample.builtins)
           "issue" GraalReport._node_info1 "OPEN"
           [Example.page1; Example.page2] Example.page3
           [ok_reply "issue" Example.page1; ok_reply "issue" Example.page2] []
           (ok_reply "issue" Example.page3) Example.three_pages).
  - reflexivity.
  - repeat constructor; apply page_json_is_page.
  - apply ok_reply_serves.
  - repeat constructor; eexists; reflexivity.
  - repeat constructor.
  - reflexivity.
Defined.

Example paginator_single_empty_page :
  let w := Example.world [ok_reply "issue" Example.empty_page] in
  fst (GraalReport.get_nodes (B := Sample.builtins) "issue" GraalReport._node_info1 "OPEN" w)
    = Ok [] /\
  fst (UnassignedIssues.get_nodes (B := Sample.builtins) "issue" w) = Ok [].
Proof. split; reflexivity. Qed.

Lemma all_page_nodes_app (a b : list Page) :
  all_page_nodes (a ++ b) = all_page_nodes a ++ all_page_nodes b.
Proof. unfold all_page_nodes. now rewrite map_app, concat_app. Qed.

Lemma file_nodes_filed_once (pages before after : list Page) (p : Page)
    (a b : list Json) (node : Json) (k : Key) :
  pages = before ++ p :: after ->
  page_nodes p = a ++ node :: b ->
  number_of node = Ok k ->
  Forall (fun n => number_of n <> Ok k) b ->
  Forall (fun q => Forall (fun n => number_of n <> Ok k) (page_nodes q)) after ->
  filed_once k node (file_nodes (all_page_nodes pages) []).
Proof.
  intros -> Hp Hk Hb Hafter.
  assert (Hget : dict_get key_eqb k
                   (file_nodes (all_page_nodes (before ++ p :: after)) []) = Some node).
  { rewrite all_page_nodes_app. unfold all_page_nodes at 2. simpl.
    fold (all_page_nodes after). rewrite Hp, <- !app_assoc, app_assoc. simpl.
    rewrite app_comm_cons. rewrite <- app_comm_cons.
    apply file_nodes_get_last; [exact Hk|].
    apply Forall_app. split; [exact Hb|].
    unfold all_page_nodes. clear -Hafter. induction Hafter; simpl; [constructor|].
    apply Forall_app. split; assumption. }
  split; [exact Hget|].
  apply NoDup_count_occ'; [apply NoDup_file_nodes; constructor|].
  apply dict_get_In with (eqb := key_eqb) in Hget; [|exact key_eqb_spec].
  change k with (fst (k, node)). apply in_map. exact Hget.
Qed.

(** C3.  Duplicate numbers.  When a number occurs on several of the
    fetched pages, the NodeSet either script's paginator returns holds
    that number once, with the node of its last occurrence: for a node in
    page [p] with number [k] that no later node of [p] and no node of a
    later page carries, whatever the pages before [p] hold under [k]. *)
Theorem later_page_overwrites_earlier {B : Builtins}
    (node_type node_info states : string) (pages : list Page) (last : Page)
    (rs rest : list HttpResponse) (r : HttpResponse) (w : World)
    (before after : list Page) (p : Page) (a b : list Json) (node : Json) (k : Key) :
  transport w = rs ++ r :: rest ->
  Forall2 (serves node_type) rs pages ->
  serves node_type r last ->
  Forall (fun p => Forall numbered (page_nodes p)) (pages ++ [last]) ->
  Forall (fun p => eq_True (hasNextPage p) = true) pages ->
  eq_True (hasNextPage last) = false ->
  pages ++ [last] = before ++ p :: after ->
  page_nodes p = a ++ node :: b ->
  number_of node = Ok k ->
  Forall (fun n => number_of n <> Ok k) b ->
  Forall (fun q => Forall (fun n => number_of n <> Ok k) (page_nodes q)) after ->
  (dict_mem String.eqb (node_type +:+ node_info) (_cached_results w) = false ->
   exists ns,
     fst (GraalReport.get_nodes node_type node_info states w) = Ok ns /\
     filed_once k node ns) /\
  (exists ns,
     fst (UnassignedIssues.get_nodes node_type w) = Ok ns /\ filed_once k node ns).
Proof.
  intros Ht Hs Hr Hn Hc Hstop Hpages Hp Hk Hb Hafter.
  pose proof (file_nodes_filed_once _ _ _ _ _ _ _ _ Hpages Hp Hk Hb Hafter) as Honce.
  split.
  - intros Hmiss.
    rewrite (graal_get_nodes_miss node_type node_info states pages last rs rest r w
               Hmiss Ht Hs Hr Hn Hc Hstop).
    eexists. split; [reflexivity|exact Honce].
  - rewrite (unassigned_get_nodes_run node_type pages last rs rest r w
               Ht Hs Hr Hn Hc Hstop).
    eexists. split; [reflexivity|exact Honce].
Qed.

Lemma later_page_overwrites_issue_two :
  let w := Example.three_pages in
  let node := issue 2 "two again" 0 [] in
  (dict_mem String.eqb ("issue" +:+ GraalReport._node_info1) (_cached_results w) = false ->
   exists ns,
     fst (GraalReport.get_nodes (B := Sample.builtins)
            "issue" GraalReport._node_info1 "OPEN" w) = Ok ns /\
     filed_once (KNum 2) node ns) /\
  (exists ns,
     fst (UnassignedIssues.get_nodes (B := Sample.builtins) "issue" w) = Ok ns /\
     filed_once (KNum 2) node ns).
Proof.
  apply (later_page_overwrites_earlier (B := Sample.builtins)
           "issue" GraalReport._node_info1 "OPEN"
           [Example.page1; Example.page2] Example.page3
           [ok_reply "issue" Example.page1; ok_reply "issue" Example.page2] []
           (ok_reply "issue" Example.page3) Example.three_pages
           [Example.page1] [Example.page3] Example.page2
           [issue 3 "three" 0 []] []).
  - reflexivity.
  - repeat constructor; apply page_json_is_page.
  - apply ok_reply_serves.
  - repeat constructor; eexists; reflexivity.
  - repeat constructor.
  - reflexivity.
  - reflexivity.
  - reflexivity.
  - reflexivity.
  - constructor.
  - repeat constructor. discriminate.
Defined.

(** ** The cache *)

Section GraalCache.
Context {B : Builtins}.
Import GraalReport.

Variables node_type node_info states : string.

Lemma graal_fetch_pages_cache (fuel : nat) :
  forall cursor d w,
  _cached_results (snd (fetch_pages fuel node_type node_info states cursor d w))
  = _cached_results w.
Proof.
  induction fuel as [|fuel IH]; intros cursor d w; [reflexivity|].
  simpl. unfold run_query. run.
  destruct (transport w) as [|r rest]; [reflexivity|].
  destruct ((200 <=? status r) && (status r <? 300)); simpl; [|reflexivity].
  destruct (status r =? 200); simpl; [|reflexivity].
  destruct (read_page node_type (body r) d) as [[d' [c|]]|e]; simpl.
  - rewrite IH. reflexivity.
  - reflexivity.
  - destruct e; reflexivity.
Qed.

(** What a miss leaves in the cache: the NodeSet under [node_type +
    node_info] when the fetch returns, nothing new when it raises. *)
Lemma graal_get_nodes_miss_cache (w w1 : World) (out : Result NodeSet) :
  dict_mem String.eqb (node_type +:+ node_info) (_cached_results w) = false ->
  get_nodes node_type node_info states w = (out, w1) ->
  _cached_results w1 =
  match out with
  | Ok ns => dict_set String.eqb (node_type +:+ node_info) ns (_cached_results w)
  | Raise _ => _cached_results w
  end.
Proof.
  intros Hmiss. unfold get_nodes. rewrite Hmiss.
  unfold bind at 1. unfold emit at 1. unfold bind at 1. unfold pending at 1.
  cbv beta iota. unfold bind at 1.
  set (w0 := mkWorld _ _ _ _ _). set (fuel := S _).
  pose proof (graal_fetch_pages_cache fuel JNull [] w0) as Hc.
  destruct (fetch_pages fuel node_type node_info states JNull [] w0) as [[ns|e] w2].
  - unfold cache_store. run. intros H. inversion H; subst. simpl.
    simpl in Hc. now rewrite Hc.
  - intros H. inversion H; subst. exact Hc.
Qed.
End GraalCache.

(** C1.  The cache on a second call.  After a call of [get_nodes] has
    fetched and returned a NodeSet for a node kind and a non-empty field
    selection, with nothing cached under the bare node kind, the same call
    again finds its key in the cache and fetches nothing, but it then looks
    the NodeSet up under the node kind alone, where nothing was stored: it
    raises [KeyError] and returns no NodeSet. *)
Theorem second_call_raises_KeyError {B : Builtins}
    (node_type node_info states : string) (w w1 : World) (ns : NodeSet) :
  node_info <> EmptyString ->
  dict_get String.eqb node_type (_cached_results w) = None ->
  GraalReport.get_nodes node_type node_info states w = (Ok ns, w1) ->
  GraalReport.get_nodes node_type node_info states w1 = (Raise (KeyError node_type), w1).
Proof.
  intros Hinfo Hnone Hfirst.
  destruct (dict_mem String.eqb (node_type +:+ node_info) (_cached_results w)) eqn:Hmem.
  - rewrite (graal_get_nodes_hit _ _ _ _ Hmem), Hnone in Hfirst. discriminate.
  - pose proof (graal_get_nodes_miss_cache _ _ _ _ _ _ Hmem Hfirst) as Hc.
    simpl in Hc.
    assert (Hne : node_type +:+ node_info <> node_type).
    { intros E. apply Hinfo. eapply append_eq_self, E. }
    rewrite graal_get_nodes_hit.
    + rewrite Hc, (dict_get_set_other String.eqb String.eqb_spec) by exact Hne.
      now rewrite Hnone.
    + unfold dict_mem. rewrite Hc.
      now rewrite (dict_get_set_same String.eqb String.eqb_spec).
Qed.

Lemma second_call_raises_on_issues :
  let w := Example.world [ok_reply "issue" Example.empty_page] in
  let w1 := snd (GraalReport.get_nodes (B := Sample.builtins)
                   "issue" GraalReport._node_info1 "OPEN" w) in
  GraalReport.get_nodes (B := Sample.builtins) "issue" GraalReport._node_info1 "OPEN" w1
  = (Raise (KeyError "issue"), w1).
Proof.
  apply (second_call_raises_KeyError (B := Sample.builtins)
           "issue" GraalReport._node_info1 "OPEN"
           (Example.world [ok_reply "issue" Example.empty_page]) _ []).
  - discriminate.
  - reflexivity.
  - reflexivity.
Defined.

(** The script itself: once the two activity reports have run, the first
    unassigned report asks for a cached key and stops the run. *)
Example main_stops_at_third_report :
  let w := Example.world [ok_reply "issue" Example.empty_page;
                          ok_reply "pullRequest" Example.empty_page] in
  fst (GraalReport.main (B := Sample.builtins) w) = Raise (KeyError "pullRequest").
Proof. reflexivity. Qed.

(** ** Failures of a fetch *)

Section GraalFailure.
Context {B : Builtins}.
Import GraalReport.



Variables node_type node_info states : string.

Let query := get_open_nodes_query node_type node_info states.

End GraalFailure.

Section UnassignedFailure.
Context {B : Builtins}.
Import UnassignedIssues.



Variable node_type : string.

Let query := get_open_nodes_query node_type.

End UnassignedFailure.







(** ** Sorting *)

Lemma string_compare_lt_trans (s : string) :
  forall t u, String.compare s t = Lt -> String.compare t u = Lt -> String.compare s u = Lt.
Proof.
  induction s as [|a s IH]; intros [|b t] [|c u]; simpl; try discriminate; auto.
  unfold Ascii.compare.
  destruct (N.compare_spec (N_of_ascii a) (N_of_ascii b)) as [Eab|Lab|Gab];
    try discriminate;
    destruct (N.compare_spec (N_of_ascii b) (N_of_ascii c)) as [Ebc|Lbc|Gbc];
    try discriminate; intros H1 H2.
  - rewrite Eab, Ebc, N.compare_refl. eauto.
  - rewrite Eab. now rewrite (proj2 (N.compare_lt_iff _ _) Lbc).
  - rewrite <- Ebc. now rewrite (proj2 (N.compare_lt_iff _ _) Lab).
  - now rewrite (proj2 (N.compare_lt_iff _ _) (N.lt_trans _ _ _ Lab Lbc)).
Qed.

Lemma string_ltb_trans (s t u : string) :
  String.ltb s t = true -> String.ltb t u = true -> String.ltb s u = true.
Proof.
  unfold String.ltb. intros H1 H2.
  destruct (String.compare s t) eqn:E1; try discriminate.
  destruct (String.compare t u) eqn:E2; try discriminate.
  now rewrite (string_compare_lt_trans _ _ _ E1 E2).
Qed.

Lemma string_ltb_total (s t : string) :
  String.ltb s t = false -> s <> t -> String.ltb t s = true.
Proof.
  unfold String.ltb. rewrite (String.compare_antisym t s). intros H Hne.
  destruct (String.compare s t) eqn:E; simpl; try discriminate; [|reflexivity].
  apply String.compare_eq_iff in E. contradiction.
Qed.

Lemma key_lt_trans (a b c : Key) :
  key_lt a b = Ok true -> key_lt b c = Ok true -> key_lt a c = Ok true.
Proof.
  destruct a as [|x|s], b as [|y|t], c as [|z|u]; simpl; try discriminate.
  - intros H1 H2. injection H1 as H1. injection H2 as H2.
    f_equal. apply Z.ltb_lt. apply Z.ltb_lt in H1, H2. lia.
  - intros H1 H2. injection H1 as H1. injection H2 as H2.
    f_equal. exact (string_ltb_trans _ _ _ H1 H2).
Qed.

Lemma key_lt_total (a b : Key) :
  key_lt a b = Ok false -> a <> b -> key_lt b a = Ok true.
Proof.
  destruct a as [|x|s], b as [|y|t]; simpl; try discriminate.
  - intros H Hne. injection H as H. f_equal.
    assert (x <> y) by congruence. apply Z.ltb_lt. apply Z.ltb_ge in H. lia.
  - intros H Hne. injection H as H. f_equal.
    apply string_ltb_total; congruence.
Qed.

Lemma item_ahead_trans (d : bool) (a b c : Key * Json) :
  item_ahead d a b -> item_ahead d b c -> item_ahead d a c.
Proof.
  unfold item_ahead, item_lt. destruct d; intros H1 H2; eapply key_lt_trans; eassumption.
Qed.

Lemma item_lt_total (d : bool) (a b : Key * Json) :
  item_lt d a b = Ok false -> fst a <> fst b -> item_ahead d b a.
Proof.
  unfold item_ahead, item_lt. destruct d; intros H Hne; apply key_lt_total; auto.
Qed.

Section SortFacts.
Context {A : Type}.
Variable lt : A -> A -> Result bool.

Lemma insert_sorted_perm (x : A) (l : list A) :
  forall r, insert_sorted lt x l = Ok r -> Permutation (x :: l) r.
Proof.
  induction l as [|y l IH]; intros r H; simpl in H.
  - inversion H. apply Permutation_refl.
  - destruct (lt x y) as [[|]|]; simpl in H; try discriminate.
    + inversion H. apply Permutation_refl.
    + destruct (insert_sorted lt x l) as [r'|]; simpl in H; [|discriminate].
      inversion H; subst. eapply perm_trans; [apply perm_swap|].
      apply perm_skip, IH. reflexivity.
Qed.

Lemma sort_with_perm (l : list A) :
  forall r, sort_with lt l = Ok r -> Permutation l r.
Proof.
  induction l as [|x l IH]; intros r H; simpl in H.
  - inversion H. apply perm_nil.
  - destruct (sort_with lt l) as [s|]; simpl in H; [|discriminate].
    eapply perm_trans; [apply perm_skip, IH; reflexivity|].
    apply insert_sorted_perm, H.
Qed.
End SortFacts.

Lemma insert_sorted_items (d : bool) (x : Key * Json) (l : list (Key * Json)) :
  forall r,
  insert_sorted (item_lt d) x l = Ok r ->
  Sorted (item_ahead d) l ->
  ~ In (fst x) (keys l) ->
  Sorted (item_ahead d) r /\
  (forall y, HdRel (item_ahead d) y l -> item_ahead d y x -> HdRel (item_ahead d) y r).
Proof.
  induction l as [|y l IH]; intros r H Hs Hx; simpl in H.
  - inversion H; subst. split; [repeat constructor|]. intros; now constructor.
  - destruct (item_lt d x y) as [[|]|] eqn:E; simpl in H; try discriminate.
    + inversion H; subst. split.
      * constructor; [exact Hs|]. constructor. exact E.
      * intros z _ Hz. now constructor.
    + destruct (insert_sorted (item_lt d) x l) as [r'|] eqn:Er; simpl in H; [|discriminate].
      inversion H; subst. inversion Hs as [|? ? Hs' Hhd]; subst.
      assert (Hyx : item_ahead d y x).
      { apply item_lt_total; [exact E|]. intros Heq. apply Hx. left. now symmetry. }
      destruct (IH r' eq_refl Hs') as [Hsr Hhdr].
      { intros HIn. apply Hx. now right. }
      split.
      * constructor; [exact Hsr|]. apply Hhdr; assumption.
      * intros z Hz _. inversion Hz; subst. now constructor.
Qed.

Lemma sorted_items_sorted (d : bool) (nodes : NodeSet) :
  forall items,
  sorted_items d nodes = Ok items ->
  NoDup (keys nodes) ->
  Sorted (item_ahead d) items.
Proof.
  unfold sorted_items. induction nodes as [|x nodes IH]; intros items H Hnd; simpl in H.
  - inversion H. constructor.
  - inversion Hnd as [|? ? Hnotin Hnd']; subst.
    destruct (sort_with (item_lt d) nodes) as [s|] eqn:Es; simpl in H; [|discriminate].
    apply (insert_sorted_items d x s items H); [apply IH; auto|].
    intros HIn. apply Hnotin.
    apply Permutation_in with (l := keys s); [|exact HIn].
    apply Permutation_sym, Permutation_map, (sort_with_perm _ _ _ Es).
Qed.

Lemma insert_sorted_total (d : bool) (x : Key * Json) (l : list (Key * Json)) :
  comparable (keys (x :: l)) -> exists r, insert_sorted (item_lt d) x l = Ok r.
Proof.
  induction l as [|y l IH]; intros Hc; simpl; [eauto|].
  assert (Hxy : exists c, item_lt d x y = Ok c).
  { unfold item_lt. destruct d; apply Hc; simpl; auto. }
  destruct Hxy as [c ->]. simpl. destruct c; [eauto|].
  destruct IH as [r ->]; [|simpl; eauto].
  intros a b Ha Hb. apply Hc; simpl in *; tauto.
Qed.

Lemma sorted_items_total (d : bool) (nodes : NodeSet) :
  comparable (keys nodes) -> exists items, sorted_items d nodes = Ok items.
Proof.
  unfold sorted_items. induction nodes as [|x nodes IH]; intros Hc; simpl; [eauto|].
  destruct IH as [s Hs].
  { intros a b Ha Hb. apply Hc; simpl; tauto. }
  rewrite Hs. simpl. apply insert_sorted_total.
  pose proof (Permutation_map fst (sort_with_perm _ _ _ Hs)) as Hp.
  intros a b Ha Hb. apply Hc.
  - destruct Ha as [<-|Ha]; [now left|right].
    apply Permutation_in with (l := keys s); [apply Permutation_sym, Hp|exact Ha].
  - destruct Hb as [<-|Hb]; [now left|right].
    apply Permutation_in with (l := keys s); [apply Permutation_sym, Hp|exact Hb].
Qed.

Lemma StronglySorted_filter {A : Type} (R : A -> A -> Prop) (f : A -> bool) (l : list A) :
  StronglySorted R l -> StronglySorted R (filter f l).
Proof.
  induction 1 as [|x l Hs IH Hall]; simpl; [constructor|].
  destruct (f x); [|exact IH]. constructor; [exact IH|].
  rewrite Forall_forall in *. intros y Hy. apply filter_In in Hy as [Hy _]. auto.
Qed.

Lemma Sorted_keys (d : bool) (l : list (Key * Json)) :
  Sorted (item_ahead d) l -> Sorted (ahead d) (keys l).
Proof.
  induction 1 as [|x l Hs IH Hhd]; simpl; constructor; [exact IH|].
  destruct Hhd; simpl; constructor. assumption.
Qed.

(** ** The unassigned report *)

Lemma written_written (w : World) (a b : list Event) :
  written (written w a) b = written w (a ++ b).
Proof. unfold written; simpl. now rewrite app_assoc. Qed.

Lemma written_nil (w : World) : written w [] = w.
Proof. destruct w. unfold written; simpl. now rewrite app_nil_r. Qed.

Lemma unassignedb_true {B : Builtins} (item : Key * Json) :
  unassignedb item = true <-> assignee_count (snd item) = Ok 0.
Proof.
  unfold unassignedb. destruct (assignee_count (snd item)) as [[| |]|]; split;
    congruence.
Qed.

Lemma NoDup_keys_filter {V : Type} (f : Key * V -> bool) (l : list (Key * V)) :
  NoDup (keys l) -> NoDup (keys (filter f l)).
Proof.
  induction l as [|x l IH]; simpl; intros H; [constructor|].
  inversion H as [|? ? Hnotin Hnd]; subst.
  destruct (f x); simpl; [|auto]. constructor; [|auto].
  intros HIn. apply Hnotin. unfold keys in *.
  apply in_map_iff in HIn as (y & Hy & HIn). apply filter_In in HIn as [HIn _].
  rewrite <- Hy. now apply in_map.
Qed.

Lemma report_of_sorted {B : Builtins} (d : bool) (nodes : NodeSet)
    (items : list (Key * Json)) (lines : list Event) :
  sorted_items d nodes = Ok items ->
  NoDup (keys nodes) ->
  Forall2 (fun item l => unassigned_line (snd item) l) (filter unassignedb items) lines ->
  unassigned_report d nodes lines (Z.of_nat (List.length (filter unassignedb items))).
Proof.
  intros Hsort Hnd Hlines.
  pose proof (sort_with_perm _ _ _ Hsort) as Hperm.
  exists (filter unassignedb items). repeat split.
  - apply Permutation_in with (l := items); [now apply Permutation_sym|].
    apply filter_In in H. tauto.
  - apply filter_In in H as [_ H]. now apply unassignedb_true in H.
  - intros [HIn Hc]. apply filter_In. split.
    + apply Permutation_in with (l := nodes); assumption.
    + now apply unassignedb_true.
  - apply NoDup_keys_filter.
    apply Permutation_NoDup with (l := keys nodes); [|exact Hnd].
    now apply Permutation_map.
  - apply Sorted_keys, StronglySorted_Sorted, StronglySorted_filter.
    apply Sorted_StronglySorted.
    + intros a b c. apply item_ahead_trans.
    + eapply sorted_items_sorted; eassumption.
  - exact Hlines.
Qed.

Lemma unassigned_report_empty {B : Builtins} (d : bool) (lines : list Event) (total : Z) :
  unassigned_report d [] lines total -> lines = [] /\ total = 0.
Proof.
  intros (out & Hiff & _ & _ & Hl & ->).
  destruct out as [|[k n] out].
  - inversion Hl. split; reflexivity.
  - exfalso. apply (proj1 (Hiff k n)). now left.
Qed.

Ltac unassigned_loop_tac IH :=
  let c := fresh "c" in
  let Hc := fresh "Hc" in
  let Hline := fresh "Hline" in
  match goal with
  | H : classifiable _ |- _ => destruct H as (c & Hc & Hline)
  end;
  simpl; unfold bind at 1, lift at 1;
  unfold unassignedb; simpl; unfold assignee_count in Hc |- *; rewrite Hc;
  destruct (Z.eqb_spec c 0) as [->|Hne];
  [ destruct (Hline eq_refl) as (l & url & title & Hu & Ht & ->);
    unfold bind at 1, lift at 1; rewrite Hu; simpl; rewrite Ht; simpl;
    unfold bind at 1, emit at 1
  | destruct c; try contradiction ].

Lemma graal_unassigned_loop_run {B : Builtins} (items : list (Key * Json)) :
  Forall classifiable (values items) ->
  forall total w,
  exists lines,
    GraalReport.unassigned_loop items total w =
    (Ok (total + Z.of_nat (List.length (filter unassignedb items))), written w lines) /\
    Forall2 (fun item l => unassigned_line (snd item) l) (filter unassignedb items) lines.
Proof.
  induction items as [|[k node] items IH]; intros Hall total w.
  - exists []. rewrite written_nil, Z.add_0_r. split; [reflexivity|constructor].
  - inversion Hall as [|? ? Hnode Hrest]; subst. specialize (IH Hrest).
    unassigned_loop_tac IH.
    + destruct (IH (total + 1) (written w [Unassigned url title])) as (lines & Hrun & Hl).
      exists (Unassigned url title :: lines). split.
      * unfold written at 1 in Hrun. simpl in Hrun. rewrite Hrun.
        rewrite written_written. simpl. f_equal. f_equal.
        rewrite Zpos_P_of_succ_nat. unfold unassignedb, assignee_count. lia.
      * constructor; [|exact Hl]. exists url, title. auto.
    + destruct (IH total w) as (lines & Hrun & Hl). exists lines. auto.
    + destruct (IH total w) as (lines & Hrun & Hl). exists lines. auto.
Qed.

Lemma unassigned_unassigned_loop_run {B : Builtins} (items : list (Key * Json)) :
  Forall classifiable (values items) ->
  forall total w,
  exists lines,
    UnassignedIssues.unassigned_loop items total w =
    (Ok (total + Z.of_nat (List.length (filter unassignedb items))), written w lines) /\
    Forall2 (fun item l => unassigned_line (snd item) l) (filter unassignedb items) lines.
Proof.
  induction items as [|[k node] items IH]; intros Hall total w.
  - exists []. rewrite written_nil, Z.add_0_r. split; [reflexivity|constructor].
  - inversion Hall as [|? ? Hnode Hrest]; subst. specialize (IH Hrest).
    unassigned_loop_tac IH.
    + destruct (IH (total + 1) (written w [Unassigned url title])) as (lines & Hrun & Hl).
      exists (Unassigned url title :: lines). split.
      * unfold written at 1 in Hrun. simpl in Hrun. rewrite Hrun.
        rewrite written_written. simpl. f_equal. f_equal.
        rewrite Zpos_P_of_succ_nat. unfold unassignedb, assignee_count. lia.
      * constructor; [|exact Hl]. exists url, title. auto.
    + destruct (IH total w) as (lines & Hrun & Hl). exists lines. auto.
    + destruct (IH total w) as (lines & Hrun & Hl). exists lines. auto.
Qed.

(** C4 as the code has it.  Of a NodeSet whose numbers can be ordered and
    whose nodes carry an assignee count, both scripts write one line for
    each node without assignees and no other, and then the number of
    those lines; an empty NodeSet gives no line and the total 0.
    [graal_report.py] writes the lines by descending number,
    [unassigned_issues.py] by ascending number. *)
Theorem unassigned_classifier_orders {B : Builtins} (node_type : string)
    (nodes : NodeSet) (w w1 : World) :
  NoDup (keys nodes) ->
  comparable (keys nodes) ->
  Forall classifiable (values nodes) ->
  (GraalReport.get_nodes node_type GraalReport._node_info1 "OPEN" w = (Ok nodes, w1) ->
   exists lines total,
     GraalReport.show_unassigned_nodes node_type w =
     (Ok tt, written w1 ([Write rule; Write ("Unassigned open " +:+ node_type +:+ "s");
                          Write rule]
                         ++ lines ++ [Total node_type total; Write EmptyString])) /\
     unassigned_report true nodes lines total /\
     (nodes = [] -> lines = [] /\ total = 0)) /\
  (UnassignedIssues.get_nodes node_type w = (Ok nodes, w1) ->
   exists lines total,
     UnassignedIssues.show_unassigned_nodes node_type w =
     (Ok tt, written w1 (lines ++ [Total node_type total])) /\
     unassigned_report false nodes lines total /\
     (nodes = [] -> lines = [] /\ total = 0)).
Proof.
  intros Hnd Hcmp Hall. split; intros Hget.
  - destruct (sorted_items_total true nodes Hcmp) as [items Hsort].
    assert (Hitems : Forall classifiable (values items)).
    { rewrite Forall_forall in *. intros n HIn. apply Hall.
      apply Permutation_in with (l := values items); [|exact HIn].
      apply Permutation_sym, Permutation_map, (sort_with_perm _ _ _ Hsort). }
    destruct (graal_unassigned_loop_run items Hitems 0
                (written w1 [Write rule; Write ("Unassigned open " +:+ node_type +:+ "s");
                             Write rule]))
      as (lines & Hrun & Hlines).
    exists lines, (Z.of_nat (List.length (filter unassignedb items))).
    pose proof (report_of_sorted true nodes items lines Hsort Hnd Hlines) as Hrep.
    split; [|split; [exact Hrep|intros ->; eapply unassigned_report_empty, Hrep]].
    unfold GraalReport.show_unassigned_nodes. unfold bind at 1. rewrite Hget.
    unfold bind at 1, emit at 1. unfold bind at 1, emit at 1.
    unfold bind at 1, emit at 1. unfold bind at 1, lift at 1. rewrite Hsort.
    unfold bind at 1. simpl in Hrun |- *. unfold written in Hrun at 1. simpl in Hrun.
    rewrite <- !app_assoc. simpl. rewrite Hrun.
    run. unfold written. simpl. now rewrite <- !app_assoc.
  - destruct (sorted_items_total false nodes Hcmp) as [items Hsort].
    assert (Hitems : Forall classifiable (values items)).
    { rewrite Forall_forall in *. intros n HIn. apply Hall.
      apply Permutation_in with (l := values items); [|exact HIn].
      apply Permutation_sym, Permutation_map, (sort_with_perm _ _ _ Hsort). }
    destruct (unassigned_unassigned_loop_run items Hitems 0 w1) as (lines & Hrun & Hlines).
    exists lines, (Z.of_nat (List.length (filter unassignedb items))).
    pose proof (report_of_sorted false nodes items lines Hsort Hnd Hlines) as Hrep.
    split; [|split; [exact Hrep|intros ->; eapply unassigned_report_empty, Hrep]].
    unfold UnassignedIssues.show_unassigned_nodes. unfold bind at 1. rewrite Hget.
    unfold bind at 1, lift at 1. rewrite Hsort.
    unfold bind at 1. rewrite Hrun.
    run. unfold written. simpl. now rewrite <- !app_assoc.
Qed.

Lemma comparable_numbers (ks : list Key) :
  Forall (fun k => exists n, k = KNum n) ks -> comparable ks.
Proof.
  intros H a b Ha Hb. rewrite Forall_forall in H.
  destruct (H a Ha) as [x ->], (H b Hb) as [y ->]. simpl. eauto.
Qed.

Lemma unassigned_reports_of_backlog :
  let nodes := file_nodes (page_nodes Example.backlog) [] in
  let w := Example.one_page in
  let g1 := snd (GraalReport.get_nodes (B := Sample.builtins)
                   "issue" GraalReport._node_info1 "OPEN" w) in
  let u1 := snd (UnassignedIssues.get_nodes (B := Sample.builtins) "issue" w) in
  (exists lines total,
     GraalReport.show_unassigned_nodes (B := Sample.builtins) "issue" w =
     (Ok tt, written g1 ([Write rule; Write "Unassigned open issues"; Write rule]
                         ++ lines ++ [Total "issue" total; Write EmptyString])) /\
     unassigned_report (B := Sample.builtins) true nodes lines total /\
     (nodes = [] -> lines = [] /\ total = 0)) /\
  (exists lines total,
     UnassignedIssues.show_unassigned_nodes (B := Sample.builtins) "issue" w =
     (Ok tt, written u1 (lines ++ [Total "issue" total])) /\
     unassigned_report (B := Sample.builtins) false nodes lines total /\
     (nodes = [] -> lines = [] /\ total = 0)).
Proof.
  assert (Hnd : NoDup (keys (file_nodes (page_nodes Example.backlog) []))).
  { apply NoDup_file_nodes. constructor. }
  assert (Hcmp : comparable (keys (file_nodes (page_nodes Example.backlog) []))).
  { apply comparable_numbers. repeat constructor; eexists; reflexivity. }
  assert (Hall : Forall (classifiable (B := Sample.builtins))
                   (values (file_nodes (page_nodes Example.backlog) []))).
  { repeat constructor; eexists; (split; [reflexivity|]);
      first [ discriminate
            | intros _; eexists; eexists; eexists; repeat split; reflexivity ]. }
  split.
  - apply (unassigned_classifier_orders (B := Sample.builtins) "issue" _
             Example.one_page _ Hnd Hcmp Hall).
    reflexivity.
  - apply (unassigned_classifier_orders (B := Sample.builtins) "issue" _
             Example.one_page _ Hnd Hcmp Hall).
    reflexivity.
Defined.

(** C4 as it is stated fails on [unassigned_issues.py]: of issues 7 and 9
    without assignees it writes the line of 7, then the line of 9, which
    is no report by descending number. *)
Lemma unassigned_issues_writes_ascending :
  let nodes := file_nodes (page_nodes Example.backlog) [] in
  let w1 := snd (UnassignedIssues.get_nodes (B := Sample.builtins) "issue" Example.one_page) in
  let lines := [Unassigned (JStr "https://github.com/oracle/graal/issues/seven") (JStr "seven");
                Unassigned (JStr "https://github.com/oracle/graal/issues/nine") (JStr "nine")] in
  UnassignedIssues.get_nodes (B := Sample.builtins) "issue" Example.one_page = (Ok nodes, w1) /\
  UnassignedIssues.show_unassigned_nodes (B := Sample.builtins) "issue" Example.one_page =
  (Ok tt, written w1 (lines ++ [Total "issue" 2])) /\
  ~ unassigned_report (B := Sample.builtins) true nodes lines 2.
Proof.
  split; [reflexivity|]. split; [reflexivity|].
  intros (out & Hiff & _ & Hsorted & Hl & _).
  inversion Hl as [|[k1 n1] l1 out1 ? H1 Hl1]; subst.
  inversion Hl1 as [|[k2 n2] l2 out2 ? H2 Hl2]; subst.
  inversion Hl2; subst.
  destruct (proj1 (Hiff k1 n1) (or_introl eq_refl)) as [HIn1 _].
  destruct (proj1 (Hiff k2 n2) (or_intror (or_introl eq_refl))) as [HIn2 _].
  destruct H1 as (u1 & t1 & Hu1 & _ & E1). destruct H2 as (u2 & t2 & Hu2 & _ & E2).
  simpl in Hu1, Hu2.
  inversion E1; subst u1 t1. inversion E2; subst u2 t2.
  inversion Hsorted as [|? ? _ Hhd]; subst. inversion Hhd as [|? ? Hahead]; subst.
  vm_compute in HIn1, HIn2.
  destruct HIn1 as [E|[E|[E|[]]]]; inversion E; subst; try discriminate;
    destruct HIn2 as [E'|[E'|[E'|[]]]]; inversion E'; subst; discriminate.
Qed.

(** ** The order of datetimes *)

Lemma lex_ltb_irrefl (a : list Z) : lex_ltb a a = false.
Proof.
  induction a as [|x a IH]; simpl; [reflexivity|].
  rewrite Z.ltb_irrefl, Z.eqb_refl, IH. reflexivity.
Qed.

Lemma lex_ltb_trans (a : list Z) :
  forall b c, lex_ltb a b = true -> lex_ltb b c = true -> lex_ltb a c = true.
Proof.
  induction a as [|x a IH]; intros [|y b] [|z c]; simpl; try discriminate; auto.
  intros H1 H2.
  apply orb_true_iff in H1 as [H1|H1]; apply orb_true_iff in H2 as [H2|H2];
    apply orb_true_iff.
  - left. apply Z.ltb_lt in H1, H2. apply Z.ltb_lt. lia.
  - apply andb_true_iff in H2 as [H2 _]. apply Z.eqb_eq in H2. subst. now left.
  - apply andb_true_iff in H1 as [H1 _]. apply Z.eqb_eq in H1. subst. now left.
  - apply andb_true_iff in H1 as [E1 H1]. apply andb_true_iff in H2 as [E2 H2].
    apply Z.eqb_eq in E1, E2. subst. right.
    rewrite Z.eqb_refl. simpl. eapply IH; eassumption.
Qed.

(** What is not above [a] is below whatever [a] is below. *)
Lemma lex_ltb_below (a : list Z) :
  forall x b,
  List.length a = List.length x ->
  lex_ltb a x = false -> lex_ltb a b = true -> lex_ltb x b = true.
Proof.
  induction a as [|p a IH]; intros [|q x] [|r b] Hlen; simpl in *; try discriminate; auto.
  intros H1 H2.
  apply orb_false_iff in H1 as [H1 H1']. apply Z.ltb_ge in H1.
  apply orb_true_iff in H2 as [H2|H2]; apply orb_true_iff.
  - apply Z.ltb_lt in H2.
    destruct (Z.eq_dec p q) as [->|Hne].
    + left. now apply Z.ltb_lt.
    + left. apply Z.ltb_lt. lia.
  - apply andb_true_iff in H2 as [E2 H2]. apply Z.eqb_eq in E2. subst r.
    destruct (Z.eq_dec p q) as [->|Hne].
    + right. rewrite Z.eqb_refl in *. simpl in *. apply (IH x b); auto.
    + left. apply Z.ltb_lt. lia.
Qed.

Lemma dt_ltb_irrefl (t : DateTime) : dt_ltb t t = false.
Proof. apply lex_ltb_irrefl. Qed.

Lemma dt_ltb_trans (a b c : DateTime) :
  dt_ltb a b = true -> dt_ltb b c = true -> dt_ltb a c = true.
Proof. apply lex_ltb_trans. Qed.

Lemma dt_ltb_below (a x b : DateTime) :
  dt_ltb a x = false -> dt_ltb a b = true -> dt_ltb x b = true.
Proof. apply lex_ltb_below. reflexivity. Qed.

Lemma dt_ltb_asym (a b : DateTime) : dt_ltb a b = true -> dt_ltb b a = false.
Proof.
  intros H. destruct (dt_ltb b a) eqn:E; [|reflexivity].
  pose proof (dt_ltb_trans _ _ _ H E) as Hc. now rewrite dt_ltb_irrefl in Hc.
Qed.

(** ** The scan of a timeline *)

Section Scan.
Context {B : Builtins}.
Import GraalReport.

Lemma scan_edge_unauthorized (last : option (Json * DateTime)) (edge : Json) :
  unauthorized edge -> scan_edge last edge = Ok last.
Proof.
  intros (item & Hitem & H). unfold scan_edge. rewrite Hitem. simpl.
  destruct H as [Hi|(author & Hauthor & H)]; [rewrite Hi; reflexivity|].
  destruct (truthy item); [|reflexivity]. rewrite Hauthor. simpl.
  destruct H as [Ha|(organization & Horg & Ho)]; [rewrite Ha; reflexivity|].
  destruct (truthy author); [|reflexivity]. rewrite Horg. simpl. rewrite Ho.
  reflexivity.
Qed.

Lemma scan_edge_authorized (last : option (Json * DateTime)) (edge url : Json)
    (t : DateTime) :
  authorized edge url t ->
  scan_edge last edge =
  Ok (match last with
      | None => Some (url, t)
      | Some (_, previous) => if dt_gtb t previous then Some (url, t) else last
      end).
Proof.
  intros (item & author & organization & stamp &
          Hitem & Ti & Hauthor & Ta & Horg & To & Hurl & Hstamp & Hparse).
  unfold scan_edge. rewrite Hitem. simpl. rewrite Ti, Hauthor. simpl.
  rewrite Ta, Horg. simpl. rewrite To.
  destruct last as [[u0 t0]|].
  - rewrite Hstamp. simpl. rewrite Hparse. simpl.
    destruct (dt_gtb t t0); [|reflexivity]. rewrite Hurl. reflexivity.
  - rewrite Hurl. simpl. rewrite Hstamp. simpl. rewrite Hparse. reflexivity.
Qed.

Lemma no_comment_app (a b : list (option (Json * DateTime))) :
  no_comment a -> no_comment b -> no_comment (a ++ b).
Proof. intros Ha Hb. apply Forall_app. split; assumption. Qed.

(** The invariant of the scan: what is retained after a prefix of the
    timeline is the first of its newest qualifying comments. *)
Lemma scan_timeline_earliest (edges : list Json) (cs : list (option (Json * DateTime))) :
  Forall2 entry edges cs ->
  forall seen last,
  earliest_greatest seen last ->
  exists r, scan_timeline edges last = Ok r /\ earliest_greatest (seen ++ cs) r.
Proof.
  induction 1 as [|edge c edges cs He _ IH]; intros seen last Hinv.
  - exists last. rewrite app_nil_r. split; [reflexivity|exact Hinv].
  - simpl. replace (seen ++ c :: cs) with ((seen ++ [c]) ++ cs)
      by (rewrite <- app_assoc; reflexivity).
    destruct c as [[url t]|]; simpl in He.
    + rewrite (scan_edge_authorized last edge url t He). simpl.
      apply IH. destruct last as [[u0 t0]|]; simpl in *.
      * destruct Hinv as (before & after & -> & Hb & Ha).
        destruct (dt_gtb t t0) eqn:E; unfold dt_gtb in E.
        -- exists (before ++ Some (u0, t0) :: after), []. split; [reflexivity|].
           split; [|intros ? ? []].
           intros u' t' HIn. apply in_app_or in HIn as [HIn|[HIn|HIn]].
           ++ eapply dt_ltb_trans; [eapply Hb, HIn|exact E].
           ++ inversion HIn; subst. exact E.
           ++ eapply dt_ltb_below; [|exact E]. apply (Ha u' t' HIn).
        -- exists before, (after ++ [Some (url, t)]). split.
           ++ rewrite <- app_assoc. reflexivity.
           ++ split; [exact Hb|]. intros u' t' HIn.
              apply in_app_or in HIn as [HIn|[HIn|[]]]; [eapply Ha, HIn|].
              inversion HIn; subst. exact E.
      * exists seen, []. split; [reflexivity|]. split; [|intros ? ? []].
        intros u' t' HIn. unfold no_comment in Hinv. rewrite Forall_forall in Hinv.
        specialize (Hinv _ HIn). discriminate.
    + rewrite (scan_edge_unauthorized last edge He). simpl.
      apply IH. destruct last as [[u0 t0]|]; simpl in *.
      * destruct Hinv as (before & after & -> & Hb & Ha).
        exists before, (after ++ [None]). split.
        -- rewrite <- app_assoc. reflexivity.
        -- split; [exact Hb|]. intros u' t' HIn.
           apply in_app_or in HIn as [HIn|[HIn|[]]]; [eapply Ha, HIn|discriminate].
      * apply no_comment_app; [exact Hinv|]. repeat constructor.
Qed.

Lemma earliest_is_greatest (cs : list (option (Json * DateTime)))
    (r : option (Json * DateTime)) :
  earliest_greatest cs r -> greatest cs r.
Proof.
  destruct r as [[url t]|]; simpl; [|auto].
  intros (before & after & -> & Hb & Ha). split.
  - apply in_or_app. right. now left.
  - intros u' t' HIn. apply in_app_or in HIn as [HIn|[HIn|HIn]].
    + unfold dt_gtb. apply dt_ltb_asym. eapply Hb, HIn.
    + inversion HIn; subst. apply dt_ltb_irrefl.
    + eapply Ha, HIn.
Qed.
End Scan.

Ltac solve_entry :=
  simpl;
  first
    [ do 4 eexists; repeat split; reflexivity
    | eexists; split; [reflexivity|];
      first [ left; reflexivity
            | right; eexists; split; [reflexivity|];
              first [ left; reflexivity
                    | right; eexists; split; reflexivity ] ] ].

Lemma timeline_classified :
  Forall2 (entry (B := Sample.builtins)) Example.timeline Example.classified.
Proof. repeat constructor; solve_entry. Qed.

(** Over a timeline whose comments are all by users, the scan considers
    the comments whose author is a member of the organization and no
    other entry, and retains one of them whose update time no other of
    them exceeds; nothing is retained exactly when there is no such
    comment. *)
Lemma scan_retains_greatest_authorized {B : Builtins}
    (edges : list Json) (cs : list (option (Json * DateTime))) :
  Forall2 entry edges cs ->
  exists r, GraalReport.scan_timeline edges None = Ok r /\ greatest cs r.
Proof.
  intros H.
  destruct (scan_timeline_earliest edges cs H [] None) as (r & Hr & He);
    [constructor|].
  exists r. split; [exact Hr|]. apply earliest_is_greatest, He.
Qed.

Lemma scan_retains_greatest_of_timeline :
  exists r,
    GraalReport.scan_timeline (B := Sample.builtins) Example.timeline None = Ok r /\
    greatest Example.classified r.
Proof.
  apply (scan_retains_greatest_authorized (B := Sample.builtins)
           Example.timeline Example.classified).
  repeat constructor; solve_entry.
Defined.



(** Of the two comments of 20 January it is the first, comment-3. *)
Example scan_of_timeline :
  GraalReport.scan_timeline (B := Sample.builtins) Example.timeline None
  = Ok (Some (JStr "comment-3", mkDateTime 2024 1 20 9 30 0 0)).
Proof. reflexivity. Qed.

(** ** The activity report *)

Lemma greatest_no_comment (cs : list (option (Json * DateTime))) (url : Json) (t : DateTime) :
  greatest cs (Some (url, t)) -> ~ no_comment cs.
Proof.
  intros [HIn _] Hnone. unfold no_comment in Hnone. rewrite Forall_forall in Hnone.
  specialize (Hnone _ HIn). discriminate.
Qed.

(** The line of a node whose comments are all by users.  With [r] the
    comment the scan retains of the node's timeline, the classifier
    writes for the node: the line that says there is no comment of the
    organization, when there is no qualifying comment; the line with the
    elapsed days and the comment's URL, when the whole days from the
    retained comment's update time to now are more than 30; nothing
    otherwise.  So such a node is reported exactly when it has no
    qualifying comment or its retained comment is more than 30 days
    old. *)
Lemma stale_node_is_reported {B : Builtins} (now : DateTime)
    (node timeline url title : Json) (edges : list Json)
    (cs : list (option (Json * DateTime))) :
  subscript node "timelineItems" = Ok timeline ->
  subscript timeline "edges" = Ok (JList edges) ->
  Forall2 entry edges cs ->
  subscript node "url" = Ok url ->
  subscript node "title" = Ok title ->
  exists r line,
    GraalReport.scan_timeline edges None = Ok r /\
    greatest cs r /\
    GraalReport.activity_line now node = Ok line /\
    verdict now url title r line /\
    (line <> None <->
     no_comment cs \/
     exists comment_url t, r = Some (comment_url, t) /\ 30 < delta_days now t).
Proof.
  intros Htl Hedges Hcs Hurl Htitle.
  destruct (scan_timeline_earliest edges cs Hcs [] None) as (r & Hr & He);
    [constructor|].
  apply earliest_is_greatest in He. simpl in He.
  unfold GraalReport.activity_line. rewrite Htl. simpl. rewrite Hedges. simpl.
  rewrite Hr. simpl. destruct r as [[comment_url t]|].
  - destruct (Z.ltb_spec 30 (delta_days now t)) as [Hlt|Hge].
    + rewrite Hurl. simpl. rewrite Htitle. simpl.
      eexists _, _. split; [reflexivity|]. split; [exact He|].
      split; [reflexivity|]. split.
      * split; [reflexivity|lia].
      * split; [|discriminate]. intros _. right. eauto.
    + eexists _, _. split; [reflexivity|]. split; [exact He|].
      split; [reflexivity|]. split.
      * split; [lia|reflexivity].
      * split; [congruence|].
        intros [Hnone|(u' & t' & E & Hlt)].
        -- exfalso. eapply greatest_no_comment; eassumption.
        -- inversion E; subst. lia.
  - rewrite Hurl. simpl. rewrite Htitle. simpl.
    eexists _, _. split; [reflexivity|]. split; [exact He|].
    split; [reflexivity|]. split; [reflexivity|].
    split; [|discriminate]. intros _. now left.
Qed.

Lemma stale_node_discussed :
  exists r line,
    GraalReport.scan_timeline (B := Sample.builtins) Example.timeline None = Ok r /\
    greatest Example.classified r /\
    GraalReport.activity_line (B := Sample.builtins) Example.noon Example.discussed
    = Ok line /\
    verdict Example.noon (JStr "https://github.com/oracle/graal/issues/twelve")
      (JStr "twelve") r line /\
    (line <> None <->
     no_comment Example.classified \/
     exists comment_url t, r = Some (comment_url, t) /\ 30 < delta_days Example.noon t).
Proof.
  apply (stale_node_is_reported (B := Sample.builtins) Example.noon Example.discussed
           (JDict [("edges", JList Example.timeline)])
           (JStr "https://github.com/oracle/graal/issues/twelve") (JStr "twelve")
           Example.timeline Example.classified).
  - reflexivity.
  - reflexivity.
  - repeat constructor; solve_entry.
  - reflexivity.
  - reflexivity.
Defined.

(** The three cases on concrete nodes, at noon of 1 March 2024: no
    comment at all, a member's comment of 5 days ago, and one of 45 days
    ago. *)
Example staleness_no_comment :
  GraalReport.activity_line (B := Sample.builtins) Example.noon (issue 1 "quiet" 0 [])
  = Ok (Some (NoOracleComment (JStr "https://github.com/oracle/graal/issues/quiet")
                (JStr "quiet"))).
Proof. reflexivity. Qed.

Example staleness_fresh_comment :
  GraalReport.activity_line (B := Sample.builtins) Example.noon
    (issue 2 "fresh" 0 [comment "alice" true "comment-5" "2024-02-25T12:00:00Z"])
  = Ok None.
Proof. reflexivity. Qed.

Example staleness_stale_comment :
  GraalReport.activity_line (B := Sample.builtins) Example.noon
    (issue 3 "stale" 0 [comment "alice" true "comment-6" "2024-01-16T12:00:00Z"])
  = Ok (Some (StaleFor (JStr "https://github.com/oracle/graal/issues/stale") (JStr "stale")
                45 (JStr "comment-6"))).
Proof. reflexivity. Qed.

(** The loop over the nodes writes the lines of the nodes in the order
    of the items. *)
Lemma activity_loop_run {B : Builtins} (t : DateTime) (items : list (Key * Json))
    (lines : list (option Event)) :
  Forall2 (fun item line => GraalReport.activity_line t (snd item) = Ok line) items lines ->
  forall w,
  GraalReport.activity_loop t items w = (Ok tt, written w (List.concat (map printed lines))).
Proof.
  induction 1 as [|[k node] line items lines Hline _ IH]; intros w; simpl.
  - now rewrite written_nil.
  - simpl in Hline. unfold bind at 1, lift at 1. rewrite Hline.
    destruct line as [l|]; simpl.
    + unfold bind at 1, emit at 1. rewrite IH. unfold written. simpl.
      now rewrite <- app_assoc.
    + unfold bind at 1, ret at 1. apply IH.
Qed.

(** ** The yearly counts *)

Lemma cell_bump (table : GraalReport.YearTable) (y y' : Z) (label label' : string) :
  cell (bump table y label) y' label' =
  cell table y' label' + (if in_bucket y' label' (Some (y, label)) then 1 else 0).
Proof.
  unfold cell, bump, in_bucket.
  destruct (Z.eqb_spec y y') as [->|Hy]; simpl.
  - rewrite (dict_get_set_same Z.eqb Z.eqb_spec).
    destruct (String.eqb_spec label label') as [->|Hl].
    + rewrite (dict_get_set_same String.eqb String.eqb_spec).
      destruct (dict_get Z.eqb y' table) as [o|]; simpl; [|reflexivity].
      destruct (dict_get String.eqb label' o); reflexivity.
    + rewrite (dict_get_set_other String.eqb String.eqb_spec) by exact Hl.
      destruct (dict_get Z.eqb y' table) as [o|]; simpl; lia.
  - rewrite (dict_get_set_other Z.eqb Z.eqb_spec) by exact Hy. lia.
Qed.

Section Years.
Context {B : Builtins}.
Import GraalReport.

Lemma logins_returned (edges : list Json) (orgs : list string) :
  Forall2 (fun e o => exists n, subscript e "node" = Ok n /\
                                subscript n "login" = Ok (JStr o)) edges orgs ->
  logins edges = Ok (map JStr orgs).
Proof.
  induction 1 as [|e o edges orgs (n & Hn & Hl) _ IH]; simpl; [reflexivity|].
  rewrite Hn. simpl. rewrite Hl. simpl. rewrite IH. reflexivity.
Qed.

Lemma frozenset_strings (orgs : list string) :
  frozenset (map JStr orgs) = Ok (map KStr orgs).
Proof. induction orgs as [|o orgs IH]; simpl; [reflexivity|]. now rewrite IH. Qed.

Lemma oracle_in_strings (orgs : list string) :
  existsb (key_eqb (KStr "oracle")) (map KStr orgs) = existsb (String.eqb "oracle") orgs.
Proof. induction orgs as [|o orgs IH]; simpl; [reflexivity|]. now rewrite IH. Qed.

(** A node with an author goes to the year of [createdAt], under the
    label its author's listed organizations give. *)
Lemma count_node_authored (table : YearTable) (node author stamp : Json)
    (created_at : DateTime) (orgs : list string) :
  subscript node "author" = Ok author -> truthy author = true ->
  subscript node "createdAt" = Ok stamp ->
  parse_datetime stamp = Ok created_at ->
  returned_orgs author orgs ->
  count_node table node = Ok (bump table (year created_at) (affiliation orgs)).
Proof.
  intros Ha Ta Hs Hp (organizations & edges & Ho & He & Hl).
  unfold count_node. rewrite Ha. simpl. rewrite Ta, Hs. simpl. rewrite Hp. simpl.
  rewrite Ho. simpl. rewrite He. simpl. rewrite (logins_returned _ _ Hl). simpl.
  rewrite frozenset_strings. simpl. rewrite oracle_in_strings.
  unfold bump, affiliation. reflexivity.
Qed.


End Years.

Ltac solve_bucket :=
  simpl;
  first
    [ eexists; split; reflexivity
    | do 4 eexists;
      repeat (split; [reflexivity|]);
      split; [do 2 eexists; split; [reflexivity|]; split; [reflexivity|];
              repeat constructor; eexists; split; reflexivity
             |reflexivity] ].



(** C9.  Affiliation from the listed organizations.  The field selection
    of the yearly report asks for [organizations(first:5)], and the
    aggregator decides on the organizations the response lists and on
    nothing else: an author whose first five organizations do not
    include the organization of interest is counted under ["other"], and
    not under ["oracle"], whatever the author's further organizations. *)
Theorem affiliation_from_first_five {B : Builtins}
    (table : GraalReport.YearTable) (node author stamp : Json)
    (created_at : DateTime) (all_orgs : list string) :
  subscript node "author" = Ok author -> truthy author = true ->
  subscript node "createdAt" = Ok stamp ->
  GraalReport.parse_datetime stamp = Ok created_at ->
  returned_orgs author (firstn 5 all_orgs) ->
  ~ In "oracle" (firstn 5 all_orgs) ->
  (exists before after,
     GraalReport._node_info2 = before +:+ "organizations(first:5)" +:+ after) /\
  exists table',
    GraalReport.count_node table node = Ok table' /\
    cell table' (year created_at) "other" = cell table (year created_at) "other" + 1 /\
    forall y, cell table' y "oracle" = cell table y "oracle".
Proof.
  intros Ha Ta Hs Hp Ho Hnot. split.
  - exists (String.concat nl [EmptyString; "number"; "author {"; "  ... on User {";
                              "    login"; "    "]).
    exists (String.concat nl [" {"; "      edges {"; "        node {"; "          login";
                              "        }"; "      }"; "    }"; "  }"; "}"; "createdAt";
                              "closedAt"; EmptyString]).
    reflexivity.
  - assert (Hlabel : affiliation (firstn 5 all_orgs) = "other").
    { unfold affiliation.
      destruct (existsb (String.eqb "oracle") (firstn 5 all_orgs)) eqn:E; [|reflexivity].
      exfalso. apply Hnot. apply existsb_exists in E as (o & HIn & Heq).
      apply String.eqb_eq in Heq. now subst. }
    exists (bump table (year created_at) "other"). split.
    + rewrite <- Hlabel. eapply count_node_authored; eassumption.
    + split; [|intros y]; rewrite cell_bump; unfold in_bucket.
      * now rewrite Z.eqb_refl, String.eqb_refl.
      * simpl. rewrite andb_false_r. lia.
Qed.

Lemma affiliation_of_erin :
  (exists before after,
     GraalReport._node_info2 = before +:+ "organizations(first:5)" +:+ after) /\
  exists table',
    GraalReport.count_node (B := Sample.builtins) [] Example.by_erin = Ok table' /\
    cell table' 2023 "other" = cell [] 2023 "other" + 1 /\
    forall y, cell table' y "oracle" = cell [] y "oracle".
Proof.
  apply (affiliation_from_first_five (B := Sample.builtins) [] Example.by_erin
           (JDict [("login", JStr "erin");
                   ("organizations",
                    JDict [("edges",
                            JList (map (fun o => JDict [("node", JDict [("login", JStr o)])])
                                     (firstn 5 Example.six_orgs)))])])
           (JStr "2023-04-05T06:07:08Z") (mkDateTime 2023 4 5 6 7 8 0) Example.six_orgs).
  - reflexivity.
  - reflexivity.
  - reflexivity.
  - reflexivity.
  - do 2 eexists. split; [reflexivity|]. split; [reflexivity|].
    repeat constructor; eexists; split; reflexivity.
  - simpl. intros [H|[H|[H|[H|[H|[]]]]]]; discriminate.
Defined.

(** Erin is a member, by her sixth organization. *)
Example erin_is_a_member : In "oracle" Example.six_orgs.
Proof. simpl. tauto. Qed.

(** ** Failures the handler does not cover *)

(** A response whose ["data"] is [null] fails the lookup with a
    [TypeError], which the [except KeyError] of [graal_report.py] lets
    through: the response is not printed. *)
Example null_data_escapes_the_handler :
  let w := Example.world [mkResponse 200 (JDict [("data", JNull)])] in
  let out := GraalReport.get_nodes (B := Sample.builtins)
               "issue" GraalReport._node_info1 "OPEN" w in
  fst out = Raise TypeError /\
  console (snd out) = [Write "Getting issues"; Write "."].
Proof. split; reflexivity. Qed.

(** [unassigned_issues.py] has no handler: the [KeyError] of a missing
    field leaves [get_nodes] as it is. *)
Example unassigned_issues_lets_KeyError_through :
  let out := UnassignedIssues.get_nodes (B := Sample.builtins) "issue"
               (Example.world [Example.no_data]) in
  fst out = Raise (KeyError "data") /\
  console (snd out) = [Write "Getting issues"; Write "."].
Proof. split; reflexivity. Qed.

(** ** The loop bound is never met *)

(** [get_nodes] of either script returns or raises one of Python's
    exceptions: the bound it gives the loop is not what ends the loop. *)
Lemma graal_get_nodes_total {B : Builtins} (node_type node_info states : string) (w : World) :
  fst (GraalReport.get_nodes node_type node_info states w) <> Raise OutOfFuel.
Proof.
  unfold GraalReport.get_nodes.
  destruct (dict_mem String.eqb (node_type +:+ node_info) (_cached_results w)).
  - destruct (dict_get String.eqb node_type (_cached_results w)); discriminate.
  - unfold bind at 1. unfold emit at 1. unfold bind at 1. unfold pending at 1.
    cbv beta iota. unfold bind at 1.
    set (w0 := mkWorld _ _ _ _ _).
    pose proof (fetch_pages_fuel node_type node_info states
                  (S (List.length (transport w0))) JNull [] w0 (Nat.lt_succ_diag_r _)) as H.
    destruct (GraalReport.fetch_pages _ _ _ _ _ _ w0) as [[ns|e] w2]; simpl in *.
    + discriminate.
    + exact H.
Qed.

Lemma unassigned_get_nodes_total {B : Builtins} (node_type : string) (w : World) :
  fst (UnassignedIssues.get_nodes node_type w) <> Raise OutOfFuel.
Proof.
  unfold UnassignedIssues.get_nodes.
  unfold bind at 1. unfold emit at 1. unfold bind at 1. unfold pending at 1.
  cbv beta iota. unfold bind at 1.
  set (w0 := mkWorld _ _ _ _ _).
  pose proof (unassigned_fetch_pages_fuel node_type
                (S (List.length (transport w0))) JNull [] w0 (Nat.lt_succ_diag_r _)) as H.
  destruct (UnassignedIssues.fetch_pages _ _ _ _ w0) as [[ns|e] w2]; simpl in *.
  - discriminate.
  - exact H.
Qed.

(** * Further properties *)

(** ** One turn of the loops, spelled out *)

Lemma graal_fetch_pages_unfold {B : Builtins} (fuel : nat)
    (node_type node_info states : string) (cursor : Json) (d : NodeSet) (w : World) :
  GraalReport.fetch_pages (S fuel) node_type node_info states cursor d w =
  let q := GraalReport.get_open_nodes_query node_type node_info states cursor in
  match transport w with
  | [] => (Raise URLError, advance w [] [q] [Write "."])
  | r :: rest =>
      let w1 := advance w rest [q] [Write "."] in
      if status r =? 200 then
        match GraalReport.read_page node_type (body r) d with
        | Ok (d', None) => (Ok d', w1)
        | Ok (d', Some c) =>
            GraalReport.fetch_pages fuel node_type node_info states c d' w1
        | Raise (KeyError k) =>
            (Raise SystemExit, written w1 [PrintExc (KeyError k); PrintResult (body r)])
        | Raise e => (Raise e, w1)
        end
      else (Raise (status_error (status r) q), w1)
  end.
Proof.
  simpl. unfold GraalReport.run_query, status_error. run.
  destruct (transport w) as [|r rest]; [reflexivity|].
  destruct (Z.eqb_spec (status r) 200) as [Hs|Hs].
  - rewrite Hs. simpl. rewrite Hs. simpl.
    destruct (GraalReport.read_page node_type (body r) d) as [[d' [c|]]|e]; simpl;
      try reflexivity.
    destruct e; simpl; try reflexivity.
    unfold written. simpl. now rewrite <- !app_assoc.
  - destruct ((200 <=? status r) && (status r <? 300)); simpl; [|reflexivity].
    destruct (Z.eqb_spec (status r) 200); [contradiction|reflexivity].
Qed.

Lemma unassigned_fetch_pages_unfold {B : Builtins} (fuel : nat)
    (node_type : string) (cursor : Json) (d : NodeSet) (w : World) :
  UnassignedIssues.fetch_pages (S fuel) node_type cursor d w =
  let q := UnassignedIssues.get_open_nodes_query node_type cursor in
  match transport w with
  | [] => (Raise URLError, advance w [] [q] [Write "."])
  | r :: rest =>
      let w1 := advance w rest [q] [Write "."] in
      if status r =? 200 then
        match UnassignedIssues.read_page node_type (body r) d with
        | Ok (d', None) => (Ok d', w1)
        | Ok (d', Some c) => UnassignedIssues.fetch_pages fuel node_type c d' w1
        | Raise e => (Raise e, w1)
        end
      else (Raise (QueryFailed (status r) q), w1)
  end.
Proof.
  simpl. unfold UnassignedIssues.run_query. run.
  destruct (transport w) as [|r rest]; [reflexivity|].
  destruct (status r =? 200); simpl; [|reflexivity].
  destruct (UnassignedIssues.read_page node_type (body r) d) as [[d' [c|]]|e];
    reflexivity.
Qed.

(** [get_nodes] of [graal_report.py] on a miss, in terms of its loop. *)
Lemma graal_get_nodes_miss_unfold {B : Builtins}
    (node_type node_info states : string) (w : World) :
  dict_mem String.eqb (node_type +:+ node_info) (_cached_results w) = false ->
  GraalReport.get_nodes node_type node_info states w =
  match GraalReport.fetch_pages (S (List.length (transport w))) node_type node_info states
          JNull [] (written w [Write ("Getting " +:+ node_type +:+ "s")]) with
  | (Ok ns, w2) =>
      (Ok ns,
       mkWorld (transport w2) (requests w2)
         (dict_set String.eqb (node_type +:+ node_info) ns (_cached_results w2))
         (clock w2) (console w2 ++ [Write nl]))
  | (Raise e, w2) => (Raise e, w2)
  end.
Proof.
  intros Hmiss. unfold GraalReport.get_nodes. rewrite Hmiss.
  unfold bind at 1. unfold emit at 1. unfold bind at 1. unfold pending at 1.
  cbv beta iota. unfold bind at 1. unfold written.
  change (transport (mkWorld (transport w) (requests w) (_cached_results w) (clock w)
                       (console w ++ [Write ("Getting " +:+ node_type +:+ "s")])))
    with (transport w).
  destruct (GraalReport.fetch_pages _ _ _ _ _ _ _) as [[ns|e] w2]; [|reflexivity].
  unfold GraalReport.cache_store. run. reflexivity.
Qed.

Lemma unassigned_get_nodes_unfold {B : Builtins} (node_type : string) (w : World) :
  UnassignedIssues.get_nodes node_type w =
  match UnassignedIssues.fetch_pages (S (List.length (transport w))) node_type
          JNull [] (written w [Write ("Getting " +:+ node_type +:+ "s")]) with
  | (Ok ns, w2) => (Ok ns, written w2 [Write nl])
  | (Raise e, w2) => (Raise e, w2)
  end.
Proof.
  unfold UnassignedIssues.get_nodes.
  unfold bind at 1. unfold emit at 1. unfold bind at 1. unfold pending at 1.
  cbv beta iota. unfold bind at 1. unfold written.
  change (transport (mkWorld (transport w) (requests w) (_cached_results w) (clock w)
                       (console w ++ [Write ("Getting " +:+ node_type +:+ "s")])))
    with (transport w).
  destruct (UnassignedIssues.fetch_pages _ _ _ _ _) as [[ns|e] w2]; [|reflexivity].
  run. reflexivity.
Qed.

(** ** Every fetched NodeSet is keyed by number *)

Lemma Forall_dict_set {K V : Type} (eqb : K -> K -> bool) (P : K * V -> Prop)
    (k : K) (v : V) (d : Dict K V) :
  (forall k', eqb k k' = true -> P (k', v)) -> P (k, v) ->
  Forall P d -> Forall P (dict_set eqb k v d).
Proof.
  intros Hsame Hnew H. induction H as [|[k' v'] d Hx Hd IH]; simpl.
  - constructor; [exact Hnew|constructor].
  - destruct (eqb k k') eqn:E.
    + constructor; [apply Hsame, E|assumption].
    + constructor; assumption.
Qed.

Lemma well_filed_dict_set (d : NodeSet) (k : Key) (node : Json) :
  well_filed d -> number_of node = Ok k -> well_filed (dict_set key_eqb k node d).
Proof.
  intros [Hnd Hall] Hk. split.
  - apply (NoDup_keys_dict_set key_eqb key_eqb_spec), Hnd.
  - apply Forall_dict_set; [|exact Hk|exact Hall].
    intros k' E. destruct (key_eqb_spec k k'); [subst; exact Hk|discriminate].
Qed.

Section WellFiled.
Context {B : Builtins}.

Lemma graal_merge_edges_well_filed (edges : list Json) :
  forall d d', GraalReport.merge_edges edges d = Ok d' -> well_filed d -> well_filed d'.
Proof.
  induction edges as [|e edges IH]; intros d d' H Hd; simpl in H.
  - inversion H; subst. exact Hd.
  - destruct (subscript e "node") as [node|]; simpl in H; [|discriminate].
    destruct (subscript node "number") as [number|] eqn:En; simpl in H; [|discriminate].
    destruct (key_of number) as [k|] eqn:Ek; simpl in H; [|discriminate].
    apply (IH _ _ H). apply well_filed_dict_set; [exact Hd|].
    unfold number_of. rewrite En. simpl. exact Ek.
Qed.

Lemma unassigned_merge_edges_well_filed (edges : list Json) :
  forall d d', UnassignedIssues.merge_edges edges d = Ok d' -> well_filed d -> well_filed d'.
Proof.
  induction edges as [|e edges IH]; intros d d' H Hd; simpl in H.
  - inversion H; subst. exact Hd.
  - destruct (subscript e "node") as [node|]; simpl in H; [|discriminate].
    destruct (subscript node "number") as [number|] eqn:En; simpl in H; [|discriminate].
    destruct (key_of number) as [k|] eqn:Ek; simpl in H; [|discriminate].
    apply (IH _ _ H). apply well_filed_dict_set; [exact Hd|].
    unfold number_of. rewrite En. simpl. exact Ek.
Qed.

Ltac read_page_cases H :=
  repeat match type of H with
         | rbind ?r _ = Ok _ =>
             let E := fresh "E" in
             destruct r eqn:E; simpl in H; [|discriminate]
         end.

Lemma graal_read_page_well_filed (node_type : string) (result : Json)
    (d d' : NodeSet) (c : option Json) :
  GraalReport.read_page node_type result d = Ok (d', c) -> well_filed d -> well_filed d'.
Proof.
  unfold GraalReport.read_page. intros H Hd. read_page_cases H.
  match goal with
  | E : GraalReport.merge_edges _ _ = Ok ?x |- _ =>
      pose proof (graal_merge_edges_well_filed _ _ _ E Hd) as Hx
  end.
  destruct (negb (eq_True _)); [inversion H; subst; exact Hx|].
  read_page_cases H. inversion H; subst. exact Hx.
Qed.

Lemma unassigned_read_page_well_filed (node_type : string) (result : Json)
    (d d' : NodeSet) (c : option Json) :
  UnassignedIssues.read_page node_type result d = Ok (d', c) ->
  well_filed d -> well_filed d'.
Proof.
  unfold UnassignedIssues.read_page. intros H Hd. read_page_cases H.
  match goal with
  | E : UnassignedIssues.merge_edges _ _ = Ok ?x |- _ =>
      pose proof (unassigned_merge_edges_well_filed _ _ _ E Hd) as Hx
  end.
  destruct (negb (eq_True _)); [inversion H; subst; exact Hx|].
  read_page_cases H. inversion H; subst. exact Hx.
Qed.

Lemma graal_fetch_pages_well_filed (node_type node_info states : string) (fuel : nat) :
  forall cursor d w ns w',
  GraalReport.fetch_pages fuel node_type node_info states cursor d w = (Ok ns, w') ->
  well_filed d -> well_filed ns.
Proof.
  induction fuel as [|fuel IH]; intros cursor d w ns w' H Hd; [discriminate|].
  rewrite graal_fetch_pages_unfold in H. cbv zeta in H.
  destruct (transport w) as [|r rest]; [discriminate|].
  destruct (status r =? 200); [|discriminate].
  destruct (GraalReport.read_page node_type (body r) d) as [[d' [c|]]|e] eqn:E.
  - eapply IH; [exact H|]. eapply graal_read_page_well_filed; eassumption.
  - inversion H; subst. eapply graal_read_page_well_filed; eassumption.
  - destruct e; discriminate.
Qed.

Lemma unassigned_fetch_pages_well_filed (node_type : string) (fuel : nat) :
  forall cursor d w ns w',
  UnassignedIssues.fetch_pages fuel node_type cursor d w = (Ok ns, w') ->
  well_filed d -> well_filed ns.
Proof.
  induction fuel as [|fuel IH]; intros cursor d w ns w' H Hd; [discriminate|].
  rewrite unassigned_fetch_pages_unfold in H. cbv zeta in H.
  destruct (transport w) as [|r rest]; [discriminate|].
  destruct (status r =? 200); [|discriminate].
  destruct (UnassignedIssues.read_page node_type (body r) d) as [[d' [c|]]|e] eqn:E.
  - eapply IH; [exact H|]. eapply unassigned_read_page_well_filed; eassumption.
  - inversion H; subst. eapply unassigned_read_page_well_filed; eassumption.
  - discriminate.
Qed.
End WellFiled.

Lemma well_filed_nil : well_filed [].
Proof. split; constructor. Qed.

(** X1.  Whatever the transport answers, a NodeSet that [get_nodes] of
    either script returns has no number twice and holds every node under
    the node's own ["number"]; in [graal_report.py] this holds of a hit as
    well, the cached NodeSets having been fetched the same way. *)
Theorem fetched_nodes_are_well_filed {B : Builtins}
    (node_type node_info states : string) (w w' : World) (ns : NodeSet) :
  cache_well_filed w ->
  (GraalReport.get_nodes node_type node_info states w = (Ok ns, w') ->
   well_filed ns /\ cache_well_filed w') /\
  (UnassignedIssues.get_nodes node_type w = (Ok ns, w') -> well_filed ns).
Proof.
  intros Hcache. split; intros H.
  - destruct (dict_mem String.eqb (node_type +:+ node_info) (_cached_results w)) eqn:Hmem.
    + rewrite (graal_get_nodes_hit _ _ _ _ Hmem) in H.
      destruct (dict_get String.eqb node_type (_cached_results w)) as [cached|] eqn:Hget;
        inversion H; subst.
      split; [|exact Hcache].
      apply (dict_get_In String.eqb String.eqb_spec) in Hget.
      unfold cache_well_filed in Hcache. rewrite Forall_forall in Hcache.
      apply (Hcache _ Hget).
    + rewrite (graal_get_nodes_miss_unfold _ _ _ _ Hmem) in H.
      destruct (GraalReport.fetch_pages _ _ _ _ _ _ _) as [[fetched|e] w2] eqn:E;
        inversion H; subst.
      pose proof (graal_fetch_pages_well_filed _ _ _ _ _ _ _ _ _ E well_filed_nil) as Hns.
      split; [exact Hns|].
      unfold cache_well_filed. simpl.
      pose proof (graal_fetch_pages_cache node_type node_info states
                    (S (List.length (transport w))) JNull []
                    (written w [Write ("Getting " +:+ node_type +:+ "s")])) as Hc.
      rewrite E in Hc. simpl in Hc. rewrite Hc.
      apply Forall_dict_set; auto.
  - rewrite unassigned_get_nodes_unfold in H.
    destruct (UnassignedIssues.fetch_pages _ _ _ _ _) as [[fetched|e] w2] eqn:E;
      inversion H; subst.
    apply (unassigned_fetch_pages_well_filed _ _ _ _ _ _ _ E well_filed_nil).
Qed.

Lemma fetched_nodes_of_three_pages :
  let w := Example.three_pages in
  let g := GraalReport.get_nodes (B := Sample.builtins)
             "issue" GraalReport._node_info1 "OPEN" w in
  let u := UnassignedIssues.get_nodes (B := Sample.builtins) "issue" w in
  let ns := file_nodes (all_page_nodes [Example.page1; Example.page2; Example.page3]) [] in
  (well_filed ns /\ cache_well_filed (snd g)) /\ well_filed ns.
Proof.
  split.
  - apply (fetched_nodes_are_well_filed (B := Sample.builtins)
             "issue" GraalReport._node_info1 "OPEN" Example.three_pages
             (snd (GraalReport.get_nodes (B := Sample.builtins)
                     "issue" GraalReport._node_info1 "OPEN" Example.three_pages))).
    + constructor.
    + reflexivity.
  - apply (fetched_nodes_are_well_filed (B := Sample.builtins)
             "issue" GraalReport._node_info1 "OPEN" Example.three_pages
             (snd (UnassignedIssues.get_nodes (B := Sample.builtins)
                     "issue" Example.three_pages))).
    + constructor.
    + reflexivity.
Defined.

(** ** Queries, replies and dots *)

Lemma accounted_step (w w' : World) (out : Result NodeSet) (r : HttpResponse)
    (rest : list HttpResponse) (q : string) :
  transport w = r :: rest ->
  accounted (advance w rest [q] [Write "."]) w' out ->
  accounted w w' out.
Proof.
  intros Ht (queries & taken & events & Hq & Htr & Hc & Hdots & Hdry).
  simpl in Hq, Htr, Hc.
  exists (q :: queries), (r :: taken), (Write "." :: events).
  rewrite Hq, Hc, Ht, Htr, <- !app_assoc. simpl.
  repeat split; try reflexivity; [now rewrite Hdots|].
  destruct (ran_dry out); [destruct Hdry; split; [lia|assumption]|lia].
Qed.

Lemma accounted_once (w : World) (out : Result NodeSet) (r : HttpResponse)
    (rest : list HttpResponse) (q : string) (more : list Event) :
  transport w = r :: rest ->
  ran_dry out = false ->
  filter is_dot more = [] ->
  accounted w (written (advance w rest [q] [Write "."]) more) out.
Proof.
  intros Ht Hdry Hmore. exists [q], [r], (Write "." :: more). simpl.
  rewrite Ht, Hdry, Hmore, <- app_assoc. repeat split; reflexivity.
Qed.

Lemma accounted_dry (w : World) (q : string) :
  transport w = [] ->
  accounted w (advance w [] [q] [Write "."]) (Raise URLError).
Proof. intros Ht. exists [q], [], [Write "."]. simpl. rewrite Ht. repeat split. Qed.

Lemma advance_as_written (w : World) (rest : list HttpResponse) (q : string) :
  advance w rest [q] [Write "."] = written (advance w rest [q] [Write "."]) [].
Proof. unfold written, advance; simpl. now rewrite app_nil_r. Qed.

Section Accounting.
Context {B : Builtins}.

Lemma graal_fetch_pages_accounted (node_type node_info states : string) (fuel : nat) :
  forall cursor d w,
  (List.length (transport w) < fuel)%nat ->
  accounted w (snd (GraalReport.fetch_pages fuel node_type node_info states cursor d w))
    (fst (GraalReport.fetch_pages fuel node_type node_info states cursor d w)).
Proof.
  induction fuel as [|fuel IH]; intros cursor d w Hlt; [lia|].
  rewrite graal_fetch_pages_unfold. cbv zeta.
  destruct (transport w) as [|r rest] eqn:Ht; [apply accounted_dry, Ht|].
  destruct (status r =? 200).
  - destruct (GraalReport.read_page node_type (body r) d) as [[d' [c|]]|e] eqn:E.
    + eapply accounted_step; [exact Ht|]. apply IH. simpl in *. lia.
    + simpl. rewrite advance_as_written. apply accounted_once with (r := r); auto.
    + destruct (graal_read_page_Raise _ _ _ _ E) as [[k ->]| ->]; simpl.
      * apply accounted_once with (r := r); auto.
      * rewrite advance_as_written. apply accounted_once with (r := r); auto.
  - simpl. rewrite advance_as_written. apply accounted_once with (r := r); auto.
    unfold status_error. destruct ((200 <=? status r) && (status r <? 300)); reflexivity.
Qed.

Lemma unassigned_fetch_pages_accounted (node_type : string) (fuel : nat) :
  forall cursor d w,
  (List.length (transport w) < fuel)%nat ->
  accounted w (snd (UnassignedIssues.fetch_pages fuel node_type cursor d w))
    (fst (UnassignedIssues.fetch_pages fuel node_type cursor d w)).
Proof.
  induction fuel as [|fuel IH]; intros cursor d w Hlt; [lia|].
  rewrite unassigned_fetch_pages_unfold. cbv zeta.
  destruct (transport w) as [|r rest] eqn:Ht; [apply accounted_dry, Ht|].
  destruct (status r =? 200).
  - destruct (UnassignedIssues.read_page node_type (body r) d) as [[d' [c|]]|e] eqn:E.
    + eapply accounted_step; [exact Ht|]. apply IH. simpl in *. lia.
    + simpl. rewrite advance_as_written. apply accounted_once with (r := r); auto.
    + simpl. rewrite advance_as_written. apply accounted_once with (r := r); auto.
      destruct (unassigned_read_page_Raise _ _ _ _ E) as [[k ->]| ->]; reflexivity.
  - simpl. rewrite advance_as_written. apply accounted_once with (r := r); auto.
Qed.
End Accounting.

(** The writes around the loop are no dots and touch neither the
    requests nor the transport. *)
Lemma accounted_framed (w w2 : World) (out : Result NodeSet) (head : Event)
    (tail : list Event) (w' : World) :
  accounted (written w [head]) w2 out ->
  is_dot head = false -> filter is_dot tail = [] ->
  transport w' = transport w2 -> requests w' = requests w2 ->
  console w' = console w2 ++ tail ->
  accounted w w' out.
Proof.
  intros (queries & taken & events & Hq & Htr & Hc & Hdots & Hdry) Hhead Htail Ht' Hq' Hc'.
  simpl in Hq, Htr, Hc.
  exists queries, taken, (head :: events ++ tail).
  rewrite Ht', Hq', Hc', Hc, <- !app_assoc. simpl.
  rewrite Hhead, filter_app, Htail, app_nil_r.
  repeat split; assumption.
Qed.

(** X2.  However a fetch of either script ends, its queries and the
    replies it took go one to one and in order, a dot was written for
    each query, and no reply was taken that was not asked for; only when
    the transport has nothing left is there one query more than replies.
    A hit of the cache of [graal_report.py] sends, takes and writes
    nothing: it leaves the world as it is. *)
Theorem fetch_takes_one_reply_per_query {B : Builtins}
    (node_type node_info states : string) (w : World) :
  accounted w (snd (GraalReport.get_nodes node_type node_info states w))
    (fst (GraalReport.get_nodes node_type node_info states w)) /\
  accounted w (snd (UnassignedIssues.get_nodes node_type w))
    (fst (UnassignedIssues.get_nodes node_type w)) /\
  (dict_mem String.eqb (node_type +:+ node_info) (_cached_results w) = true ->
   snd (GraalReport.get_nodes node_type node_info states w) = w).
Proof.
  split; [|split];
    [| |intros Hmem; rewrite (graal_get_nodes_hit _ _ _ _ Hmem); reflexivity].
  - destruct (dict_mem String.eqb (node_type +:+ node_info) (_cached_results w)) eqn:Hmem.
    + rewrite (graal_get_nodes_hit _ _ _ _ Hmem). simpl.
      exists [], [], []. rewrite !app_nil_r. simpl.
      destruct (dict_get String.eqb node_type (_cached_results w)); repeat split.
    + rewrite (graal_get_nodes_miss_unfold _ _ _ _ Hmem).
      pose proof (graal_fetch_pages_accounted node_type node_info states
                    (S (List.length (transport w))) JNull []
                    (written w [Write ("Getting " +:+ node_type +:+ "s")])
                    (Nat.lt_succ_diag_r _)) as H.
      destruct (GraalReport.fetch_pages _ _ _ _ _ _ _) as [[ns|e] w2]; simpl in *.
      * eapply accounted_framed with (tail := [Write nl]); try exact H; reflexivity.
      * eapply accounted_framed with (tail := []); try exact H; try reflexivity.
        now rewrite app_nil_r.
  - rewrite unassigned_get_nodes_unfold.
    pose proof (unassigned_fetch_pages_accounted node_type
                  (S (List.length (transport w))) JNull []
                  (written w [Write ("Getting " +:+ node_type +:+ "s")])
                  (Nat.lt_succ_diag_r _)) as H.
    destruct (UnassignedIssues.fetch_pages _ _ _ _ _) as [[ns|e] w2]; simpl in *.
    + eapply accounted_framed with (tail := [Write nl]); try exact H; reflexivity.
    + eapply accounted_framed with (tail := []); try exact H; try reflexivity.
      now rewrite app_nil_r.
Qed.

(** ** The exceptions of a fetch *)

Section FetchErrors.
Context {B : Builtins}.


End FetchErrors.


(** ** What the cache keeps *)

Lemma unassigned_fetch_pages_cache {B : Builtins} (node_type : string) (fuel : nat) :
  forall cursor d w,
  _cached_results (snd (UnassignedIssues.fetch_pages fuel node_type cursor d w))
  = _cached_results w.
Proof.
  induction fuel as [|fuel IH]; intros cursor d w; [reflexivity|].
  rewrite unassigned_fetch_pages_unfold. cbv zeta.
  destruct (transport w) as [|r rest]; [reflexivity|].
  destruct (status r =? 200); [|reflexivity].
  destruct (UnassignedIssues.read_page node_type (body r) d) as [[d' [c|]]|e];
    try reflexivity.
  rewrite IH. reflexivity.
Qed.

(** X4.  The cache of [graal_report.py] only grows: whatever a call of
    [get_nodes] does, every entry that was in [_cached_results] is still
    there with the same NodeSet; a miss that returns has stored what it
    returns under [node_type + node_info], and a call that raises has
    stored nothing.  [get_nodes] of [unassigned_issues.py] has no cache
    to touch. *)
Theorem cache_only_grows {B : Builtins} (node_type node_info states : string) (w : World) :
  let out := GraalReport.get_nodes node_type node_info states w in
  (forall k ns,
     dict_get String.eqb k (_cached_results w) = Some ns ->
     dict_get String.eqb k (_cached_results (snd out)) = Some ns) /\
  match fst out with
  | Ok ns =>
      dict_mem String.eqb (node_type +:+ node_info) (_cached_results w) = false ->
      dict_get String.eqb (node_type +:+ node_info) (_cached_results (snd out)) = Some ns
  | Raise _ => _cached_results (snd out) = _cached_results w
  end /\
  _cached_results (snd (UnassignedIssues.get_nodes node_type w)) = _cached_results w.
Proof.
  cbv zeta. split; [|split].
  - intros k ns Hk.
    destruct (dict_mem String.eqb (node_type +:+ node_info) (_cached_results w)) eqn:Hmem.
    + rewrite (graal_get_nodes_hit _ _ _ _ Hmem). exact Hk.
    + destruct (GraalReport.get_nodes node_type node_info states w) as [out w'] eqn:E.
      simpl. rewrite (graal_get_nodes_miss_cache _ _ _ _ _ _ Hmem E).
      destruct out as [fetched|e]; [|exact Hk]. simpl.
      rewrite (dict_get_set_other String.eqb String.eqb_spec); [exact Hk|].
      intros <-. unfold dict_mem in Hmem. now rewrite Hk in Hmem.
  - destruct (dict_mem String.eqb (node_type +:+ node_info) (_cached_results w)) eqn:Hmem.
    + rewrite (graal_get_nodes_hit _ _ _ _ Hmem). simpl.
      destruct (dict_get String.eqb node_type (_cached_results w)); [discriminate|reflexivity].
    + destruct (GraalReport.get_nodes node_type node_info states w) as [out w'] eqn:E.
      pose proof (graal_get_nodes_miss_cache _ _ _ _ _ _ Hmem E) as Hc. simpl.
      destruct out as [fetched|e]; [|exact Hc].
      intros _. rewrite Hc. apply (dict_get_set_same String.eqb String.eqb_spec).
  - rewrite unassigned_get_nodes_unfold.
    pose proof (unassigned_fetch_pages_cache node_type (S (List.length (transport w)))
                  JNull [] (written w [Write ("Getting " +:+ node_type +:+ "s")])) as Hc.
    destruct (UnassignedIssues.fetch_pages _ _ _ _ _) as [[ns|e] w2]; exact Hc.
Qed.

(** ** The run of [graal_report.py] *)

Section GraalMain.
Context {B : Builtins}.
Import GraalReport.

Lemma activity_loop_cache (t : DateTime) (items : list (Key * Json)) :
  forall w, _cached_results (snd (activity_loop t items w)) = _cached_results w.
Proof.
  induction items as [|[k node] items IH]; intros w; [reflexivity|].
  simpl. unfold bind at 1, lift at 1.
  destruct (activity_line t node) as [[l|]|e]; [| |reflexivity].
  - unfold bind at 1, emit at 1. rewrite IH. reflexivity.
  - unfold bind at 1, ret at 1. apply IH.
Qed.

(** An activity report that was written fetched its nodes, and left the
    cache as the fetch left it. *)
Lemma activity_report_cache (node_type : string) (w : World) :
  match show_no_recent_activity_nodes node_type w with
  | (Ok _, w') =>
      exists nodes w1,
        get_nodes node_type _node_info1 "OPEN" w = (Ok nodes, w1) /\
        _cached_results w' = _cached_results w1
  | (Raise _, _) => True
  end.
Proof.
  unfold show_no_recent_activity_nodes. unfold bind at 1.
  destruct (get_nodes node_type _node_info1 "OPEN" w) as [[nodes|e] w1]; [|exact I].
  unfold bind at 1, now at 1. unfold bind at 1, emit at 1. unfold bind at 1, emit at 1.
  unfold bind at 1, emit at 1. unfold bind at 1, lift at 1.
  destruct (sorted_items true nodes) as [items|e]; [|exact I].
  unfold bind at 1.
  match goal with
  | |- context [activity_loop ?t items ?w0] =>
      pose proof (activity_loop_cache t items w0) as Hc;
      destruct (activity_loop t items w0) as [[u|e] w3]
  end; [|exact I].
  unfold emit. simpl. exists nodes, w1. split; [reflexivity|exact Hc].
Qed.
End GraalMain.

(** X5.  Started with an empty cache, as the script starts, the run of
    [graal_report.py] never gets through its six reports, whatever the
    transport answers: it ends with the exception of one of the two
    activity reports, or, when both are written, with the [KeyError] of
    the unassigned report of pull requests, which asks [get_nodes] for a
    key that is cached and fails on the lookup under the bare node kind,
    in the world the second report left. *)
Theorem graal_main_never_completes {B : Builtins}
    (replies : list HttpResponse) (sent : list string) (t : DateTime) (out : list Event) :
  fst (GraalReport.main (mkWorld replies sent [] t out)) <> Ok tt /\
  match GraalReport.show_no_recent_activity_nodes "issue" (mkWorld replies sent [] t out) with
  | (Raise e, w1) => GraalReport.main (mkWorld replies sent [] t out) = (Raise e, w1)
  | (Ok _, w1) =>
      match GraalReport.show_no_recent_activity_nodes "pullRequest" w1 with
      | (Raise e, w2) => GraalReport.main (mkWorld replies sent [] t out) = (Raise e, w2)
      | (Ok _, w2) =>
          GraalReport.main (mkWorld replies sent [] t out)
          = (Raise (KeyError "pullRequest"), w2)
      end
  end.
Proof.
  set (w := mkWorld replies sent [] t out).
  remember (GraalReport.main w) as m eqn:Hm.
  unfold GraalReport.main in Hm. unfold bind at 1 in Hm.
  pose proof (activity_report_cache "issue" w) as H1.
  destruct (GraalReport.show_no_recent_activity_nodes "issue" w) as [[u1|e1] w1];
    [|subst m; split; [discriminate|reflexivity]].
  destruct H1 as (ns1 & v1 & Hg1 & Hc1).
  pose proof (graal_get_nodes_miss_cache "issue" GraalReport._node_info1 "OPEN"
                w v1 (Ok ns1) eq_refl Hg1) as Hv1.
  simpl in Hv1. rewrite <- Hc1 in Hv1.
  unfold bind at 1 in Hm.
  pose proof (activity_report_cache "pullRequest" w1) as H2.
  destruct (GraalReport.show_no_recent_activity_nodes "pullRequest" w1) as [[u2|e2] w2];
    [|subst m; split; [discriminate|reflexivity]].
  destruct H2 as (ns2 & v2 & Hg2 & Hc2).
  assert (Hmiss : dict_mem String.eqb ("pullRequest" +:+ GraalReport._node_info1)
                    (_cached_results w1) = false) by (rewrite Hv1; reflexivity).
  pose proof (graal_get_nodes_miss_cache "pullRequest" GraalReport._node_info1 "OPEN"
                w1 v2 (Ok ns2) Hmiss Hg2) as Hv2.
  simpl in Hv2. rewrite <- Hc2, Hv1 in Hv2.
  unfold bind at 1 in Hm. unfold GraalReport.show_unassigned_nodes at 1 in Hm.
  unfold bind at 1 in Hm.
  rewrite graal_get_nodes_hit in Hm by (rewrite Hv2; reflexivity).
  rewrite Hv2 in Hm. simpl in Hm. subst m. split; [discriminate|reflexivity].
Qed.

(** ** [parse_datetime] *)

Lemma endswith_Z_snoc (s : string) : GraalReport.endswith_Z (s +:+ "Z") = true.
Proof.
  induction s as [|c s IH]; [reflexivity|].
  simpl. destruct s; simpl in *; exact IH.
Qed.

Lemma drop_last_snoc (s : string) (c : ascii) :
  GraalReport.drop_last (s +:+ String c EmptyString) = s.
Proof.
  induction s as [|a s IH]; [reflexivity|].
  simpl. destruct s; simpl in *; [reflexivity|]. now rewrite IH.
Qed.

Lemma endswith_Z_inv (s : string) :
  GraalReport.endswith_Z s = true -> exists p, s = p +:+ "Z".
Proof.
  induction s as [|c s IH]; [discriminate|].
  simpl. destruct s as [|c' s].
  - intros H. apply Ascii.eqb_eq in H. subst. exists EmptyString. reflexivity.
  - intros H. destruct (IH H) as [p Hp]. exists (String c p). simpl. now rewrite Hp.
Qed.

(** X6.  [parse_datetime] hands [fromisoformat] the text without its
    final [Z] when there is one, taking off one [Z] and no more, and the
    text as it is otherwise; a value that is not a string raises
    [AttributeError] before anything is parsed. *)
Theorem parse_datetime_drops_one_Z {B : Builtins} :
  let parsed (s : string) : Result DateTime :=
    match fromisoformat s with
    | Some t => Ok t
    | None => Raise ValueError
    end in
  (forall p, GraalReport.parse_datetime (JStr (p +:+ "Z")) = parsed p) /\
  (forall s, (forall p, s <> p +:+ "Z") -> GraalReport.parse_datetime (JStr s) = parsed s) /\
  (forall v, (forall s, v <> JStr s) -> GraalReport.parse_datetime v = Raise AttributeError).
Proof.
  cbv zeta. split; [|split].
  - intros p. unfold GraalReport.parse_datetime.
    now rewrite endswith_Z_snoc, drop_last_snoc.
  - intros s Hs. unfold GraalReport.parse_datetime.
    destruct (GraalReport.endswith_Z s) eqn:E; [|reflexivity].
    destruct (endswith_Z_inv s E) as [p Hp]. exfalso. exact (Hs p Hp).
  - intros v Hv. destruct v; try reflexivity. exfalso. exact (Hv s eq_refl).
Qed.

(** ** A cursor that is no cursor *)

Lemma graal_query_falsy_cursor {B : Builtins} (node_type node_info states : string)
    (cursor : Json) :
  truthy cursor = false ->
  GraalReport.get_open_nodes_query node_type node_info states cursor =
  GraalReport.get_open_nodes_query node_type node_info states JNull.
Proof. intros H. unfold GraalReport.get_open_nodes_query. now rewrite H. Qed.

Lemma graal_page_queries_falsy {B : Builtins} (node_type node_info states : string)
    (pages : list Page) :
  Forall (fun p => truthy (endCursor p) = false) pages ->
  forall cursor, truthy cursor = false ->
  page_queries (GraalReport.get_open_nodes_query node_type node_info states) cursor pages =
  repeat (GraalReport.get_open_nodes_query node_type node_info states JNull)
    (List.length pages).
Proof.
  induction 1 as [|p pages Hp _ IH]; intros cursor Hc; simpl; [reflexivity|].
  rewrite (graal_query_falsy_cursor _ _ _ _ Hc), (IH _ Hp). reflexivity.
Qed.

Lemma cursor_after_falsy (pages : list Page) :
  Forall (fun p => truthy (endCursor p) = false) pages ->
  forall cursor, truthy cursor = false -> truthy (cursor_after cursor pages) = false.
Proof.
  unfold cursor_after. induction 1 as [|p pages Hp _ IH]; intros cursor Hc; simpl; auto.
Qed.

(** X7.  [graal_report.py] takes an [endCursor] that is [None], empty or
    zero for no cursor at all: when the pages announce a next page but
    carry such a cursor, every query of the walk is the query of the
    first page, so the same first page is asked for again and again. *)
Theorem empty_cursor_asks_first_page_again {B : Builtins}
    (node_type node_info states : string) (pages : list Page) (last : Page)
    (rs rest : list HttpResponse) (r : HttpResponse) (w : World) :
  dict_mem String.eqb (node_type +:+ node_info) (_cached_results w) = false ->
  transport w = rs ++ r :: rest ->
  Forall2 (serves node_type) rs pages ->
  serves node_type r last ->
  Forall (fun p => Forall numbered (page_nodes p)) (pages ++ [last]) ->
  Forall (fun p => eq_True (hasNextPage p) = true) pages ->
  eq_True (hasNextPage last) = false ->
  Forall (fun p => truthy (endCursor p) = false) pages ->
  requests (snd (GraalReport.get_nodes node_type node_info states w)) =
  requests w ++ repeat (GraalReport.get_open_nodes_query node_type node_info states JNull)
                  (S (List.length pages)).
Proof.
  intros Hmiss Ht Hs Hr Hn Hc Hstop Hfalsy.
  rewrite (graal_get_nodes_miss node_type node_info states pages last rs rest r w
             Hmiss Ht Hs Hr Hn Hc Hstop).
  simpl. f_equal.
  rewrite page_queries_snoc, (graal_page_queries_falsy _ _ _ _ Hfalsy JNull eq_refl).
  rewrite (graal_query_falsy_cursor _ _ _ (cursor_after JNull pages)).
  - simpl. symmetry. apply repeat_cons.
  - apply cursor_after_falsy; [exact Hfalsy|reflexivity].
Qed.

Lemma empty_cursor_asks_thrice :
  requests (snd (GraalReport.get_nodes (B := Sample.builtins)
                   "issue" GraalReport._node_info1 "OPEN" Example.stuck_twice)) =
  requests Example.stuck_twice
  ++ repeat (GraalReport.get_open_nodes_query (B := Sample.builtins)
               "issue" GraalReport._node_info1 "OPEN" JNull) 3.
Proof.
  apply (empty_cursor_asks_first_page_again (B := Sample.builtins)
           "issue" GraalReport._node_info1 "OPEN"
           [Example.stuck; Example.stuck] Example.page3
           [ok_reply "issue" Example.stuck; ok_reply "issue" Example.stuck] []
           (ok_reply "issue" Example.page3) Example.stuck_twice).
  - reflexivity.
  - reflexivity.
  - repeat constructor; apply page_json_is_page.
  - apply ok_reply_serves.
  - repeat constructor; eexists; reflexivity.
  - repeat constructor.
  - reflexivity.
  - repeat constructor.
Defined.

(** ** The activity report as a whole *)

Lemma lines_exist {A L : Type} (f : A -> Result L) (items : list A) :
  Forall (fun item => exists line, f item = Ok line) items ->
  exists lines, Forall2 (fun item line => f item = Ok line) items lines.
Proof.
  induction 1 as [|item items [line Hline] _ [lines IH]].
  - exists []. constructor.
  - exists (line :: lines). constructor; assumption.
Qed.

(** X8.  The activity report of [graal_report.py], put together: after
    the fetch it writes its three heading lines, then the nodes' lines by
    descending number, every node having its turn once and a node within
    the threshold having no line, then an empty line; nothing else is
    written, sent or cached. *)
Theorem activity_report_is_written {B : Builtins} (node_type : string)
    (nodes : NodeSet) (w w1 : World) :
  GraalReport.get_nodes node_type GraalReport._node_info1 "OPEN" w = (Ok nodes, w1) ->
  NoDup (keys nodes) ->
  comparable (keys nodes) ->
  Forall (fun item => exists line,
            GraalReport.activity_line (clock w1) (snd item) = Ok line) nodes ->
  exists items lines,
    Permutation nodes items /\
    Sorted (ahead true) (keys items) /\
    Forall2 (fun item line => GraalReport.activity_line (clock w1) (snd item) = Ok line)
      items lines /\
    GraalReport.show_no_recent_activity_nodes node_type w =
    (Ok tt,
     written w1
       ([Write rule;
         Write ("Open " +:+ node_type
                +:+ "s that have not been commented on by an Oracle employee for more than 30 days");
         Write rule]
        ++ List.concat (map printed lines) ++ [Write EmptyString])).
Proof.
  intros Hget Hnd Hcmp Hall.
  destruct (sorted_items_total true nodes Hcmp) as [items Hsort].
  pose proof (sort_with_perm _ _ _ Hsort) as Hperm.
  assert (Hitems : Forall (fun item => exists line,
                             GraalReport.activity_line (clock w1) (snd item) = Ok line)
                     items).
  { rewrite Forall_forall in *. intros item HIn. apply Hall.
    apply Permutation_in with (l := items); [now apply Permutation_sym|exact HIn]. }
  destruct (lines_exist (fun item => GraalReport.activity_line (clock w1) (snd item))
              items Hitems) as [lines Hlines].
  exists items, lines. split; [exact Hperm|]. split.
  { apply Sorted_keys. eapply sorted_items_sorted; eassumption. }
  split; [exact Hlines|].
  unfold GraalReport.show_no_recent_activity_nodes. unfold bind at 1. rewrite Hget.
  unfold bind at 1, now at 1. unfold bind at 1, emit at 1. unfold bind at 1, emit at 1.
  unfold bind at 1, emit at 1. unfold bind at 1, lift at 1. rewrite Hsort.
  unfold bind at 1. cbv beta iota. simpl clock.
  rewrite (activity_loop_run (clock w1) items lines Hlines).
  unfold emit, written. simpl. now rewrite <- !app_assoc.
Qed.

Lemma activity_report_of_active :
  let w := Example.active in
  let g := GraalReport.get_nodes (B := Sample.builtins)
             "issue" GraalReport._node_info1 "OPEN" w in
  let nodes := file_nodes (page_nodes Example.activity) [] in
  exists items lines,
    Permutation nodes items /\
    Sorted (ahead true) (keys items) /\
    Forall2 (fun item line =>
               GraalReport.activity_line (B := Sample.builtins) (clock (snd g)) (snd item)
               = Ok line) items lines /\
    GraalReport.show_no_recent_activity_nodes (B := Sample.builtins) "issue" w =
    (Ok tt,
     written (snd g)
       ([Write rule;
         Write ("Open " +:+ "issue"
                +:+ "s that have not been commented on by an Oracle employee for more than 30 days");
         Write rule]
        ++ List.concat (map printed lines) ++ [Write EmptyString])).
Proof.
  apply (activity_report_is_written (B := Sample.builtins) "issue"
           (file_nodes (page_nodes Example.activity) []) Example.active).
  - reflexivity.
  - apply NoDup_file_nodes. constructor.
  - apply comparable_numbers. repeat constructor; eexists; reflexivity.
  - repeat constructor; eexists; reflexivity.
Defined.

(** What is written for the three issues: 14 has no comment, 13 is within
    the threshold and has no line, 12 is 41 days old. *)
Example activity_report_lines :
  console (snd (GraalReport.show_no_recent_activity_nodes (B := Sample.builtins)
                  "issue" Example.active)) =
  [Write "Getting issues"; Write "."; Write nl; Write rule;
   Write "Open issues that have not been commented on by an Oracle employee for more than 30 days";
   Write rule;
   NoOracleComment (JStr "https://github.com/oracle/graal/issues/fourteen") (JStr "fourteen");
   StaleFor (JStr "https://github.com/oracle/graal/issues/twelve") (JStr "twelve") 41
     (JStr "comment-3");
   Write EmptyString].
Proof. reflexivity. Qed.

(** ** A comment whose author has no [organization] *)

Section BadAuthor.
Context {B : Builtins}.
Import GraalReport.

Lemma scan_timeline_app (a b : list Json) :
  forall last,
  scan_timeline (a ++ b) last =
  (l <- scan_timeline a last ;; scan_timeline b l)%result.
Proof.
  induction a as [|e a IH]; intros last; simpl; [reflexivity|].
  destruct (scan_edge last e) as [l|]; simpl; [apply IH|reflexivity].
Qed.

Lemma scan_edge_no_organization (last : option (Json * DateTime)) (edge item author : Json) :
  subscript edge "node" = Ok item -> truthy item = true ->
  subscript item "author" = Ok author -> truthy author = true ->
  subscript author "organization" = Raise (KeyError "organization") ->
  scan_edge last edge = Raise (KeyError "organization").
Proof.
  intros Hi Ti Ha Ta Ho. unfold scan_edge.
  rewrite Hi. simpl. rewrite Ti, Ha. simpl. rewrite Ta, Ho. reflexivity.
Qed.

Lemma activity_loop_app (t : DateTime) (a b : list (Key * Json)) :
  forall w,
  activity_loop t (a ++ b) w =
  match activity_loop t a w with
  | (Ok _, w') => activity_loop t b w'
  | (Raise e, w') => (Raise e, w')
  end.
Proof.
  induction a as [|[k node] a IH]; intros w; simpl; [reflexivity|].
  unfold bind, lift.
  destruct (activity_line t node) as [[l|]|e]; [| |reflexivity].
  - unfold emit. apply IH.
  - unfold ret. apply IH.
Qed.
End BadAuthor.

(** C5.  The scan and a comment whose author is not a user.  The scan
    looks ["organization"] up in the author of every comment.  Over the
    entries ahead of the first comment whose author has no such field it
    considers the qualifying comments only and retains one of greatest
    update time.  That comment is not a member's and is to be passed
    over; the lookup raises [KeyError] instead, and the scan of the whole
    timeline ends in that exception, whatever was retained and whatever
    comes after. *)
Theorem scan_raises_on_non_user_comment {B : Builtins}
    (edges rest : list Json) (cs : list (option (Json * DateTime))) (bad : Json) :
  Forall2 entry edges cs ->
  non_user_comment bad ->
  (exists r, GraalReport.scan_timeline edges None = Ok r /\ greatest cs r) /\
  GraalReport.scan_timeline (edges ++ bad :: rest) None = Raise (KeyError "organization").
Proof.
  intros Hcs (item & author & Hi & Ti & Ha & Ta & Ho).
  destruct (scan_timeline_earliest edges cs Hcs [] None) as (r & Hr & He);
    [constructor|].
  split.
  - exists r. split; [exact Hr|]. apply earliest_is_greatest, He.
  - rewrite scan_timeline_app, Hr. simpl.
    now rewrite (scan_edge_no_organization r bad item author Hi Ti Ha Ta Ho).
Qed.

Lemma scan_raises_on_bot_comment :
  (exists r,
     GraalReport.scan_timeline (B := Sample.builtins) Example.timeline None = Ok r /\
     greatest Example.classified r) /\
  GraalReport.scan_timeline (B := Sample.builtins)
    (Example.timeline ++ Example.by_a_bot
       :: [comment "erin" true "comment-10" "2024-02-28T00:00:00Z"]) None
  = Raise (KeyError "organization").
Proof.
  apply (scan_raises_on_non_user_comment (B := Sample.builtins) Example.timeline
           [comment "erin" true "comment-10" "2024-02-28T00:00:00Z"]
           Example.classified Example.by_a_bot).
  - repeat constructor; solve_entry.
  - do 2 eexists. repeat split; reflexivity.
Defined.

(** C6.  The line of a node with a comment whose author is not a user.
    Such a node gets neither verdict: the scan of its timeline raises
    [KeyError] before the node's line is decided, so the node is not
    reported, be it without any qualifying comment or with a retained
    comment of more than 30 days, and it is not passed over either: the
    report ends in that exception, with the lines of the nodes ahead of
    it written and no line of a node after it. *)
Theorem non_user_comment_stops_activity_report {B : Builtins} (node_type : string)
    (nodes : NodeSet) (w w1 : World) (before after : list (Key * Json))
    (lines : list (option Event)) (k : Key) (node timeline bad : Json)
    (edges rest : list Json) (cs : list (option (Json * DateTime))) :
  GraalReport.get_nodes node_type GraalReport._node_info1 "OPEN" w = (Ok nodes, w1) ->
  sorted_items true nodes = Ok (before ++ (k, node) :: after) ->
  Forall2 (fun item line => GraalReport.activity_line (clock w1) (snd item) = Ok line)
    before lines ->
  subscript node "timelineItems" = Ok timeline ->
  subscript timeline "edges" = Ok (JList (edges ++ bad :: rest)) ->
  Forall2 entry edges cs ->
  non_user_comment bad ->
  GraalReport.activity_line (clock w1) node = Raise (KeyError "organization") /\
  GraalReport.show_no_recent_activity_nodes node_type w =
  (Raise (KeyError "organization"),
   written w1
     ([Write rule;
       Write ("Open " +:+ node_type
              +:+ "s that have not been commented on by an Oracle employee for more than 30 days");
       Write rule]
      ++ List.concat (map printed lines))).
Proof.
  intros Hget Hsort Hbefore Htl Hedges Hcs (item & author & Hi & Ti & Ha & Ta & Ho).
  assert (Hline : GraalReport.activity_line (clock w1) node
                  = Raise (KeyError "organization")).
  { unfold GraalReport.activity_line. rewrite Htl. simpl. rewrite Hedges. simpl.
    rewrite scan_timeline_app.
    destruct (scan_timeline_earliest edges cs Hcs [] None) as (r & Hr & _);
      [constructor|].
    rewrite Hr. simpl.
    now rewrite (scan_edge_no_organization r bad item author Hi Ti Ha Ta Ho). }
  split; [exact Hline|].
  unfold GraalReport.show_no_recent_activity_nodes. unfold bind at 1. rewrite Hget.
  unfold bind at 1, now at 1. unfold bind at 1, emit at 1. unfold bind at 1, emit at 1.
  unfold bind at 1, emit at 1. unfold bind at 1, lift at 1. rewrite Hsort.
  unfold bind at 1. cbv beta iota. simpl clock.
  rewrite activity_loop_app, (activity_loop_run (clock w1) before lines Hbefore).
  simpl. unfold bind at 1, lift at 1. rewrite Hline.
  unfold written. simpl. now rewrite <- !app_assoc.
Qed.

Lemma bot_comment_stops_activity_report :
  let heading :=
    [Write rule;
     Write ("Open " +:+ "issue"
            +:+ "s that have not been commented on by an Oracle employee for more than 30 days");
     Write rule] in
  let fetched w := snd (GraalReport.get_nodes (B := Sample.builtins)
                          "issue" GraalReport._node_info1 "OPEN" w) in
  (GraalReport.activity_line (B := Sample.builtins) (clock (fetched Example.watched))
     Example.only_a_bot = Raise (KeyError "organization") /\
   GraalReport.show_no_recent_activity_nodes (B := Sample.builtins) "issue" Example.watched
   = (Raise (KeyError "organization"),
      written (fetched Example.watched)
        (heading ++ List.concat (map printed
           [Some (NoOracleComment (JStr "https://github.com/oracle/graal/issues/nineteen")
                    (JStr "nineteen"))])))) /\
  (GraalReport.activity_line (B := Sample.builtins) (clock (fetched Example.watched_stale))
     Example.bot_after_member = Raise (KeyError "organization") /\
   GraalReport.show_no_recent_activity_nodes (B := Sample.builtins) "issue"
     Example.watched_stale
   = (Raise (KeyError "organization"),
      written (fetched Example.watched_stale)
        (heading ++ List.concat (map printed [])))).
Proof.
  split.
  - apply (non_user_comment_stops_activity_report (B := Sample.builtins) "issue"
             [(KNum 19, issue 19 "nineteen" 0 []); (KNum 18, Example.only_a_bot)]
             Example.watched _
             [(KNum 19, issue 19 "nineteen" 0 [])] []
             [Some (NoOracleComment (JStr "https://github.com/oracle/graal/issues/nineteen")
                      (JStr "nineteen"))]
             (KNum 18) Example.only_a_bot
             (JDict [("edges", JList [Example.by_a_bot])]) Example.by_a_bot [] [] []).
    + reflexivity.
    + reflexivity.
    + repeat constructor.
    + reflexivity.
    + reflexivity.
    + constructor.
    + do 2 eexists. repeat split; reflexivity.
  - apply (non_user_comment_stops_activity_report (B := Sample.builtins) "issue"
             [(KNum 17, Example.bot_after_member); (KNum 16, issue 16 "sixteen" 0 [])]
             Example.watched_stale _
             [] [(KNum 16, issue 16 "sixteen" 0 [])] []
             (KNum 17) Example.bot_after_member
             (JDict [("edges", JList [comment "alice" true "comment-9" "2023-12-01T00:00:00Z";
                                      Example.by_a_bot])])
             Example.by_a_bot
             [comment "alice" true "comment-9" "2023-12-01T00:00:00Z"] []
             [Some (JStr "comment-9", mkDateTime 2023 12 1 0 0 0 0)]).
    + reflexivity.
    + reflexivity.
    + constructor.
    + reflexivity.
    + reflexivity.
    + repeat constructor; solve_entry.
    + do 2 eexists. repeat split; reflexivity.
Defined.

(** Had the bot not commented, the two issues would have their lines:
    the one without any comment of the organization, the other with the
    91 days since its member's comment. *)
Example lines_without_the_bot_comment :
  GraalReport.activity_line (B := Sample.builtins) Example.noon (issue 18 "eighteen" 0 [])
  = Ok (Some (NoOracleComment (JStr "https://github.com/oracle/graal/issues/eighteen")
                (JStr "eighteen"))) /\
  GraalReport.activity_line (B := Sample.builtins) Example.noon
    (issue 17 "seventeen" 0 [comment "alice" true "comment-9" "2023-12-01T00:00:00Z"])
  = Ok (Some (StaleFor (JStr "https://github.com/oracle/graal/issues/seventeen")
                (JStr "seventeen") 91 (JStr "comment-9"))).
Proof. split; reflexivity. Qed.

(** X9.  The scan looks up ["organization"] in every comment's author.
    A comment whose author carries no such field (an author that is not
    a user) raises [KeyError]: the node has no line, and the report
    stops there, with the lines of the nodes before it written and none
    after. *)
Theorem author_without_organization_stops_report {B : Builtins}
    (t : DateTime) (node timeline bad item author : Json)
    (edges rest : list Json) (cs : list (option (Json * DateTime)))
    (before after : list (Key * Json)) (lines : list (option Event)) (k : Key) (w : World) :
  subscript node "timelineItems" = Ok timeline ->
  subscript timeline "edges" = Ok (JList (edges ++ bad :: rest)) ->
  Forall2 entry edges cs ->
  subscript bad "node" = Ok item -> truthy item = true ->
  subscript item "author" = Ok author -> truthy author = true ->
  subscript author "organization" = Raise (KeyError "organization") ->
  Forall2 (fun item line => GraalReport.activity_line t (snd item) = Ok line) before lines ->
  GraalReport.activity_line t node = Raise (KeyError "organization") /\
  GraalReport.activity_loop t (before ++ (k, node) :: after) w =
  (Raise (KeyError "organization"), written w (List.concat (map printed lines))).
Proof.
  intros Htl Hedges Hcs Hi Ti Ha Ta Ho Hbefore.
  assert (Hline : GraalReport.activity_line t node = Raise (KeyError "organization")).
  { unfold GraalReport.activity_line. rewrite Htl. simpl. rewrite Hedges. simpl.
    rewrite scan_timeline_app.
    destruct (scan_timeline_earliest edges cs Hcs [] None) as (r & Hr & _);
      [constructor|].
    rewrite Hr. simpl.
    rewrite (scan_edge_no_organization r bad item author Hi Ti Ha Ta Ho). reflexivity. }
  split; [exact Hline|].
  rewrite activity_loop_app, (activity_loop_run t before lines Hbefore).
  simpl. unfold bind at 1, lift at 1. rewrite Hline. reflexivity.
Qed.

Lemma bot_comment_stops_report :
  let node := issue 15 "fifteen" 0 [not_a_comment; Example.by_a_bot] in
  GraalReport.activity_line (B := Sample.builtins) Example.noon node
  = Raise (KeyError "organization") /\
  GraalReport.activity_loop (B := Sample.builtins) Example.noon
    ([(KNum 16, issue 16 "sixteen" 0 [])] ++ (KNum 15, node) :: [(KNum 14, issue 14 "fourteen" 0 [])])
    (Example.world [])
  = (Raise (KeyError "organization"),
     written (Example.world [])
       (List.concat (map printed
          [Some (NoOracleComment (JStr "https://github.com/oracle/graal/issues/sixteen")
                   (JStr "sixteen"))]))).
Proof.
  apply (author_without_organization_stops_report (B := Sample.builtins) Example.noon
           (issue 15 "fifteen" 0 [not_a_comment; Example.by_a_bot])
           (JDict [("edges", JList [not_a_comment; Example.by_a_bot])])
           Example.by_a_bot
           (JDict [("updatedAt", JStr "2024-02-26T00:00:00Z");
                   ("url", JStr "comment-7");
                   ("author", JDict [("login", JStr "dependabot")])])
           (JDict [("login", JStr "dependabot")])
           [not_a_comment] [] [None]).
  - reflexivity.
  - reflexivity.
  - repeat constructor; solve_entry.
  - reflexivity.
  - reflexivity.
  - reflexivity.
  - reflexivity.
  - reflexivity.
  - repeat constructor.
Defined.

(** ** The table of the yearly report *)

Lemma sum_dict_set {K V : Type} (eqb : K -> K -> bool) (m : V -> Z) (k : K) (v : V)
    (d : Dict K V) :
  fold_right (fun kv acc => m (snd kv) + acc) 0 (dict_set eqb k v d) =
  fold_right (fun kv acc => m (snd kv) + acc) 0 d + m v
  - match dict_get eqb k d with
    | Some old => m old
    | None => 0
    end.
Proof.
  induction d as [|[k' v'] d IH]; simpl; [lia|].
  destruct (eqb k k'); simpl; [lia|]. rewrite IH. lia.
Qed.

Lemma row_total_as_sum (opened : Dict string Z) :
  row_total opened = fold_right (fun kv acc => snd kv + acc) 0 opened.
Proof.
  unfold row_total, values. induction opened as [|[k v] d IH]; simpl; [reflexivity|].
  now rewrite IH.
Qed.

Lemma table_total_bump (table : GraalReport.YearTable) (y : Z) (label : string) :
  table_total (bump table y label) = table_total table + 1.
Proof.
  unfold table_total, bump.
  rewrite (sum_dict_set Z.eqb row_total).
  rewrite (row_total_as_sum (dict_set _ _ _ _)), (sum_dict_set String.eqb (fun c => c)).
  rewrite <- row_total_as_sum.
  destruct (dict_get Z.eqb y table) as [opened|]; simpl.
  - destruct (dict_get String.eqb label opened); lia.
  - unfold row_total. simpl. lia.
Qed.

Lemma keys_bump (table : GraalReport.YearTable) (y : Z) (label : string) :
  keys (bump table y label) =
  if existsb (Z.eqb y) (keys table) then keys table else keys table ++ [y].
Proof.
  unfold bump. rewrite (keys_dict_set Z.eqb Z.eqb_spec). unfold dict_mem.
  assert (H : existsb (Z.eqb y) (keys table)
              = match dict_get Z.eqb y table with Some _ => true | None => false end).
  { induction table as [|[k v] t IH]; simpl; [reflexivity|].
    destruct (y =? k); simpl; [reflexivity|exact IH]. }
  rewrite H. destruct (dict_get Z.eqb y table); reflexivity.
Qed.

Lemma row_ok_bump (table : GraalReport.YearTable) (y : Z) (label : string) :
  label = "oracle" \/ label = "other" ->
  Forall (fun row => row_ok (snd row)) table ->
  Forall (fun row => row_ok (snd row)) (bump table y label).
Proof.
  intros Hlabel Hall. unfold bump.
  set (opened := match dict_get Z.eqb y table with Some o => o | None => [] end).
  assert (Hopened : row_ok opened).
  { subst opened. destruct (dict_get Z.eqb y table) as [o|] eqn:E.
    - apply (dict_get_In Z.eqb Z.eqb_spec) in E. rewrite Forall_forall in Hall.
      apply (Hall _ E).
    - split; constructor. }
  assert (Hrow : row_ok (dict_set String.eqb label
                           (match dict_get String.eqb label opened with
                            | Some c => c
                            | None => 0
                            end + 1) opened)).
  { destruct Hopened as [Hnd Hrows]. split.
    - apply (NoDup_keys_dict_set String.eqb String.eqb_spec), Hnd.
    - assert (Hn : 1 <= match dict_get String.eqb label opened with
                        | Some c => c
                        | None => 0
                        end + 1).
      { destruct (dict_get String.eqb label opened) as [c|] eqn:E; [|lia].
        apply (dict_get_In String.eqb String.eqb_spec) in E.
        rewrite Forall_forall in Hrows. destruct (Hrows _ E) as [_ Hc]. simpl in Hc. lia. }
      apply Forall_dict_set; [| |exact Hrows].
      + intros k' E. apply String.eqb_eq in E. subst. split; assumption.
      + split; assumption. }
  apply Forall_dict_set; [intros; exact Hrow|exact Hrow|exact Hall].
Qed.

Lemma tabulate_shape (bs : list (option (Z * string))) :
  Forall (fun b => match b with
                   | Some (_, label) => label = "oracle" \/ label = "other"
                   | None => True
                   end) bs ->
  forall table,
  Forall (fun row => row_ok (snd row)) table ->
  keys (tabulate bs table) = first_seen (keys table) (years bs) /\
  Forall (fun row => row_ok (snd row)) (tabulate bs table) /\
  table_total (tabulate bs table) = table_total table + Z.of_nat (List.length (years bs)).
Proof.
  induction 1 as [|b bs Hb _ IH]; intros table Htable.
  - simpl. repeat split; [exact Htable|lia].
  - destruct b as [[y label]|]; simpl.
    + destruct (IH (bump table y label) (row_ok_bump _ _ _ Hb Htable)) as (Hk & Hr & Ht).
      rewrite Hk, Ht, keys_bump, table_total_bump. repeat split; [exact Hr|lia].
    + apply IH, Htable.
Qed.

Lemma affiliation_label (orgs : list string) :
  affiliation orgs = "oracle" \/ affiliation orgs = "other".
Proof. unfold affiliation. destruct (existsb _ orgs); auto. Qed.

Section Tabulate.
Context {B : Builtins}.
Import GraalReport.

Lemma count_nodes_tabulate (nodes : list Json) (bs : list (option (Z * string))) :
  Forall2 bucket nodes bs ->
  forall table, count_nodes nodes table = Ok (tabulate bs table).
Proof.
  induction 1 as [|node b nodes bs Hb _ IH]; intros table; [reflexivity|].
  simpl. destruct b as [[y label]|]; simpl in Hb.
  - destruct Hb as (author & stamp & created_at & orgs & Ha & Ta & Hs & Hp & <- & Ho & ->).
    rewrite (count_node_authored table node author stamp created_at orgs Ha Ta Hs Hp Ho).
    simpl. apply IH.
  - destruct Hb as (author & Ha & Ta).
    unfold count_node. rewrite Ha. simpl. rewrite Ta. simpl. apply IH.
Qed.

Lemma bucket_labels (nodes : list Json) (bs : list (option (Z * string))) :
  Forall2 bucket nodes bs ->
  Forall (fun b => match b with
                   | Some (_, label) => label = "oracle" \/ label = "other"
                   | None => True
                   end) bs.
Proof.
  induction 1 as [|node b nodes bs Hb _ IH]; constructor; [|exact IH].
  destruct b as [[y label]|]; [|exact I].
  destruct Hb as (_ & _ & _ & orgs & _ & _ & _ & _ & _ & _ & ->).
  apply affiliation_label.
Qed.
End Tabulate.

(** X10.  The table of the yearly aggregator: it has one row for each
    year in which a node with an author was opened, in the order in which
    the years first come up among the nodes, not in the order of the
    years; a row holds each of the labels ["oracle"] and ["other"] at most
    once, with a count of at least one; and the counts of the whole table
    add up to the number of nodes with an author, so that no such node is
    counted twice or left out. *)
Theorem yearly_table_shape {B : Builtins}
    (nodes : list Json) (bs : list (option (Z * string))) :
  Forall2 bucket nodes bs ->
  exists table,
    GraalReport.count_nodes nodes [] = Ok table /\
    keys table = first_seen [] (years bs) /\
    Forall (fun row => row_ok (snd row)) table /\
    table_total table = Z.of_nat (List.length (years bs)).
Proof.
  intros H. exists (tabulate bs []). split; [apply count_nodes_tabulate, H|].
  destruct (tabulate_shape bs (bucket_labels nodes bs H) [] (Forall_nil _))
    as (Hk & Hr & Ht).
  repeat split; assumption.
Qed.

Lemma yearly_table_of_unordered :
  exists table,
    GraalReport.count_nodes (B := Sample.builtins) (page_nodes Example.unordered) []
    = Ok table /\
    keys table = first_seen [] (years Example.unordered_buckets) /\
    Forall (fun row => row_ok (snd row)) table /\
    table_total table = Z.of_nat (List.length (years Example.unordered_buckets)).
Proof.
  apply (yearly_table_shape (B := Sample.builtins)
           (page_nodes Example.unordered) Example.unordered_buckets).
  repeat constructor; solve_bucket.
Defined.

(** 2022 comes first, as its first node does; the row of 2022 has
    ["other"] ahead of ["oracle"], as they came. *)
Example yearly_table_unordered :
  GraalReport.count_nodes (B := Sample.builtins) (page_nodes Example.unordered) []
  = Ok [(2022, [("other", 1); ("oracle", 1)]); (2021, [("oracle", 1)])].
Proof. reflexivity. Qed.

(** ** Sorting the labels of a row *)

Section SortByKey.
Context {A K : Type}.
Variable key : A -> K.
Variable lt : A -> A -> Result bool.
Hypothesis lt_total :
  forall a b, lt a b = Ok false -> key a <> key b -> lt b a = Ok true.

Let before (a b : A) : Prop := lt a b = Ok true.

Lemma insert_sorted_by_key (x : A) (l : list A) :
  forall r,
  insert_sorted lt x l = Ok r ->
  Sorted before l ->
  ~ In (key x) (map key l) ->
  Sorted before r /\
  (forall y, HdRel before y l -> before y x -> HdRel before y r).
Proof.
  induction l as [|y l IH]; intros r H Hs Hx; simpl in H.
  - inversion H; subst. split; [repeat constructor|]. intros; now constructor.
  - destruct (lt x y) as [[|]|] eqn:E; simpl in H; try discriminate.
    + inversion H; subst. split.
      * constructor; [exact Hs|]. constructor. exact E.
      * intros z _ Hz. now constructor.
    + destruct (insert_sorted lt x l) as [r'|] eqn:Er; simpl in H; [|discriminate].
      inversion H; subst. inversion Hs as [|? ? Hs' Hhd]; subst.
      assert (Hyx : before y x).
      { apply lt_total; [exact E|]. intros Heq. apply Hx. left. now symmetry. }
      destruct (IH r' eq_refl Hs') as [Hsr Hhdr].
      { intros HIn. apply Hx. now right. }
      split.
      * constructor; [exact Hsr|]. apply Hhdr; assumption.
      * intros z Hz _. inversion Hz; subst. now constructor.
Qed.

Lemma sort_with_sorted_by_key (l : list A) :
  forall r,
  sort_with lt l = Ok r ->
  NoDup (map key l) ->
  Sorted before r.
Proof.
  induction l as [|x l IH]; intros r H Hnd; simpl in H.
  - inversion H. constructor.
  - inversion Hnd as [|? ? Hnotin Hnd']; subst.
    destruct (sort_with lt l) as [s|] eqn:Es; simpl in H; [|discriminate].
    apply (insert_sorted_by_key x s r H); [apply IH; auto|].
    intros HIn. apply Hnotin.
    apply Permutation_in with (l := map key s); [|exact HIn].
    apply Permutation_sym, Permutation_map, (sort_with_perm _ _ _ Es).
Qed.

Lemma sort_with_total (l : list A) :
  (forall a b, exists c, lt a b = Ok c) -> exists r, sort_with lt l = Ok r.
Proof.
  intros Hlt. induction l as [|x l [s Hs]]; simpl; [eauto|].
  rewrite Hs. simpl. clear Hs. induction s as [|y s [r Hr]]; simpl; [eauto|].
  destruct (Hlt x y) as [c ->]. simpl. destruct c; [eauto|]. rewrite Hr. simpl. eauto.
Qed.
End SortByKey.

(** ** The yearly report as a whole *)

Lemma label_lt_total (a b : string * Z) :
  Ok (String.ltb (fst a) (fst b)) = Ok false -> fst a <> fst b ->
  Ok (String.ltb (fst b) (fst a)) = Ok true.
Proof.
  intros H Hne. injection H as H. f_equal. apply string_ltb_total; assumption.
Qed.

Lemma Sorted_labels (counts : list (string * Z)) :
  Sorted (fun a b => Ok (String.ltb (fst a) (fst b)) = Ok true) counts ->
  Sorted (fun a b => String.ltb a b = true) (keys counts).
Proof.
  induction 1 as [|x l Hs IH Hhd]; simpl; constructor; [exact IH|].
  destruct Hhd as [|y l' Hxy]; simpl; constructor. now injection Hxy.
Qed.

Lemma year_lines_run {B : Builtins} (table : GraalReport.YearTable) :
  Forall (fun row => row_ok (snd row)) table ->
  forall w,
  exists lines,
    GraalReport.year_lines table w = (Ok tt, written w lines) /\
    Forall2 year_line table lines.
Proof.
  induction 1 as [|[y opened] table [Hnd _] _ IH]; intros w.
  - exists []. rewrite written_nil. split; [reflexivity|constructor].
  - simpl in Hnd.
    destruct (sort_with_total (fun a b : string * Z => Ok (String.ltb (fst a) (fst b))) opened)
      as [counts Hsort]; [eauto|].
    destruct (IH (written w [YearCounts y counts])) as (lines & Hrun & Hlines).
    exists (YearCounts y counts :: lines). split.
    + simpl. unfold bind at 1, lift at 1. rewrite Hsort.
      unfold bind at 1, emit at 1. unfold written at 1 in Hrun. simpl in Hrun.
      rewrite Hrun, written_written. reflexivity.
    + constructor; [|exact Hlines]. exists counts. simpl.
      split; [reflexivity|]. split; [apply (sort_with_perm _ _ _ Hsort)|].
      apply Sorted_labels.
      apply (sort_with_sorted_by_key fst _ label_lt_total opened counts Hsort Hnd).
Qed.

(** X11.  The yearly report of [graal_report.py], put together: it asks
    for the merged state as well when the node kind is [pullRequest],
    and after the fetch it writes its three heading lines, one line for
    each row of the table in the order of the rows, the counts of a line
    being those of the row by ascending label, and an empty line. *)
Theorem yearly_report_is_written {B : Builtins} (node_type : string)
    (nodes : NodeSet) (bs : list (option (Z * string))) (w w1 : World) :
  GraalReport.get_nodes node_type GraalReport._node_info2
    (if String.eqb node_type "pullRequest" then "[OPEN,CLOSED,MERGED]" else "[OPEN,CLOSED]")
    w = (Ok nodes, w1) ->
  Forall2 bucket (values nodes) bs ->
  exists table lines,
    GraalReport.count_nodes (values nodes) [] = Ok table /\
    Forall2 year_line table lines /\
    GraalReport.show_nodes_opened_per_year node_type w =
    (Ok tt,
     written w1 ([Write rule; Write (node_type +:+ "s opened per year"); Write rule]
                 ++ lines ++ [Write EmptyString])).
Proof.
  intros Hget Hbs.
  pose proof (count_nodes_tabulate (values nodes) bs Hbs []) as Hcount.
  destruct (tabulate_shape bs (bucket_labels _ bs Hbs) [] (Forall_nil _)) as (_ & Hrows & _).
  destruct (year_lines_run (tabulate bs []) Hrows
              (written w1 [Write rule; Write (node_type +:+ "s opened per year");
                           Write rule]))
    as (lines & Hrun & Hlines).
  exists (tabulate bs []), lines. split; [exact Hcount|]. split; [exact Hlines|].
  unfold GraalReport.show_nodes_opened_per_year. cbv zeta. unfold bind at 1. rewrite Hget.
  unfold bind at 1, now at 1. unfold bind at 1, emit at 1. unfold bind at 1, emit at 1.
  unfold bind at 1, emit at 1. unfold bind at 1, lift at 1. rewrite Hcount.
  unfold bind at 1. unfold written at 1 in Hrun. simpl in Hrun.
  cbv beta iota. simpl. rewrite <- !app_assoc. simpl. rewrite Hrun.
  unfold emit, written. simpl. now rewrite <- !app_assoc.
Qed.

Lemma yearly_report_of_unordered :
  let w := Example.world [ok_reply "issue" Example.unordered] in
  let g := GraalReport.get_nodes (B := Sample.builtins)
             "issue" GraalReport._node_info2 "[OPEN,CLOSED]" w in
  let nodes := file_nodes (page_nodes Example.unordered) [] in
  exists table lines,
    GraalReport.count_nodes (B := Sample.builtins) (values nodes) [] = Ok table /\
    Forall2 year_line table lines /\
    GraalReport.show_nodes_opened_per_year (B := Sample.builtins) "issue" w =
    (Ok tt,
     written (snd g) ([Write rule; Write ("issue" +:+ "s opened per year"); Write rule]
                      ++ lines ++ [Write EmptyString])).
Proof.
  apply (yearly_report_is_written (B := Sample.builtins) "issue"
           (file_nodes (page_nodes Example.unordered) []) Example.unordered_buckets
           (Example.world [ok_reply "issue" Example.unordered])).
  - reflexivity.
  - repeat constructor; solve_bucket.
Defined.

(** The lines of that report: 2022 ahead of 2021, and in the line of
    2022 ["oracle"] ahead of ["other"]. *)
Example yearly_report_lines :
  console (snd (GraalReport.show_nodes_opened_per_year (B := Sample.builtins) "issue"
                  (Example.world [ok_reply "issue" Example.unordered]))) =
  [Write "Getting issues"; Write "."; Write nl; Write rule;
   Write "issues opened per year"; Write rule;
   YearCounts 2022 [("oracle", 1); ("other", 1)];
   YearCounts 2021 [("oracle", 1)];
   Write EmptyString].
Proof. reflexivity. Qed.

(** ** A node the unassigned report cannot read *)

Lemma graal_unassigned_loop_app {B : Builtins} (a b : list (Key * Json)) :
  forall total w,
  GraalReport.unassigned_loop (a ++ b) total w =
  match GraalReport.unassigned_loop a total w with
  | (Ok total', w') => GraalReport.unassigned_loop b total' w'
  | (Raise e, w') => (Raise e, w')
  end.
Proof.
  induction a as [|[k node] a IH]; intros total w; simpl; [reflexivity|].
  unfold bind, lift.
  destruct (rbind (subscript node "assignees") _) as [n|]; [|reflexivity].
  destruct (n =? 0); [|apply IH].
  destruct (rbind (subscript node "url") _) as [l|]; [|reflexivity].
  unfold emit. apply IH.
Qed.

Lemma unassigned_unassigned_loop_app {B : Builtins} (a b : list (Key * Json)) :
  forall total w,
  UnassignedIssues.unassigned_loop (a ++ b) total w =
  match UnassignedIssues.unassigned_loop a total w with
  | (Ok total', w') => UnassignedIssues.unassigned_loop b total' w'
  | (Raise e, w') => (Raise e, w')
  end.
Proof.
  induction a as [|[k node] a IH]; intros total w; simpl; [reflexivity|].
  unfold bind, lift.
  destruct (rbind (subscript node "assignees") _) as [n|]; [|reflexivity].
  destruct (n =? 0); [|apply IH].
  destruct (rbind (subscript node "url") _) as [l|]; [|reflexivity].
  unfold emit. apply IH.
Qed.

(** X12.  A node without ["assignees"] stops the unassigned report of
    either script with a [KeyError]: the lines of the unassigned nodes
    that come before it in the order of the report are written, no line
    of a later node and no total. *)
Theorem node_without_assignees_stops_report {B : Builtins} (node_type : string)
    (nodes : NodeSet) (w w1 : World)
    (before after : list (Key * Json)) (k : Key) (node : Json) :
  Forall classifiable (values before) ->
  subscript node "assignees" = Raise (KeyError "assignees") ->
  (GraalReport.get_nodes node_type GraalReport._node_info1 "OPEN" w = (Ok nodes, w1) ->
   sorted_items true nodes = Ok (before ++ (k, node) :: after) ->
   exists lines,
     Forall2 (fun item l => unassigned_line (snd item) l) (filter unassignedb before) lines /\
     GraalReport.show_unassigned_nodes node_type w =
     (Raise (KeyError "assignees"),
      written w1 ([Write rule; Write ("Unassigned open " +:+ node_type +:+ "s");
                   Write rule] ++ lines))) /\
  (UnassignedIssues.get_nodes node_type w = (Ok nodes, w1) ->
   sorted_items false nodes = Ok (before ++ (k, node) :: after) ->
   exists lines,
     Forall2 (fun item l => unassigned_line (snd item) l) (filter unassignedb before) lines /\
     UnassignedIssues.show_unassigned_nodes node_type w =
     (Raise (KeyError "assignees"), written w1 lines)).
Proof.
  intros Hbefore Hnode. split; intros Hget Hsort.
  - destruct (graal_unassigned_loop_run before Hbefore 0
                (written w1 [Write rule; Write ("Unassigned open " +:+ node_type +:+ "s");
                             Write rule]))
      as (lines & Hrun & Hlines).
    exists lines. split; [exact Hlines|].
    unfold GraalReport.show_unassigned_nodes. unfold bind at 1. rewrite Hget.
    unfold bind at 1, emit at 1. unfold bind at 1, emit at 1.
    unfold bind at 1, emit at 1. unfold bind at 1, lift at 1. rewrite Hsort.
    unfold bind at 1. rewrite graal_unassigned_loop_app.
    unfold written at 1 in Hrun. simpl in Hrun. simpl.
    rewrite <- !app_assoc. simpl. rewrite Hrun.
    simpl. unfold bind at 1, lift at 1. rewrite Hnode. simpl.
    rewrite written_written. reflexivity.
  - destruct (unassigned_unassigned_loop_run before Hbefore 0 w1) as (lines & Hrun & Hlines).
    exists lines. split; [exact Hlines|].
    unfold UnassignedIssues.show_unassigned_nodes. unfold bind at 1. rewrite Hget.
    unfold bind at 1, lift at 1. rewrite Hsort.
    unfold bind at 1. rewrite unassigned_unassigned_loop_app, Hrun.
    simpl. unfold bind at 1, lift at 1. rewrite Hnode. reflexivity.
Qed.

Lemma broken_node_stops_reports :
  let w := Example.half_read in
  let g := snd (GraalReport.get_nodes (B := Sample.builtins)
                  "issue" GraalReport._node_info1 "OPEN" w) in
  let u := snd (UnassignedIssues.get_nodes (B := Sample.builtins) "issue" w) in
  (exists lines,
     Forall2 (fun item l => unassigned_line (snd item) l)
       (filter (unassignedb (B := Sample.builtins)) [(KNum 9, issue 9 "nine" 0 [])]) lines /\
     GraalReport.show_unassigned_nodes (B := Sample.builtins) "issue" w =
     (Raise (KeyError "assignees"),
      written g ([Write rule; Write ("Unassigned open " +:+ "issue" +:+ "s"); Write rule]
                 ++ lines))) /\
  (exists lines,
     Forall2 (fun item l => unassigned_line (snd item) l)
       (filter (unassignedb (B := Sample.builtins)) [(KNum 7, issue 7 "seven" 0 [])]) lines /\
     UnassignedIssues.show_unassigned_nodes (B := Sample.builtins) "issue" w =
     (Raise (KeyError "assignees"), written u lines)).
Proof.
  split.
  - apply (node_without_assignees_stops_report (B := Sample.builtins) "issue"
             (file_nodes (page_nodes Example.with_broken) []) Example.half_read
             (snd (GraalReport.get_nodes (B := Sample.builtins)
                     "issue" GraalReport._node_info1 "OPEN" Example.half_read))
             [(KNum 9, issue 9 "nine" 0 [])] [(KNum 7, issue 7 "seven" 0 [])]
             (KNum 8) Example.broken).
    + repeat constructor. eexists. split; [reflexivity|].
      intros _. eexists. eexists. eexists. repeat split; reflexivity.
    + reflexivity.
    + reflexivity.
    + reflexivity.
  - apply (node_without_assignees_stops_report (B := Sample.builtins) "issue"
             (file_nodes (page_nodes Example.with_broken) []) Example.half_read
             (snd (UnassignedIssues.get_nodes (B := Sample.builtins)
                     "issue" Example.half_read))
             [(KNum 7, issue 7 "seven" 0 [])] [(KNum 9, issue 9 "nine" 0 [])]
             (KNum 8) Example.broken).
    + repeat constructor. eexists. split; [reflexivity|].
      intros _. eexists. eexists. eexists. repeat split; reflexivity.
    + reflexivity.
    + reflexivity.
    + reflexivity.
Defined.

(** ** The threshold of the activity report *)

Lemma delta_days_threshold (a b : DateTime) :
  30 < delta_days a b <-> 31 * 86400000000 <= to_microseconds a - to_microseconds b.
Proof.
  unfold delta_days. set (x := to_microseconds a - to_microseconds b).
  split; intros H.
  - pose proof (Z.mul_div_le x 86400000000 ltac:(lia)). lia.
  - assert (31 <= x / 86400000000); [|lia].
    apply Z.div_le_lower_bound; lia.
Qed.

Lemma activity_line_of_scan {B : Builtins} (t : DateTime) (node timeline url title : Json)
    (edges : list Json) (r : option (Json * DateTime)) :
  subscript node "timelineItems" = Ok timeline ->
  subscript timeline "edges" = Ok (JList edges) ->
  subscript node "url" = Ok url ->
  subscript node "title" = Ok title ->
  GraalReport.scan_timeline edges None = Ok r ->
  GraalReport.activity_line t node =
  Ok (match r with
      | None => Some (NoOracleComment url title)
      | Some (comment_url, updated_at) =>
          if 30 <? delta_days t updated_at
          then Some (StaleFor url title (delta_days t updated_at) comment_url)
          else None
      end).
Proof.
  intros Htl Hedges Hurl Htitle Hr.
  unfold GraalReport.activity_line. rewrite Htl. simpl. rewrite Hedges. simpl.
  rewrite Hr. simpl. destruct r as [[comment_url updated_at]|].
  - destruct (30 <? delta_days t updated_at); [|reflexivity].
    rewrite Hurl. simpl. rewrite Htitle. reflexivity.
  - rewrite Hurl. simpl. rewrite Htitle. reflexivity.
Qed.

(** X13.  The threshold of the activity report is 31 whole days: a node
    with a retained comment has no line so long as less than 31 times 24
    hours have passed since the comment's update time, and a line from
    then on; so a node that is reported stays reported at every later
    reading of the clock. *)
Theorem stale_from_31_days_on {B : Builtins} (now later : DateTime)
    (node timeline url title : Json) (edges : list Json)
    (cs : list (option (Json * DateTime))) :
  subscript node "timelineItems" = Ok timeline ->
  subscript timeline "edges" = Ok (JList edges) ->
  Forall2 entry edges cs ->
  subscript node "url" = Ok url ->
  subscript node "title" = Ok title ->
  exists r line line',
    GraalReport.scan_timeline edges None = Ok r /\
    GraalReport.activity_line now node = Ok line /\
    GraalReport.activity_line later node = Ok line' /\
    (forall comment_url t,
       r = Some (comment_url, t) ->
       (line = None <-> to_microseconds now - to_microseconds t < 31 * 86400000000)) /\
    (to_microseconds now <= to_microseconds later -> line <> None -> line' <> None).
Proof.
  intros Htl Hedges Hcs Hurl Htitle.
  destruct (scan_timeline_earliest edges cs Hcs [] None) as (r & Hr & _); [constructor|].
  eexists r, _, _. split; [exact Hr|].
  split; [apply (activity_line_of_scan now _ _ _ _ _ _ Htl Hedges Hurl Htitle Hr)|].
  split; [apply (activity_line_of_scan later _ _ _ _ _ _ Htl Hedges Hurl Htitle Hr)|].
  split.
  - intros comment_url t ->.
    pose proof (delta_days_threshold now t) as Hth.
    destruct (Z.ltb_spec 30 (delta_days now t)); split; intros H'; try discriminate;
      try reflexivity; lia.
  - intros Hlater. destruct r as [[comment_url t]|]; [|discriminate].
    pose proof (delta_days_threshold now t) as Hnow.
    pose proof (delta_days_threshold later t) as Hlat.
    destruct (Z.ltb_spec 30 (delta_days now t)); [|congruence].
    intros _. destruct (Z.ltb_spec 30 (delta_days later t)); [discriminate|lia].
Qed.

Lemma stale_from_31_days_on_discussed :
  exists r line line',
    GraalReport.scan_timeline (B := Sample.builtins) Example.timeline None = Ok r /\
    GraalReport.activity_line (B := Sample.builtins) Example.noon Example.discussed
    = Ok line /\
    GraalReport.activity_line (B := Sample.builtins) (mkDateTime 2024 4 1 0 0 0 0)
      Example.discussed = Ok line' /\
    (forall comment_url t,
       r = Some (comment_url, t) ->
       (line = None <->
        to_microseconds Example.noon - to_microseconds t < 31 * 86400000000)) /\
    (to_microseconds Example.noon <= to_microseconds (mkDateTime 2024 4 1 0 0 0 0) ->
     line <> None -> line' <> None).
Proof.
  apply (stale_from_31_days_on (B := Sample.builtins) Example.noon
           (mkDateTime 2024 4 1 0 0 0 0) Example.discussed
           (JDict [("edges", JList Example.timeline)])
           (JStr "https://github.com/oracle/graal/issues/twelve") (JStr "twelve")
           Example.timeline Example.classified).
  - reflexivity.
  - reflexivity.
  - repeat constructor; solve_entry.
  - reflexivity.
  - reflexivity.
Defined.

(** ** Where a fetch starts *)

Section FirstQuery.
Context {B : Builtins}.

Lemma graal_fetch_pages_requests (node_type node_info states : string) (fuel : nat) :
  forall cursor d w,
  exists more,
    requests (snd (GraalReport.fetch_pages fuel node_type node_info states cursor d w))
    = requests w ++ more /\
    (fuel <> O ->
     exists tail,
       more = GraalReport.get_open_nodes_query node_type node_info states cursor :: tail).
Proof.
  induction fuel as [|fuel IH]; intros cursor d w.
  - exists []. simpl. rewrite app_nil_r. split; [reflexivity|congruence].
  - rewrite graal_fetch_pages_unfold. cbv zeta.
    destruct (transport w) as [|r rest]; [simpl; eauto|].
    destruct (status r =? 200); [|simpl; eauto].
    destruct (GraalReport.read_page node_type (body r) d) as [[d' [c|]]|e];
      [|simpl; eauto|destruct e; simpl; eauto].
    destruct (IH c d' (advance w rest
                         [GraalReport.get_open_nodes_query node_type node_info states cursor]
                         [Write "."])) as (more & Hmore & _).
    rewrite Hmore. simpl. rewrite <- app_assoc. simpl. eauto.
Qed.

Lemma unassigned_fetch_pages_requests (node_type : string) (fuel : nat) :
  forall cursor d w,
  exists more,
    requests (snd (UnassignedIssues.fetch_pages fuel node_type cursor d w))
    = requests w ++ more /\
    (fuel <> O ->
     exists tail, more = UnassignedIssues.get_open_nodes_query node_type cursor :: tail).
Proof.
  induction fuel as [|fuel IH]; intros cursor d w.
  - exists []. simpl. rewrite app_nil_r. split; [reflexivity|congruence].
  - rewrite unassigned_fetch_pages_unfold. cbv zeta.
    destruct (transport w) as [|r rest]; [simpl; eauto|].
    destruct (status r =? 200); [|simpl; eauto].
    destruct (UnassignedIssues.read_page node_type (body r) d) as [[d' [c|]]|e];
      [|simpl; eauto|simpl; eauto].
    destruct (IH c d' (advance w rest
                         [UnassignedIssues.get_open_nodes_query node_type cursor]
                         [Write "."])) as (more & Hmore & _).
    rewrite Hmore. simpl. rewrite <- app_assoc. simpl. eauto.
Qed.
End FirstQuery.

(** X14.  Every fetch starts at the first page: the first query
    [get_nodes] sends carries no cursor, whatever was fetched before.
    [unassigned_issues.py] keeps nothing between calls, so each call of
    its [get_nodes] sends that query; [graal_report.py] sends it on every
    miss and sends nothing on a hit. *)
Theorem fetch_starts_at_first_page {B : Builtins}
    (node_type node_info states : string) (w : World) :
  (if dict_mem String.eqb (node_type +:+ node_info) (_cached_results w)
   then requests (snd (GraalReport.get_nodes node_type node_info states w)) = requests w
   else exists tail,
          requests (snd (GraalReport.get_nodes node_type node_info states w))
          = requests w
            ++ GraalReport.get_open_nodes_query node_type node_info states JNull :: tail) /\
  exists tail,
    requests (snd (UnassignedIssues.get_nodes node_type w))
    = requests w ++ UnassignedIssues.get_open_nodes_query node_type JNull :: tail.
Proof.
  split.
  - destruct (dict_mem String.eqb (node_type +:+ node_info) (_cached_results w)) eqn:Hmem.
    + rewrite (graal_get_nodes_hit _ _ _ _ Hmem). reflexivity.
    + rewrite (graal_get_nodes_miss_unfold _ _ _ _ Hmem).
      destruct (graal_fetch_pages_requests node_type node_info states
                  (S (List.length (transport w))) JNull []
                  (written w [Write ("Getting " +:+ node_type +:+ "s")]))
        as (more & Hmore & Hfirst).
      destruct (Hfirst ltac:(discriminate)) as [tail ->].
      destruct (GraalReport.fetch_pages _ _ _ _ _ _ _) as [[ns|e] w2];
        simpl in *; eauto.
  - rewrite unassigned_get_nodes_unfold.
    destruct (unassigned_fetch_pages_requests node_type
                (S (List.length (transport w))) JNull []
                (written w [Write ("Getting " +:+ node_type +:+ "s")]))
      as (more & Hmore & Hfirst).
    destruct (Hfirst ltac:(discriminate)) as [tail ->].
    destruct (UnassignedIssues.fetch_pages _ _ _ _ _) as [[ns|e] w2];
      simpl in *; eauto.
Qed.
